(** * LoungeCalendar: the feed aggregator and the month timetable

    A shallow embedding of
      - [src/pages/api/public-calendar.ts]   (the API handler: two iCal feeds
        fetched, normalised, tagged and concatenated), and
      - [src/components/TimetableCalendar.tsx] with its later revision
        [src/unnamed/part_000] (the day axis of a month and the exact-match
        binning of events into class periods),
    together with the part of the ECMAScript [Date] object these two files
    call: time values, the civil calendar, local time, [toISOString] and the
    parsing of the strings [toISOString] writes. *)

From Stdlib Require Import ZArith Lia Bool String Ascii List.
From Stdlib Require Import FunctionalExtensionality.
From stdpp Require Import base list.
From Equations Require Import Equations.
From Equations.Prop Require Import Logic.
Import ListNotations.

Local Open Scope string_scope.
Local Open Scope Z_scope.

(** ** JavaScript numbers

    Every number the two files compute with is an integer or [NaN]
    (a component of an Invalid Date): [None] is [NaN]. *)

Definition Number : Type := option Z.
Definition NaN : Number := None.

(** [a === b] on numbers: [NaN] is equal to nothing, itself included. *)
Definition strictEq (a b : Number) : bool :=
  match a, b with
  | Some x, Some y => x =? y
  | _, _ => false
  end.

(** [a <= b] on numbers: false as soon as one side is [NaN]. *)
Definition lessEq (a b : Number) : bool :=
  match a, b with
  | Some x, Some y => x <=? y
  | _, _ => false
  end.

(** [a + b] on numbers. *)
Definition plus (a b : Number) : Number :=
  match a, b with
  | Some x, Some y => Some (x + y)
  | _, _ => NaN
  end.

(** ** ECMAScript time values (ECMA-262, "Time Values and Time Range")

    A time value is a number of milliseconds since 1970-01-01T00:00:00Z.
    The abstract operations below are those of the standard, on
    mathematical integers. *)

Module ES.

Definition msPerDay : Z := 86400000.
Definition msPerHour : Z := 3600000.
Definition msPerMinute : Z := 60000.
Definition msPerSecond : Z := 1000.

Definition Day (t : Z) : Z := t / msPerDay.
Definition TimeWithinDay (t : Z) : Z := t mod msPerDay.

Definition DaysInYear (y : Z) : Z :=
  if negb (y mod 4 =? 0) then 365
  else if negb (y mod 100 =? 0) then 366
  else if negb (y mod 400 =? 0) then 365
  else 366.

Definition DayFromYear (y : Z) : Z :=
  365 * (y - 1970) + (y - 1969) / 4 - (y - 1901) / 100 + (y - 1601) / 400.

Definition TimeFromYear (y : Z) : Z := msPerDay * DayFromYear y.

(** The standard defines [YearFromTime t] as the largest [y] with
    [TimeFromYear y <= t].  It is computed here from the mean length of a
    Gregorian year (146097 days in 400 years), which is off by at most
    one year, and then adjusted; [YearFromTime_spec] below proves that
    this is the year of the standard. *)
Definition YearFromDay (d : Z) : Z :=
  let y := 1970 + (400 * d) / 146097 in
  if d <? DayFromYear y then y - 1
  else if DayFromYear (y + 1) <=? d then y + 1
  else y.

Definition YearFromTime (t : Z) : Z := YearFromDay (Day t).

Definition InLeapYear (t : Z) : Z :=
  if DaysInYear (YearFromTime t) =? 366 then 1 else 0.

Definition DayWithinYear (t : Z) : Z := Day t - DayFromYear (YearFromTime t).

Definition MonthFromTime (t : Z) : Z :=
  let d := DayWithinYear t in
  let l := InLeapYear t in
  if d <? 31 then 0
  else if d <? 59 + l then 1
  else if d <? 90 + l then 2
  else if d <? 120 + l then 3
  else if d <? 151 + l then 4
  else if d <? 181 + l then 5
  else if d <? 212 + l then 6
  else if d <? 243 + l then 7
  else if d <? 273 + l then 8
  else if d <? 304 + l then 9
  else if d <? 334 + l then 10
  else 11.

Definition DateFromTime (t : Z) : Z :=
  let d := DayWithinYear t in
  let l := InLeapYear t in
  match MonthFromTime t with
  | 0 => d + 1
  | 1 => d - 30
  | 2 => d - 58 - l
  | 3 => d - 89 - l
  | 4 => d - 119 - l
  | 5 => d - 150 - l
  | 6 => d - 180 - l
  | 7 => d - 211 - l
  | 8 => d - 242 - l
  | 9 => d - 272 - l
  | 10 => d - 303 - l
  | _ => d - 333 - l
  end.

Definition HourFromTime (t : Z) : Z := (t / msPerHour) mod 24.
Definition MinFromTime (t : Z) : Z := (t / msPerMinute) mod 60.
Definition SecFromTime (t : Z) : Z := (t / msPerSecond) mod 60.
Definition msFromTime (t : Z) : Z := t mod msPerSecond.

Definition MakeTime (hour min sec ms : Z) : Z :=
  hour * msPerHour + min * msPerMinute + sec * msPerSecond + ms.

(** Number of days of the year [y] that precede its month [mn] (0..11). *)
Definition DaysBeforeMonth (y mn : Z) : Z :=
  let l := if DaysInYear y =? 366 then 1 else 0 in
  match mn with
  | 0 => 0
  | 1 => 31
  | 2 => 59 + l
  | 3 => 90 + l
  | 4 => 120 + l
  | 5 => 151 + l
  | 6 => 181 + l
  | 7 => 212 + l
  | 8 => 243 + l
  | 9 => 273 + l
  | 10 => 304 + l
  | _ => 334 + l
  end.

(** [MakeDay]: months outside 0..11 carry into the year, and the date
    counts from the first of the month, so that date 0 is the last day of
    the month before. *)
Definition MakeDay (year month date : Z) : Z :=
  let ym := year + month / 12 in
  let mn := month mod 12 in
  DayFromYear ym + DaysBeforeMonth ym mn + date - 1.

Definition MakeDate (day time : Z) : Z := day * msPerDay + time.

(** Years 0..99 given to the [Date] constructor mean 1900..1999. *)
Definition MakeFullYear (year : Z) : Z :=
  if (0 <=? year) && (year <=? 99) then 1900 + year else year.

Definition maxTime : Z := 8640000000000000.

Definition TimeClip (t : Z) : Number :=
  if Z.abs t <=? maxTime then Some t else NaN.

(** The length of month [mn] (0..11) of year [y]. *)
Definition DaysInMonth (y mn : Z) : Z :=
  match mn with
  | 1 => if DaysInYear y =? 366 then 29 else 28
  | 3 | 5 | 8 | 10 => 30
  | _ => 31
  end.

(** Day of the week, 0 for Sunday: 1 January 1970 was a Thursday. *)
Definition WeekDay (t : Z) : Z := (Day t + 4) mod 7.

End ES.

(** ** The runtime and its [Date] objects

    What the language leaves to the engine the code runs in: the offset of
    the local time zone, and what [Date.parse] makes of a string that is
    not in the format of the standard ("implementation-defined").

    [LocalTZA t isUTC] is the offset of the zone, in milliseconds east of
    UTC, in force at [t]: at the instant [t] when [isUTC] is [true], at the
    local time [t] when it is [false].  A local time that a change of the
    offset skips or repeats is read with the offset before the change. *)

Record Runtime : Type := {
  LocalTZA : Z -> bool -> Z;
  legacyParse : string -> Number
}.

(** A [Date] object is its time value; [NaN] is the Invalid Date. *)
Definition Date : Type := Number.

Section DateObject.

Variable rt : Runtime.

Definition LocalTime (t : Z) : Z := t + LocalTZA rt t true.
Definition UTC (t : Z) : Z := t - LocalTZA rt t false.

Definition getFullYear (d : Date) : Number :=
  option_map (fun t => ES.YearFromTime (LocalTime t)) d.
Definition getMonth (d : Date) : Number :=
  option_map (fun t => ES.MonthFromTime (LocalTime t)) d.
Definition getDate (d : Date) : Number :=
  option_map (fun t => ES.DateFromTime (LocalTime t)) d.
Definition getHours (d : Date) : Number :=
  option_map (fun t => ES.HourFromTime (LocalTime t)) d.
Definition getMinutes (d : Date) : Number :=
  option_map (fun t => ES.MinFromTime (LocalTime t)) d.

(** [new Date(year, month, date)]: the fields are local time, the time of
    day is midnight. *)
Definition newDate (year month date : Number) : Date :=
  match year, month, date with
  | Some y, Some m, Some dt =>
      let yr := ES.MakeFullYear y in
      let finalDate := ES.MakeDate (ES.MakeDay yr m dt) (ES.MakeTime 0 0 0 0) in
      ES.TimeClip (UTC finalDate)
  | _, _, _ => NaN
  end.

Definition getDay (d : Date) : Number :=
  option_map (fun t => ES.WeekDay (LocalTime t)) d.

Definition getTime (d : Date) : Number := d.

(** [d.setMonth(month)]: the month of the local date is replaced, the
    day of the month and the time of day are kept as numbers, and
    [MakeDay] carries what does not fit.  The result is the new time value
    of [d]. *)
Definition setMonth (d : Date) (month : Number) : Number :=
  match d, month with
  | Some tv, Some m =>
      let t := LocalTime tv in
      let newDate :=
        ES.MakeDate (ES.MakeDay (ES.YearFromTime t) m (ES.DateFromTime t))
                    (ES.TimeWithinDay t) in
      ES.TimeClip (UTC newDate)
  | _, _ => NaN
  end.

End DateObject.

(** ** Exceptions *)

Inductive Thrown : Type :=
| ErrorObject (name message : string)   (* [instanceof Error] *)
| OtherValue (shown : string).           (* anything else that was thrown *)

Inductive Completion (A : Type) : Type :=
| Normal (a : A)
| Throw (e : Thrown).
Arguments Normal {A} a.
Arguments Throw {A} e.

Definition bind {A B} (c : Completion A) (k : A -> Completion B) : Completion B :=
  match c with
  | Normal a => k a
  | Throw e => Throw e
  end.

Declare Scope completion_scope.
Delimit Scope completion_scope with completion.
Notation "x <- c ;; k" := (bind c (fun x => k))
  (at level 100, c at next level, right associativity) : completion_scope.

(** [array.map(f)] with a callback that may throw: the first exception
    ends the traversal. *)
Fixpoint mapThrowing {A B} (f : A -> Completion B) (l : list A)
  : Completion (list B) :=
  match l with
  | [] => Normal []
  | a :: l' =>
      (b <- f a ;;
       bs <- mapThrowing f l' ;;
       Normal (b :: bs))%completion
  end.

(** ** ISO-8601 strings: [Date.prototype.toISOString] and [Date.parse] *)

Definition digitChar (d : Z) : ascii := ascii_of_nat (Z.to_nat (48 + d)).

(** The [k] low decimal digits of [n], most significant first, before [rest]. *)
Fixpoint digits (k : nat) (n : Z) (rest : string) : string :=
  match k with
  | O => rest
  | S k' => String (digitChar ((n / 10 ^ Z.of_nat k') mod 10)) (digits k' n rest)
  end.

Definition yearString (y : Z) (rest : string) : string :=
  if (0 <=? y) && (y <=? 9999) then digits 4 y rest
  else if y <? 0 then String "-" (digits 6 (- y) rest)
  else String "+" (digits 6 y rest).

Definition isoString (t : Z) : string :=
  yearString (ES.YearFromTime t)
    (String "-" (digits 2 (ES.MonthFromTime t + 1)
    (String "-" (digits 2 (ES.DateFromTime t)
    (String "T" (digits 2 (ES.HourFromTime t)
    (String ":" (digits 2 (ES.MinFromTime t)
    (String ":" (digits 2 (ES.SecFromTime t)
    (String "." (digits 3 (ES.msFromTime t) "Z")))))))))))).

Definition toISOString (d : Date) : Completion string :=
  match d with
  | Some t => Normal (isoString t)
  | None => Throw (ErrorObject "RangeError" "Invalid time value")
  end.

Definition digitValue (c : ascii) : option Z :=
  let n := Z.of_nat (nat_of_ascii c) in
  if (48 <=? n) && (n <=? 57) then Some (n - 48) else None.

(** Reads exactly [k] decimal digits. *)
Fixpoint number (k : nat) (acc : Z) (s : string) : option (Z * string) :=
  match k with
  | O => Some (acc, s)
  | S k' =>
      match s with
      | String c s' =>
          match digitValue c with
          | Some d => number k' (10 * acc + d) s'
          | None => None
          end
      | EmptyString => None
      end
  end.

Definition expect (c : ascii) (s : string) : option string :=
  match s with
  | String c' s' => if Ascii.eqb c c' then Some s' else None
  | EmptyString => None
  end.

Definition isSign (c : ascii) : bool := Ascii.eqb c "+" || Ascii.eqb c "-".

(** A four-digit year, or a sign and six digits ("-000000" is not a year). *)
Definition yearPart (s : string) : option (Z * string) :=
  match s with
  | String c s' =>
      if isSign c then
        '(y, r) ← number 6 0 s';
        if Ascii.eqb c "-"
        then (if y =? 0 then None else Some (- y, r))
        else Some (y, r)
      else number 4 0 s
  | EmptyString => None
  end.

Definition legalFields (y mo d h mi sec ms : Z) : bool :=
  (1 <=? mo) && (mo <=? 12) && (1 <=? d) && (d <=? ES.DaysInMonth y (mo - 1))
  && ((h <=? 23) || ((h =? 24) && (mi =? 0) && (sec =? 0) && (ms =? 0)))
  && (mi <=? 59) && (sec <=? 59).

(** The complete UTC form of the date-time string format,
    [YYYY-MM-DDTHH:mm:ss.sssZ] with a four-digit or an expanded year: the
    form [toISOString] writes.  [None] when the string is not of this
    form or a field is out of bounds. *)
Definition parseISO (s : string) : option Z :=
  '(y, s) ← yearPart s;
  s ← expect "-" s; '(mo, s) ← number 2 0 s;
  s ← expect "-" s; '(d, s) ← number 2 0 s;
  s ← expect "T" s; '(h, s) ← number 2 0 s;
  s ← expect ":" s; '(mi, s) ← number 2 0 s;
  s ← expect ":" s; '(sec, s) ← number 2 0 s;
  s ← expect "." s; '(ms, s) ← number 3 0 s;
  s ← expect "Z" s;
  match s with
  | EmptyString =>
      if legalFields y mo d h mi sec ms
      then Some (ES.MakeDate (ES.MakeDay y (mo - 1) d) (ES.MakeTime h mi sec ms))
      else None
  | String _ _ => None
  end.

(** [Date.parse]: the complete UTC form is read as the standard says; any
    other string is the engine's business. *)
Definition Date_parse (rt : Runtime) (s : string) : Number :=
  match parseISO s with
  | Some tv => ES.TimeClip tv
  | None => legacyParse rt s
  end.

(** [new Date(string)]. *)
Definition newDateOfString (rt : Runtime) (s : string) : Date := Date_parse rt s.

(** ** [src/pages/api/public-calendar.ts] *)

(** What [node-ical] hands over for one entry of a feed (interface
    [ICalEvent]).  [start] and [end] are [Date] objects, valid or Invalid,
    as the interface declares them; the handler itself reads them off
    [any], and an entry of type VEVENT that held no [Date] there (where
    [toISOString] is not a function) is outside this model.  Entries of
    another [type] (the calendar itself, time zone definitions) have no
    such fields; the code never reads them there, so the model carries
    arbitrary values in their place. *)
Module ICal.
Record ICalEvent : Type := {
  type : string;
  uid : string;
  summary : string;
  start : Date;
  end_ : Date;
  location : option string;
  description : option string
}.
End ICal.
Abbreviation ICalEvent := ICal.ICalEvent.

Inductive Source : Type := calendar1 | calendar2.

Record DateTimeTimeZone : Type := {
  dateTime : string;
  timeZone : string
}.

Record Location : Type := { displayName : string }.

(** [type CalendarEvent]; an absent optional field is [None]. *)
Record CalendarEvent : Type := {
  id_ : string;
  subject : string;
  start : DateTimeTimeZone;
  end_ : DateTimeTimeZone;
  location : option Location;
  description : option string;
  source : Source
}.

(** A parsed feed, [Record<string, any>], as the list of its own properties
    in the order [Object.values] enumerates them. *)
Definition Feed : Type := list (string * ICalEvent).

Definition Object_values (events : Feed) : list ICalEvent := map snd events.

(** A string is truthy when it is not empty. *)
Definition truthy (s : string) : bool :=
  match s with
  | EmptyString => false
  | String _ _ => true
  end.

(** The callback of [.map] in [formatEvents]. *)
Definition formatEvent (source : Source) (event : ICalEvent)
  : Completion CalendarEvent :=
  (startISO <- toISOString (ICal.start event) ;;
   endISO <- toISOString (ICal.end_ event) ;;
   Normal {|
     id_ := ICal.uid event;
     subject := ICal.summary event;
     start := {| dateTime := startISO; timeZone := "Asia/Tokyo" |};
     end_ := {| dateTime := endISO; timeZone := "Asia/Tokyo" |};
     location :=
       match ICal.location event with
       | Some l => if truthy l then Some {| displayName := l |} else None
       | None => None
       end;
     description := ICal.description event;
     source := source
   |})%completion.

Definition isVEVENT (event : ICalEvent) : bool :=
  String.eqb (ICal.type event) "VEVENT".

Definition formatEvents (events : Feed) (source : Source)
  : Completion (list CalendarEvent) :=
  mapThrowing (formatEvent source) (List.filter isVEVENT (Object_values events)).

(** [process.env]: a variable is unset ([None]) or a string. *)
Record Env : Type := {
  PUBLIC_CALENDAR_URL_1 : option string;
  PUBLIC_CALENDAR_URL_2 : option string
}.

(** The promise [ical.async.fromURL] returns, once settled. *)
Inductive Settled : Type :=
| Fulfilled (events : Feed)
| Rejected (reason : Thrown).

(** The network as the handler meets it: how its [k]-th request
    ([k] = 0, 1) to a URL ends, and, should both requests fail, whether
    the first of them fails first. *)
Record Network : Type := {
  fromURL : nat -> string -> Settled;
  firstFailsFirst : bool
}.

(** [await Promise.all([p1, p2])]: both results, or the reason of the
    promise that rejects first. *)
Definition Promise_all (net : Network) (p1 p2 : Settled)
  : Completion (Feed * Feed) :=
  match p1, p2 with
  | Fulfilled events1, Fulfilled events2 => Normal (events1, events2)
  | Rejected r1, Fulfilled _ => Throw r1
  | Fulfilled _, Rejected r2 => Throw r2
  | Rejected r1, Rejected r2 => Throw (if firstFailsFirst net then r1 else r2)
  end.

Inductive Body : Type :=
| ErrorBody (error : string) (details : option string)
| ValueBody (value : list CalendarEvent).

Record Response : Type := {
  status : Z;
  json : Body
}.

(** One run of the handler: the URLs it requested, in order, what it
    wrote with [console.error], and its response. *)
Record Run : Type := {
  requested : list string;
  logged : list Thrown;
  response : Response
}.

(** [!url] is false exactly for a set, non-empty variable. *)
Definition configured (url : option string) : option string :=
  match url with
  | Some u => if truthy u then Some u else None
  | None => None
  end.

Definition configurationMessage : string := "カレンダーURLが設定されていません".
Definition fetchMessage : string := "カレンダーの取得に失敗しました".
Definition unknownMessage : string := "未知のエラー".

(** [error instanceof Error ? error.message : '未知のエラー']. *)
Definition detailsOf (error : Thrown) : string :=
  match error with
  | ErrorObject _ message => message
  | OtherValue _ => unknownMessage
  end.

Definition handler (env : Env) (net : Network) : Run :=
  let calendar1Url := PUBLIC_CALENDAR_URL_1 env in
  let calendar2Url := PUBLIC_CALENDAR_URL_2 env in
  match configured calendar1Url, configured calendar2Url with
  | Some url1, Some url2 =>
      let p1 := fromURL net 0%nat url1 in
      let p2 := fromURL net 1%nat url2 in
      let attempt :=
        (feeds <- Promise_all net p1 p2 ;;
         formatted1 <- formatEvents (fst feeds) calendar1 ;;
         formatted2 <- formatEvents (snd feeds) calendar2 ;;
         let combinedEvents := (formatted1 ++ formatted2)%list in
         Normal {| status := 200; json := ValueBody combinedEvents |})%completion in
      match attempt with
      | Normal res =>
          {| requested := [url1; url2]; logged := []; response := res |}
      | Throw error =>
          {| requested := [url1; url2];
             logged := [error];
             response :=
               {| status := 500;
                  json := ErrorBody fetchMessage (Some (detailsOf error)) |} |}
      end
  | _, _ =>
      {| requested := [];
         logged := [];
         response :=
           {| status := 400; json := ErrorBody configurationMessage None |} |}
  end.

(** ** [src/components/TimetableCalendar.tsx] and [src/unnamed/part_000]

    The two files are two revisions of one component.  [getDaysInMonth]
    and [getEventsForTimeSlot] are the same in both; the later revision
    has a seventh period in [TIME_SLOTS]. *)

Record TimeSlot : Type := {
  name : string;
  startHour : Z;
  startMinute : Z;
  endHour : Z;
  endMinute : Z
}.

Module TimetableCalendar.
Definition TIME_SLOTS : list TimeSlot := [
  {| name := "1限"; startHour := 8; startMinute := 50; endHour := 10; endMinute := 20 |};
  {| name := "2限"; startHour := 10; startMinute := 30; endHour := 12; endMinute := 0 |};
  {| name := "昼休み"; startHour := 12; startMinute := 0; endHour := 13; endMinute := 0 |};
  {| name := "3限"; startHour := 13; startMinute := 0; endHour := 14; endMinute := 30 |};
  {| name := "4限"; startHour := 14; startMinute := 40; endHour := 16; endMinute := 10 |};
  {| name := "5限"; startHour := 16; startMinute := 20; endHour := 17; endMinute := 50 |}
].
End TimetableCalendar.

Module Part000.
Definition TIME_SLOTS : list TimeSlot := [
  {| name := "1限"; startHour := 8; startMinute := 50; endHour := 10; endMinute := 20 |};
  {| name := "2限"; startHour := 10; startMinute := 30; endHour := 12; endMinute := 0 |};
  {| name := "昼休み"; startHour := 12; startMinute := 0; endHour := 13; endMinute := 0 |};
  {| name := "3限"; startHour := 13; startMinute := 0; endHour := 14; endMinute := 30 |};
  {| name := "4限"; startHour := 14; startMinute := 40; endHour := 16; endMinute := 10 |};
  {| name := "5限"; startHour := 16; startMinute := 20; endHour := 17; endMinute := 50 |};
  {| name := "6限"; startHour := 18; startMinute := 0; endHour := 19; endMinute := 30 |}
].
End Part000.

(** The state of the component that the two functions read. *)
Record State : Type := {
  events : list CalendarEvent;
  error : option string;
  currentDate : Date
}.

(** [fetchEvents], given the response of [/api/public-calendar]:
    [response.ok] is a status in 200..299; [data.value || []]; a thrown
    error ends in [setError]. *)
Definition fetchEvents (res : Response) (st : State) : State :=
  if (200 <=? status res) && (status res <=? 299) then
    {| events := match json res with ValueBody value => value | ErrorBody _ _ => [] end;
       error := error st;
       currentDate := currentDate st |}
  else
    {| events := events st;
       error :=
         Some match json res with
              | ErrorBody e _ => if truthy e then e else fetchMessage
              | ValueBody _ => fetchMessage
              end;
       currentDate := currentDate st |}.

Section Component.

Variable rt : Runtime.

(** The loop of [getDaysInMonth],
    [for (let d = 1; d <= lastDay.getDate(); d++) days.push(new Date(year, month, d))],
    from the moment [d] and [days] have the given values. *)
Equations? pushDays (year month : Number) (lastDay : Date) (d : Z)
    (days : list Date) : list Date
  by wf (Z.to_nat (match getDate rt lastDay with
                   | Some n => n + 1 - d
                   | None => 0
                   end)) lt :=
  pushDays year month lastDay d days
    with inspect (lessEq (Some d) (getDate rt lastDay)) := {
    | exist _ true _ =>
        pushDays year month lastDay (d + 1)
          (days ++ [newDate rt year month (Some d)])%list
    | exist _ false _ => days
    }.
Proof.
  destruct (getDate rt lastDay) as [n|]; simpl in *; [|discriminate].
  apply Z.leb_le in e. lia.
Qed.

Definition getDaysInMonth (currentDate : Date) : list Date :=
  let year := getFullYear rt currentDate in
  let month := getMonth rt currentDate in
  let lastDay := newDate rt year (plus month (Some 1)) (Some 0) in
  pushDays year month lastDay 1 [].

(** The callback of [events.filter] in [getEventsForTimeSlot]. *)
Definition startsAt (date : Date) (timeSlot : TimeSlot) (event : CalendarEvent)
  : bool :=
  let eventDate := newDateOfString rt (dateTime (start event)) in
  let eventHour := getHours rt eventDate in
  let eventMinute := getMinutes rt eventDate in
  strictEq (getDate rt eventDate) (getDate rt date)
  && strictEq (getMonth rt eventDate) (getMonth rt date)
  && strictEq (getFullYear rt eventDate) (getFullYear rt date)
  && strictEq eventHour (Some (startHour timeSlot))
  && strictEq eventMinute (Some (startMinute timeSlot)).

Definition getEventsForTimeSlot (events : list CalendarEvent) (date : Date)
    (timeSlot : TimeSlot) : list CalendarEvent :=
  List.filter (startsAt date timeSlot) events.

(** The body of the table: [days.map(day => TIME_SLOTS.map(slot =>
    getEventsForTimeSlot(day, slot)))], one row a day, one cell a slot. *)
Definition tableBody (slots : list TimeSlot) (st : State)
  : list (Date * list (TimeSlot * list CalendarEvent)) :=
  map (fun day =>
         (day, map (fun slot => (slot, getEventsForTimeSlot (events st) day slot))
                   slots))
      (getDaysInMonth (currentDate st)).

End Component.

(** ** The rest of the component: navigation, headings, rendering *)

(** [a - b] on numbers. *)
Definition minus (a b : Number) : Number :=
  match a, b with
  | Some x, Some y => Some (x - y)
  | _, _ => NaN
  end.

(** [new Date(value)] for a number. *)
Definition newDateOfNumber (value : Number) : Date :=
  match value with
  | Some tv => ES.TimeClip tv
  | None => NaN
  end.

Section Interaction.

Variable rt : Runtime.

(** The button 前月:
    [setCurrentDate(new Date(currentDate.setMonth(currentDate.getMonth() - 1)))]. *)
Definition previousMonth (currentDate : Date) : Date :=
  newDateOfNumber (setMonth rt currentDate (minus (getMonth rt currentDate) (Some 1))).

(** The button 翌月, with [+ 1]. *)
Definition nextMonth (currentDate : Date) : Date :=
  newDateOfNumber (setMonth rt currentDate (plus (getMonth rt currentDate) (Some 1))).

(** The button 今月: [setCurrentDate(new Date())], [now] being the clock. *)
Definition thisMonth (now : Date) : Date := now.

Definition clickPrevious (st : State) : State :=
  {| events := events st; error := error st;
     currentDate := previousMonth (currentDate st) |}.

Definition clickNext (st : State) : State :=
  {| events := events st; error := error st;
     currentDate := nextMonth (currentDate st) |}.

(** The heading, [{currentDate.getFullYear()}年{currentDate.getMonth() + 1}月],
    as the two numbers it shows. *)
Definition heading (currentDate : Date) : Number * Number :=
  (getFullYear rt currentDate, plus (getMonth rt currentDate) (Some 1)).

(** [['日', '月', '火', '水', '木', '金', '土'][day.getDay()]]; [None] is
    [undefined]. *)
Definition weekdayLabels : list string :=
  ["日"; "月"; "火"; "水"; "木"; "金"; "土"].

Definition weekdayLabel (day : Date) : option string :=
  match getDay rt day with
  | Some k => if 0 <=? k then weekdayLabels !! Z.to_nat k else None
  | None => None
  end.

(** [isToday] of the later revision; [now1], [now2], [now3] are the
    values of its three [new Date()]. *)
Definition isToday (now1 now2 now3 : Date) (day : Date) : bool :=
  strictEq (getDate rt day) (getDate rt now1)
  && strictEq (getMonth rt day) (getMonth rt now2)
  && strictEq (getFullYear rt day) (getFullYear rt now3).

(** The rows the later revision marks as today, [clock i k] being the
    value of the [k]-th [new Date()] evaluated for row [i]. *)
Definition todayMarks (clock : nat -> nat -> Date) (currentDate : Date)
  : list bool :=
  imap (fun i day => isToday (clock i 0%nat) (clock i 1%nat) (clock i 2%nat) day)
       (getDaysInMonth rt currentDate).

(** The test of the scrolling effect of the later revision:
    [today.getMonth() === currentDate.getMonth() &&
     today.getFullYear() === currentDate.getFullYear()]. *)
Definition showsCurrentMonth (today currentDate : Date) : bool :=
  strictEq (getMonth rt today) (getMonth rt currentDate)
  && strictEq (getFullYear rt today) (getFullYear rt currentDate).

(** What the component returns: the early returns for [loading] and for
    a truthy [error], else the heading and the table. *)
Inductive View : Type :=
| LoadingView
| ErrorView (message : string)
| TableView (title : Number * Number)
            (rows : list (Date * list (TimeSlot * list CalendarEvent))).

Definition render (slots : list TimeSlot) (loading : bool) (st : State) : View :=
  if loading then LoadingView
  else
    match error st with
    | Some message =>
        if truthy message then ErrorView message
        else TableView (heading (currentDate st)) (tableBody rt slots st)
    | None => TableView (heading (currentDate st)) (tableBody rt slots st)
    end.

End Interaction.

(** ** Vocabulary of the statements *)

(** The time value of [new Date(year, month, date)], before clipping. *)
Definition localMidnight (rt : Runtime) (y m dt : Z) : Z :=
  UTC rt (ES.MakeDate (ES.MakeDay (ES.MakeFullYear y) m dt) (ES.MakeTime 0 0 0 0)).

(** The invariant of a [Date] object: its time value is [NaN] or within
    the range of [TimeClip]. *)
Definition isDate (d : Date) : Prop :=
  match d with
  | Some t => Z.abs t <= ES.maxTime
  | None => True
  end.

(** The timed entries of a feed, in feed order. *)
Definition timedEntries (events : Feed) : list ICalEvent :=
  List.filter isVEVENT (Object_values events).

(** Both instants of every timed entry are valid dates. *)
Definition wellFormed (events : Feed) : Prop :=
  forall event, In event (timedEntries events) ->
    (exists s, ICal.start event = Some s /\ Z.abs s <= ES.maxTime)
    /\ (exists e, ICal.end_ event = Some e /\ Z.abs e <= ES.maxTime).

(** The civil fields the binning compares: year, month (0..11), day of
    the month, hour and minute of the time value [t] on a clock that is
    [offset] milliseconds ahead of UTC. *)
Record WallClock : Type := {
  wcYear : Z;
  wcMonth : Z;
  wcDay : Z;
  wcHour : Z;
  wcMinute : Z
}.

Definition wallClock (offset t : Z) : WallClock :=
  {| wcYear := ES.YearFromTime (t + offset);
     wcMonth := ES.MonthFromTime (t + offset);
     wcDay := ES.DateFromTime (t + offset);
     wcHour := ES.HourFromTime (t + offset);
     wcMinute := ES.MinFromTime (t + offset) |}.

(** The clock of the runtime: the fields of [t] with the offset of the
    runtime's zone in force at [t]. *)
Definition runtimeClock (rt : Runtime) (t : Z) : WallClock :=
  wallClock (LocalTZA rt t true) t.

(** The event's start instant, as the clock [clock] shows it, falls on
    the calendar day of [date] (as the runtime shows it) at the start of
    [timeSlot]. *)
Definition startsOnClock (clock : Z -> WallClock) (rt : Runtime) (date : Date)
    (timeSlot : TimeSlot) (event : CalendarEvent) : Prop :=
  exists t w,
    newDateOfString rt (dateTime (start event)) = Some t
    /\ date = Some w
    /\ wcYear (clock t) = wcYear (runtimeClock rt w)
    /\ wcMonth (clock t) = wcMonth (runtimeClock rt w)
    /\ wcDay (clock t) = wcDay (runtimeClock rt w)
    /\ wcHour (clock t) = startHour timeSlot
    /\ wcMinute (clock t) = startMinute timeSlot.

(** Offsets of the zones that an event carries with it: the label of
    [start.timeZone], and the designator [Z] that ends [start.dateTime]. *)
Definition tokyoOffset : Z := 9 * ES.msPerHour.
Definition utcOffset : Z := 0.

Definition labelOffset (label : string) : option Z :=
  if String.eqb label "Asia/Tokyo" then Some tokyoOffset
  else if String.eqb label "UTC" then Some utcOffset
  else None.

(** The start of a slot, as the pair of its hour and minute. *)
Definition slotStart (timeSlot : TimeSlot) : Z * Z :=
  (startHour timeSlot, startMinute timeSlot).

(** The events of the cell in row [i] (the [i]-th day) and column [j]
    (the [j]-th slot) of the table. *)
Definition cellAt (rt : Runtime) (slots : list TimeSlot) (st : State)
    (i j : nat) : option (list CalendarEvent) :=
  '(_, cells) ← tableBody rt slots st !! i;
  '(_, slotEvents) ← cells !! j;
  Some slotEvents.

(** Replaces the zone label of an event, the instants left as they are. *)
Definition relabel (label : string) (event : CalendarEvent) : CalendarEvent :=
  {| id_ := id_ event;
     subject := subject event;
     start := {| dateTime := dateTime (start event); timeZone := label |};
     end_ := {| dateTime := dateTime (end_ event); timeZone := label |};
     location := location event;
     description := description event;
     source := source event |}.

(** No two rows of a day axis show the same day of the month (under
    [===], so that an Invalid Date differs from every row). *)
Definition distinctDates (rt : Runtime) (days : list Date) : Prop :=
  forall i i' day day',
    i <> i' -> days !! i = Some day -> days !! i' = Some day' ->
    strictEq (getDate rt day) (getDate rt day') = false.

(** The zone of the runtime has the one offset [tza] at all times: a
    zone without daylight-saving time or any other change of offset. *)
Definition constantOffset (rt : Runtime) (tza : Z) : Prop :=
  forall t isUTC, LocalTZA rt t isUTC = tza.

(** The offset of the runtime's zone is [tza] at every instant and at
    every local time from [lo] to [hi] (as Asia/Tokyo has been nine hours
    ahead of UTC since 1951). *)
Definition offsetDuring (rt : Runtime) (tza lo hi : Z) : Prop :=
  forall t isUTC, lo <= t <= hi -> LocalTZA rt t isUTC = tza.

(** Runtimes with a given constant zone offset, in hours; strings outside
    the format are Invalid Dates there. *)
Definition runtimeAt (hours : Z) : Runtime :=
  {| LocalTZA := fun _ _ => hours * ES.msPerHour; legacyParse := fun _ => NaN |}.

(** A runtime whose zone is [before] ahead of UTC until the instant
    [transition] and [after] from then on.  The local times that the
    change skips or repeats are read with the offset before the change. *)
Definition zoneChanging (before after transition : Z) : Runtime :=
  {| LocalTZA := fun t isUTC =>
       if isUTC then if t <? transition then before else after
       else if t <? transition + Z.max before after then before else after;
     legacyParse := fun _ => NaN |}.

(** The instant of a wall-clock reading [y]-[mo]-[d] [h]:[mi] (month
    1..12) on a clock [offset] ahead of UTC. *)
Definition instantOn (offset y mo d h mi : Z) : Z :=
  ES.MakeDate (ES.MakeDay y (mo - 1) d) (ES.MakeTime h mi 0 0) - offset.

(** The first instant of the years 2024 and 2025, in UTC. *)
Definition startOf2024 : Z := instantOn utcOffset 2024 1 1 0 0.
Definition startOf2025 : Z := instantOn utcOffset 2025 1 1 0 0.

(** The local start [h]:[mi] is one minute after or before the start of
    [timeSlot]. *)
Definition oneMinuteOff (timeSlot : TimeSlot) (h mi : Z) : Prop :=
  60 * h + mi = 60 * startHour timeSlot + startMinute timeSlot + 1
  \/ 60 * h + mi = 60 * startHour timeSlot + startMinute timeSlot - 1.

(** The slot lists of the two revisions of the component. *)
Definition configuredSlots (slots : list TimeSlot) : Prop :=
  slots = TimetableCalendar.TIME_SLOTS \/ slots = Part000.TIME_SLOTS.

(** A normalised event with the given start string and zone label. *)
Definition eventStarting (iso label : string) : CalendarEvent :=
  {| id_ := "uid-1";
     subject := "Meeting";
     start := {| dateTime := iso; timeZone := label |};
     end_ := {| dateTime := iso; timeZone := label |};
     location := None;
     description := None;
     source := calendar1 |}.

Definition firstPeriod : TimeSlot :=
  {| name := "1限"; startHour := 8; startMinute := 50; endHour := 10; endMinute := 20 |}.

(** Two events of 5 March 2024 tagged Asia/Tokyo: one at 13:50 UTC
    (22:50 in Tokyo, 08:50 in New York), one at 08:50 in Tokyo (23:50 UTC
    of the day before). *)
Definition eventNewYorkMorning : CalendarEvent :=
  eventStarting "2024-03-05T13:50:00.000Z" "Asia/Tokyo".
Definition eventTokyoMorning : CalendarEvent :=
  eventStarting "2024-03-04T23:50:00.000Z" "Asia/Tokyo".

(** 5 March 2024 as the day axis of the runtime has it. *)
Definition march5 (rt : Runtime) : Date :=
  newDate rt (Some 2024) (Some 2) (Some 5).

(** Noon UTC of 15 February of the year 0 (1 BC), a leap year of the
    proleptic Gregorian calendar. *)
Definition februaryOfYear0 : Date := Some (instantOn utcOffset 0 2 15 12 0).

(** A feed locator that is not set, or set to the empty string. *)
Definition missingOrEmpty (url : option string) : Prop :=
  url = None \/ url = Some EmptyString.

(** The run of the handler that ends in the catch block with [cause]. *)
Definition failedRun (url1 url2 : string) (cause : Thrown) : Run :=
  {| requested := [url1; url2];
     logged := [cause];
     response :=
       {| status := 500;
          json := ErrorBody fetchMessage (Some (detailsOf cause)) |} |}.

(** Two networks that fail alike: the same requests are rejected, with
    the same reasons and in the same order; what a fulfilled request
    delivers may differ. *)
Definition sameFailures (net net' : Network) : Prop :=
  firstFailsFirst net = firstFailsFirst net'
  /\ forall k url,
       match fromURL net k url, fromURL net' k url with
       | Rejected r, Rejected r' => r = r'
       | Fulfilled _, Fulfilled _ => True
       | _, _ => False
       end.

(** ** Sample feeds *)

(** The second locator is set, to the empty string. *)
Definition halfConfigured : Env :=
  {| PUBLIC_CALENDAR_URL_1 := Some "https://calendar.example/lounge6.ics";
     PUBLIC_CALENDAR_URL_2 := Some EmptyString |}.

Definition sampleEnv : Env :=
  {| PUBLIC_CALENDAR_URL_1 := Some "https://calendar.example/lounge6.ics";
     PUBLIC_CALENDAR_URL_2 := Some "https://calendar.example/lounge5.ics" |}.

(** A timed entry, and an entry of another kind. *)
Definition timedEntry (uid summary : string) (s e : Date) : ICalEvent :=
  {| ICal.type := "VEVENT"; ICal.uid := uid; ICal.summary := summary;
     ICal.start := s; ICal.end_ := e;
     ICal.location := None; ICal.description := None |}.

Definition zoneEntry : ICalEvent :=
  {| ICal.type := "VTIMEZONE"; ICal.uid := EmptyString; ICal.summary := EmptyString;
     ICal.start := NaN; ICal.end_ := NaN;
     ICal.location := None; ICal.description := None |}.

(** "Meeting", 2024-03-05 08:50 to 10:20 in Asia/Tokyo. *)
Definition meetingEntry : ICalEvent :=
  timedEntry "uid-1" "Meeting"
    (Some (instantOn tokyoOffset 2024 3 5 8 50))
    (Some (instantOn tokyoOffset 2024 3 5 10 20)).

(** An entry that ends an hour and a half before it starts. *)
Definition backwardsEntry : ICalEvent :=
  timedEntry "uid-2" "Backwards"
    (Some (instantOn tokyoOffset 2024 3 5 10 20))
    (Some (instantOn tokyoOffset 2024 3 5 8 50)).

(** An entry of the day after [meetingEntry]. *)
Definition eveningEntry : ICalEvent :=
  timedEntry "uid-3" "Evening"
    (Some (instantOn tokyoOffset 2024 3 6 16 20))
    (Some (instantOn tokyoOffset 2024 3 6 17 50)).

(** The network on which the first request delivers [feedA] and the
    second [feedB]. *)
Definition delivering (feedA feedB : Feed) : Network :=
  {| fromURL := fun k _ => match k with
                           | O => Fulfilled feedA
                           | S _ => Fulfilled feedB
                           end;
     firstFailsFirst := true |}.

(** The network on which the first request fails and the second
    delivers [feedB]. *)
Definition failingFirst (cause : Thrown) (feedB : Feed) : Network :=
  {| fromURL := fun k _ => match k with
                           | O => Rejected cause
                           | S _ => Fulfilled feedB
                           end;
     firstFailsFirst := true |}.

Definition unreachable : Thrown :=
  ErrorObject "Error" "getaddrinfo ENOTFOUND calendar.example".

(** Feed A: a time zone definition, then two timed entries, the later
    one first.  Feed B: one timed entry, which is also in feed A. *)
Definition sampleFeedA : Feed :=
  [("tz", zoneEntry); ("uid-3", eveningEntry); ("uid-1", meetingEntry)].
Definition sampleFeedB : Feed := [("uid-1", meetingEntry)].

(** Every timed entry the network can deliver holds two [Date] objects. *)
Definition deliversDates (net : Network) : Prop :=
  forall k url feed raw,
    fromURL net k url = Fulfilled feed -> In raw (timedEntries feed) ->
    isDate (ICal.start raw) /\ isDate (ICal.end_ raw).

(** The component before its first fetch, showing the month of
    [reference]. *)
Definition initialState (reference : Date) : State :=
  {| events := []; error := None; currentDate := reference |}.

(** The events of the cells of the table, row by row. *)
Definition cellsOf (table : list (Date * list (TimeSlot * list CalendarEvent)))
  : list (list (list CalendarEvent)) :=
  map (fun row => map snd (snd row)) table.

(** The dates the rows of the table show. *)
Definition datesOf (rt : Runtime)
    (table : list (Date * list (TimeSlot * list CalendarEvent))) : list Number :=
  map (fun row => getDate rt (fst row)) table.

(** A table of [days] rows and [columns] columns whose only event is
    [event], in row [i] and column [j]. *)
Definition onlyCell (days columns i j : nat) (event : CalendarEvent)
  : list (list (list CalendarEvent)) :=
  (replicate i (replicate columns [])
   ++ [replicate j [] ++ [[event]] ++ replicate (columns - j - 1) []]
   ++ replicate (days - i - 1) (replicate columns []))%list.

(** Noon UTC of 15 March 2024. *)
Definition midMarch2024 : Date := Some (instantOn utcOffset 2024 3 15 12 0).

(** Feed A and feed B of the scenario, each with the time zone
    definition a real feed starts with. *)
Definition meetingFeed : Feed := [("tz", zoneEntry); ("uid-1", meetingEntry)].
Definition emptyFeed : Feed := [("tz", zoneEntry)].


(** ** Vocabulary of the further statements *)

(** The month after and the month before month [m] (0..11) of year [y]. *)
Definition successorMonth (y m : Z) : Z * Z :=
  if m =? 11 then (y + 1, 0) else (y, m + 1).
Definition predecessorMonth (y m : Z) : Z * Z :=
  if m =? 0 then (y - 1, 11) else (y, m - 1).

(** The date shows, in the runtime's zone, year [y], month [m] (0..11)
    and day [d]. *)
Definition showsDate (rt : Runtime) (y m d : Z) (date : Date) : Prop :=
  getFullYear rt date = Some y /\ getMonth rt date = Some m
  /\ getDate rt date = Some d.

(** The time of day the date shows, in milliseconds since local midnight. *)
Definition timeOfDay (rt : Runtime) (date : Date) : Number :=
  option_map (fun t => ES.TimeWithinDay (LocalTime rt t)) date.

(** All the event cards of a table, row by row and cell by cell. *)
Definition displayed (table : list (Date * list (TimeSlot * list CalendarEvent)))
  : list CalendarEvent :=
  concat (concat (cellsOf table)).

(** A timed entry of one of the two feeds has an Invalid Date as start or
    as end. *)
Definition someInvalidInstant (feedA feedB : Feed) : Prop :=
  exists raw,
    In raw (timedEntries feedA ++ timedEntries feedB)%list
    /\ (ICal.start raw = NaN \/ ICal.end_ raw = NaN).

Definition invalidTime : Thrown := ErrorObject "RangeError" "Invalid time value".

(** A timed entry without a valid start. *)
Definition brokenEntry : ICalEvent :=
  timedEntry "uid-9" "Broken" NaN (Some (instantOn tokyoOffset 2024 3 5 10 20)).

(** 31 January 2024, 10:00 UTC. *)
Definition endOfJanuary2024 : Z := instantOn utcOffset 2024 1 31 10 0.

(** [response.ok]. *)
Definition ok (res : Response) : bool :=
  (200 <=? status res) && (status res <=? 299).

(** The state after the calls of [fetchEvents] that met the given
    responses, in the order in which they ended. *)
Definition afterResponses (responses : list Response) (st : State) : State :=
  fold_left (fun st res => fetchEvents res st) responses st.

(** The two halves of the test of [getEventsForTimeSlot]: the event
    starts on the day of [date]; it starts at the start of [timeSlot]. *)
Definition onDayOf (rt : Runtime) (date : Date) (event : CalendarEvent) : bool :=
  let eventDate := newDateOfString rt (dateTime (start event)) in
  strictEq (getDate rt eventDate) (getDate rt date)
  && strictEq (getMonth rt eventDate) (getMonth rt date)
  && strictEq (getFullYear rt eventDate) (getFullYear rt date).

Definition atStartOf (rt : Runtime) (timeSlot : TimeSlot) (event : CalendarEvent)
  : bool :=
  let eventDate := newDateOfString rt (dateTime (start event)) in
  strictEq (getHours rt eventDate) (Some (startHour timeSlot))
  && strictEq (getMinutes rt eventDate) (Some (startMinute timeSlot)).

(** The event is in some cell of the table of the given days and slots. *)
Definition inSomeCell (rt : Runtime) (days : list Date) (slots : list TimeSlot)
    (event : CalendarEvent) : bool :=
  existsb (fun day => existsb (fun slot => startsAt rt day slot event) slots) days.

(** The component with an error already set. *)
Definition failedState (message : string) (reference : Date) : State :=
  {| events := []; error := Some message; currentDate := reference |}.

(** The period that the later revision adds. *)
Definition sixthPeriod : TimeSlot :=
  {| name := "6限"; startHour := 18; startMinute := 0; endHour := 19; endMinute := 30 |}.

(** The row of the later revision that continues a row of the earlier one. *)
Definition withSixthPeriod (rt : Runtime) (st : State)
    (row : Date * list (TimeSlot * list CalendarEvent))
  : Date * list (TimeSlot * list CalendarEvent) :=
  (fst row,
   (snd row ++ [(sixthPeriod, getEventsForTimeSlot rt (events st) (fst row) sixthPeriod)])%list).

(** The year, month and day of the month that the rows of a table show,
    and those of the days of month [m] (0..11) of year [y]. *)
Definition shownDays (rt : Runtime)
    (table : list (Date * list (TimeSlot * list CalendarEvent)))
  : list (Number * Number * Number) :=
  map (fun row => (getFullYear rt (fst row), getMonth rt (fst row),
                   getDate rt (fst row))) table.

Definition daysOfMonth (y m : Z) : list (Number * Number * Number) :=
  map (fun k => (Some y, Some m, Some k)) (seqZ 1 (ES.DaysInMonth y m)).

(** Pacific/Apia at the end of 2011: ten hours behind UTC until
    2011-12-30T10:00Z, the local midnight that ended 29 December, and
    fourteen hours ahead from then on: the local 30 December 2011 did not
    take place. *)
Definition apia : Runtime :=
  zoneChanging (-10 * ES.msPerHour) (14 * ES.msPerHour)
    (instantOn utcOffset 2011 12 30 10 0).


(** Noon UTC of 15 December 2011 and of 15 December 1994. *)
Definition midDecember2011 : Date := Some (instantOn utcOffset 2011 12 15 12 0).

(** An event that starts at 08:50 on 31 December 2011 in Apia. *)
Definition eventApiaMorning : CalendarEvent :=
  eventStarting "2011-12-30T18:50:00.000Z" "Asia/Tokyo".

(** An entry from 22:50 to 23:50 on 5 March 2024 in Asia/Tokyo, and the
    feed that holds it. *)
Definition lateEntry : ICalEvent :=
  timedEntry "uid-4" "Late"
    (Some (instantOn tokyoOffset 2024 3 5 22 50))
    (Some (instantOn tokyoOffset 2024 3 5 23 50)).
Definition lateFeed : Feed := [("tz", zoneEntry); ("uid-4", lateEntry)].

(** The event [ev] is what the aggregator makes of the entry [raw] of
    the feed tagged [tag], and its two strings read back, in every
    runtime, as the two instants of [raw]. *)
Definition carries (tag : Source) (raw : ICalEvent) (ev : CalendarEvent) : Prop :=
  formatEvent tag raw = Normal ev
  /\ source ev = tag
  /\ exists s e,
       ICal.start raw = Some s /\ ICal.end_ raw = Some e
       /\ forall rt,
            newDateOfString rt (dateTime (start ev)) = Some s
            /\ newDateOfString rt (dateTime (end_ ev)) = Some e.

(** The events the aggregator makes of [eveningEntry] and of
    [meetingEntry]. *)
Definition eventEvening : CalendarEvent :=
  {| id_ := "uid-3";
     subject := "Evening";
     start := {| dateTime := "2024-03-06T07:20:00.000Z"; timeZone := "Asia/Tokyo" |};
     end_ := {| dateTime := "2024-03-06T08:50:00.000Z"; timeZone := "Asia/Tokyo" |};
     location := None;
     description := None;
     source := calendar1 |}.

Definition eventMeeting (tag : Source) : CalendarEvent :=
  {| id_ := "uid-1";
     subject := "Meeting";
     start := {| dateTime := "2024-03-04T23:50:00.000Z"; timeZone := "Asia/Tokyo" |};
     end_ := {| dateTime := "2024-03-05T01:20:00.000Z"; timeZone := "Asia/Tokyo" |};
     location := None;
     description := None;
     source := tag |}.

(** * Facts about the calendar of the standard *)

Module ESFacts.
Import ES.

Ltac floor_lia := Z.div_mod_to_equations; lia.

Ltac decide_bools :=
  repeat match goal with
    | |- context [Z.eqb ?a ?b] => destruct (Z.eqb_spec a b)
    | |- context [Z.ltb ?a ?b] => destruct (Z.ltb_spec a b)
    | |- context [Z.leb ?a ?b] => destruct (Z.leb_spec a b)
    end;
  cbv [negb andb orb].

(** Case analysis on a month number known to lie in 0..11. *)
Ltac each_month mn :=
  let Hc := fresh "Hc" in
  assert (mn = 0 \/ mn = 1 \/ mn = 2 \/ mn = 3 \/ mn = 4 \/ mn = 5 \/ mn = 6
          \/ mn = 7 \/ mn = 8 \/ mn = 9 \/ mn = 10 \/ mn = 11) as Hc by lia;
  repeat (destruct Hc as [Hc | Hc]); subst mn; try lia.

Lemma DaysInYear_cases y : DaysInYear y = 365 \/ DaysInYear y = 366.
Proof. unfold DaysInYear. decide_bools; auto. Qed.

Lemma DayFromYear_succ y : DayFromYear (y + 1) = DayFromYear y + DaysInYear y.
Proof. unfold DayFromYear, DaysInYear. decide_bools; floor_lia. Qed.

Lemma DayFromYear_mono y y' : y <= y' -> DayFromYear y <= DayFromYear y'.
Proof. unfold DayFromYear. intros. floor_lia. Qed.

(** [YearFromDay] is the year of the standard: the one whose first day is
    the last first-of-January not after [d]. *)
Lemma YearFromDay_spec d :
  DayFromYear (YearFromDay d) <= d < DayFromYear (YearFromDay d + 1).
Proof.
  unfold YearFromDay.
  set (y := 1970 + 400 * d / 146097).
  assert (DayFromYear (y - 1) <= d) by (unfold DayFromYear, y; floor_lia).
  assert (d < DayFromYear (y + 1 + 1)) by (unfold DayFromYear, y; floor_lia).
  cbv zeta.
  destruct (Z.ltb_spec d (DayFromYear y)).
  - replace (y - 1 + 1) with y by lia. lia.
  - destruct (Z.leb_spec (DayFromYear (y + 1)) d); lia.
Qed.

Lemma YearFromDay_unique d y :
  DayFromYear y <= d < DayFromYear (y + 1) -> YearFromDay d = y.
Proof.
  intros Hy. pose proof (YearFromDay_spec d) as Hs.
  destruct (Z.lt_trichotomy (YearFromDay d) y) as [Hlt | [Heq | Hgt]]; [|exact Heq|].
  - pose proof (DayFromYear_mono (YearFromDay d + 1) y ltac:(lia)). lia.
  - pose proof (DayFromYear_mono (y + 1) (YearFromDay d) ltac:(lia)). lia.
Qed.

Lemma YearFromTime_spec t :
  TimeFromYear (YearFromTime t) <= t < TimeFromYear (YearFromTime t + 1).
Proof.
  unfold TimeFromYear, YearFromTime.
  pose proof (YearFromDay_spec (Day t)) as H. unfold Day, msPerDay in *.
  floor_lia.
Qed.

Lemma Day_MakeDate day time :
  0 <= time < msPerDay -> Day (MakeDate day time) = day.
Proof. unfold Day, MakeDate, msPerDay. intros. floor_lia. Qed.

Lemma TimeWithinDay_MakeDate day time :
  0 <= time < msPerDay -> TimeWithinDay (MakeDate day time) = time.
Proof. unfold TimeWithinDay, MakeDate, msPerDay. intros. floor_lia. Qed.

Lemma MakeDate_Day t : MakeDate (Day t) (TimeWithinDay t) = t.
Proof. unfold MakeDate, Day, TimeWithinDay, msPerDay. floor_lia. Qed.

Lemma DaysInMonth_bounds y mn : 28 <= DaysInMonth y mn <= 31.
Proof.
  unfold DaysInMonth. generalize (DaysInYear y =? 366); intros leap.
  destruct mn as [|p|p]; cbn; try (destruct leap; lia).
  repeat (destruct p as [p|p|]; cbn; try (destruct leap; lia)).
Qed.

(** The months of a year tile it: each starts where the one before ends,
    and December ends with the year. *)
Lemma DaysBeforeMonth_succ y mn :
  0 <= mn <= 10 ->
  DaysBeforeMonth y (mn + 1) = DaysBeforeMonth y mn + DaysInMonth y mn.
Proof.
  intros H. unfold DaysBeforeMonth, DaysInMonth.
  generalize (DaysInYear y =? 366); intros leap.
  each_month mn; destruct leap; reflexivity.
Qed.

Lemma DaysBeforeMonth_december y :
  DaysBeforeMonth y 11 + DaysInMonth y 11 = DaysInYear y.
Proof.
  unfold DaysBeforeMonth, DaysInMonth.
  destruct (DaysInYear_cases y) as [-> | ->]; reflexivity.
Qed.

Lemma DaysBeforeMonth_range y mn :
  0 <= mn <= 11 ->
  0 <= DaysBeforeMonth y mn /\ DaysBeforeMonth y mn + DaysInMonth y mn <= DaysInYear y.
Proof.
  intros H. unfold DaysBeforeMonth, DaysInMonth.
  destruct (DaysInYear_cases y) as [-> | ->];
    each_month mn; cbv; intuition discriminate.
Qed.

Lemma MakeDay_within y mn dt :
  0 <= mn <= 11 -> MakeDay y mn dt = DayFromYear y + DaysBeforeMonth y mn + dt - 1.
Proof.
  intros H. unfold MakeDay.
  rewrite (Z.div_small mn 12), (Z.mod_small mn 12), Z.add_0_r by lia. reflexivity.
Qed.

(** Date 0 of the following month is the last day of the month. *)
Lemma MakeDay_last y mn :
  0 <= mn <= 11 -> MakeDay y (mn + 1) 0 = MakeDay y mn (DaysInMonth y mn).
Proof.
  intros H. rewrite (MakeDay_within y mn) by lia.
  destruct (Z.eq_dec mn 11) as [-> | Hne].
  - unfold MakeDay. change ((11 + 1) / 12) with 1. change ((11 + 1) mod 12) with 0.
    rewrite DayFromYear_succ. pose proof (DaysBeforeMonth_december y).
    change (DaysBeforeMonth (y + 1) 0) with 0. lia.
  - rewrite MakeDay_within, DaysBeforeMonth_succ by lia. lia.
Qed.

Lemma leap_flag y :
  (if DaysInYear y =? 366 then 1 else 0) = DaysInYear y - 365.
Proof. destruct (DaysInYear_cases y) as [-> | ->]; reflexivity. Qed.

(** From civil fields to a time value and back. *)
Lemma fields_of_MakeDate y mn dt time :
  0 <= mn <= 11 -> 1 <= dt <= DaysInMonth y mn -> 0 <= time < msPerDay ->
  let t := MakeDate (MakeDay y mn dt) time in
  YearFromTime t = y /\ MonthFromTime t = mn /\ DateFromTime t = dt.
Proof.
  intros Hm Hd Ht t.
  assert (Day t = DayFromYear y + DaysBeforeMonth y mn + dt - 1) as HD
    by (unfold t; rewrite Day_MakeDate, MakeDay_within by lia; reflexivity).
  clearbody t.
  pose proof (DaysBeforeMonth_range y mn Hm) as [Hlo Hhi].
  assert (YearFromTime t = y) as Hy.
  { unfold YearFromTime. apply YearFromDay_unique. rewrite DayFromYear_succ. lia. }
  assert (DayWithinYear t = DaysBeforeMonth y mn + dt - 1) as Hw
    by (unfold DayWithinYear; rewrite Hy; lia).
  assert (InLeapYear t = DaysInYear y - 365) as Hl
    by (unfold InLeapYear; rewrite Hy; apply leap_flag).
  split; [exact Hy|].
  assert (MonthFromTime t = mn) as HM.
  { unfold MonthFromTime. rewrite Hw, Hl. cbv zeta.
    revert Hd. unfold DaysBeforeMonth, DaysInMonth. rewrite !leap_flag.
    destruct (DaysInYear_cases y) as [-> | ->];
      each_month mn; cbn; intros; decide_bools; lia. }
  split; [exact HM|].
  unfold DateFromTime. rewrite HM, Hw, Hl. cbv zeta. clear HM.
  unfold DaysBeforeMonth. rewrite leap_flag.
  each_month mn; cbn; lia.
Qed.

(** From a time value to civil fields and back. *)
Lemma MakeDay_of_fields t :
  0 <= MonthFromTime t <= 11
  /\ 1 <= DateFromTime t <= DaysInMonth (YearFromTime t) (MonthFromTime t)
  /\ MakeDay (YearFromTime t) (MonthFromTime t) (DateFromTime t) = Day t.
Proof.
  pose proof (YearFromDay_spec (Day t)) as Hy. rewrite DayFromYear_succ in Hy.
  fold (YearFromTime t) in Hy.
  assert (0 <= MonthFromTime t <= 11) as HM
    by (unfold MonthFromTime; cbv zeta; decide_bools; lia).
  split; [exact HM|].
  rewrite MakeDay_within by exact HM.
  unfold DateFromTime, DaysInMonth, DaysBeforeMonth. cbv zeta.
  rewrite leap_flag.
  assert (InLeapYear t = DaysInYear (YearFromTime t) - 365) as Hl
    by (unfold InLeapYear; apply leap_flag).
  revert HM. unfold MonthFromTime. cbv zeta. rewrite Hl.
  unfold DayWithinYear.
  destruct (DaysInYear_cases (YearFromTime t)) as [E | E]; rewrite E in *;
    decide_bools; cbn; intros; lia.
Qed.

Lemma MakeTime_of_fields t :
  MakeTime (HourFromTime t) (MinFromTime t) (SecFromTime t) (msFromTime t)
  = TimeWithinDay t.
Proof.
  unfold MakeTime, HourFromTime, MinFromTime, SecFromTime, msFromTime,
    TimeWithinDay, msPerDay, msPerHour, msPerMinute, msPerSecond.
  floor_lia.
Qed.

Lemma time_fields_range t :
  0 <= HourFromTime t <= 23 /\ 0 <= MinFromTime t <= 59
  /\ 0 <= SecFromTime t <= 59 /\ 0 <= msFromTime t <= 999.
Proof.
  unfold HourFromTime, MinFromTime, SecFromTime, msFromTime, msPerSecond.
  repeat split; floor_lia.
Qed.

End ESFacts.

(** * [Date.parse] reads back what [toISOString] writes *)

Module ISOFacts.
Import ES ESFacts.

Lemma mod10_range x : 0 <= x mod 10 <= 9.
Proof. floor_lia. Qed.

Lemma digitValue_digitChar d : 0 <= d <= 9 -> digitValue (digitChar d) = Some d.
Proof.
  intros H.
  assert (d = 0 \/ d = 1 \/ d = 2 \/ d = 3 \/ d = 4 \/ d = 5 \/ d = 6 \/ d = 7
          \/ d = 8 \/ d = 9) as Hc by lia.
  repeat (destruct Hc as [-> | Hc]); try subst d; reflexivity.
Qed.

Lemma isSign_digitChar d : 0 <= d <= 9 -> isSign (digitChar d) = false.
Proof.
  intros H.
  assert (d = 0 \/ d = 1 \/ d = 2 \/ d = 3 \/ d = 4 \/ d = 5 \/ d = 6 \/ d = 7
          \/ d = 8 \/ d = 9) as Hc by lia.
  repeat (destruct Hc as [-> | Hc]); try subst d; reflexivity.
Qed.

Lemma number_digits k : forall n acc rest,
  0 <= n ->
  number k acc (digits k n rest)
  = Some (acc * 10 ^ Z.of_nat k + n mod 10 ^ Z.of_nat k, rest).
Proof.
  induction k as [|k IH]; intros n acc rest Hn.
  - cbn [number digits]. change (10 ^ Z.of_nat 0) with 1.
    rewrite Z.mod_1_r. f_equal. f_equal. lia.
  - cbn [number digits].
    assert (0 < 10 ^ Z.of_nat k) as Hp by (apply Z.pow_pos_nonneg; lia).
    rewrite digitValue_digitChar by apply mod10_range.
    rewrite IH by exact Hn. f_equal. f_equal.
    rewrite Nat2Z.inj_succ, Z.pow_succ_r by lia.
    set (p := 10 ^ Z.of_nat k) in *.
    pose proof (Z.div_mod n p ltac:(lia)) as E1.
    pose proof (Z.mod_pos_bound n p Hp) as B1.
    pose proof (Z.div_mod (n / p) 10 ltac:(lia)) as E2.
    pose proof (Z.mod_pos_bound (n / p) 10 ltac:(lia)) as B2.
    symmetry.
    assert (n mod (10 * p) = p * ((n / p) mod 10) + n mod p) as ->.
    { symmetry. apply Z.mod_unique with (q := (n / p) / 10); nia. }
    ring.
Qed.

Lemma number_digits_small k n rest :
  0 <= n < 10 ^ Z.of_nat k -> number k 0 (digits k n rest) = Some (n, rest).
Proof.
  intros H. rewrite number_digits by lia. rewrite Z.mod_small by lia.
  reflexivity.
Qed.

Lemma yearPart_yearString y rest :
  -999999 <= y <= 999999 -> yearPart (yearString y rest) = Some (y, rest).
Proof.
  intros H. unfold yearString.
  destruct (Z.leb_spec 0 y); destruct (Z.leb_spec y 9999); cbn [andb].
  - change (digits 4 y rest)
      with (String (digitChar ((y / 10 ^ Z.of_nat 3) mod 10)) (digits 3 y rest)).
    unfold yearPart.
    rewrite isSign_digitChar by apply mod10_range.
    change (String (digitChar ((y / 10 ^ Z.of_nat 3) mod 10)) (digits 3 y rest))
      with (digits 4 y rest).
    apply number_digits_small. change (10 ^ Z.of_nat 4) with 10000. lia.
  - destruct (Z.ltb_spec y 0); [lia|].
    unfold yearPart. cbn [isSign Ascii.eqb orb].
    change (isSign "+") with true. cbv iota.
    rewrite number_digits_small by (change (10 ^ Z.of_nat 6) with 1000000; lia).
    reflexivity.
  - destruct (Z.ltb_spec y 0); [|lia].
    unfold yearPart. change (isSign "-") with true. cbv iota.
    rewrite number_digits_small by (change (10 ^ Z.of_nat 6) with 1000000; lia).
    cbn [mbind option_bind]. change (Ascii.eqb "-" "-") with true. cbv iota.
    destruct (Z.eqb_spec (- y) 0); [lia|]. f_equal. f_equal. lia.
  - lia.
Qed.

Lemma expect_String c rest : expect c (String c rest) = Some rest.
Proof. unfold expect. rewrite Ascii.eqb_refl. reflexivity. Qed.

(** Every time value in range lies in a year of at most six digits. *)
Lemma YearFromTime_range t :
  Z.abs t <= maxTime -> -271821 <= YearFromTime t <= 275760.
Proof.
  intros H. pose proof (YearFromDay_spec (Day t)) as Hs.
  fold (YearFromTime t) in Hs.
  assert (-100000000 <= Day t <= 100000000) as HD
    by (unfold Day, msPerDay, maxTime in *; floor_lia).
  split.
  - destruct (Z.le_gt_cases (-271821) (YearFromTime t)) as [|Hlt]; [assumption|].
    pose proof (DayFromYear_mono (YearFromTime t + 1) (-271821) ltac:(lia)) as Hm.
    change (DayFromYear (-271821)) with (-100000109) in Hm. lia.
  - destruct (Z.le_gt_cases (YearFromTime t) 275760) as [|Hgt]; [assumption|].
    pose proof (DayFromYear_mono 275761 (YearFromTime t) ltac:(lia)) as Hm.
    change (DayFromYear 275761) with 100000110 in Hm. lia.
Qed.

Lemma parseISO_isoString t :
  Z.abs t <= maxTime -> parseISO (isoString t) = Some t.
Proof.
  intros H. unfold parseISO, isoString.
  pose proof (YearFromTime_range t H) as Hy.
  pose proof (MakeDay_of_fields t) as (Hm & Hd & HD).
  pose proof (time_fields_range t) as (Hh & Hmi & Hs & Hms).
  pose proof (DaysInMonth_bounds (YearFromTime t) (MonthFromTime t)) as Hb.
  rewrite yearPart_yearString by lia. cbn [mbind option_bind].
  repeat (rewrite expect_String; cbn [mbind option_bind];
          rewrite number_digits_small
            by (first [change (10 ^ Z.of_nat 2) with 100
                      | change (10 ^ Z.of_nat 3) with 1000]; lia);
          cbn [mbind option_bind]).
  rewrite expect_String. cbn [mbind option_bind].
  replace (MonthFromTime t + 1 - 1) with (MonthFromTime t) by lia.
  assert (legalFields (YearFromTime t) (MonthFromTime t + 1) (DateFromTime t)
            (HourFromTime t) (MinFromTime t) (SecFromTime t) (msFromTime t) = true) as ->.
  { unfold legalFields.
    replace (MonthFromTime t + 1 - 1) with (MonthFromTime t) by lia.
    repeat (apply andb_true_intro; split); try (apply Z.leb_le; lia).
    apply orb_true_intro. left. apply Z.leb_le. lia. }
  rewrite HD, MakeTime_of_fields. f_equal. apply MakeDate_Day.
Qed.

(** For every valid time value, [new Date(d.toISOString())] has the time
    value of [d], whatever the runtime. *)
Lemma Date_parse_isoString rt t :
  Z.abs t <= maxTime -> Date_parse rt (isoString t) = Some t.
Proof.
  intros H. unfold Date_parse. rewrite parseISO_isoString by exact H.
  unfold TimeClip. apply Z.leb_le in H. rewrite H. reflexivity.
Qed.

End ISOFacts.

(** * The [Date] object *)

Module DateFacts.
Import ES ESFacts.

(** In a zone of constant offset, local time is the instant shifted by
    the offset, and [UTC] undoes [LocalTime]. *)
Lemma LocalTime_constant rt {tza} (Hc : constantOffset rt tza) t :
  LocalTime rt t = t + tza.
Proof. unfold LocalTime. rewrite Hc. reflexivity. Qed.

Lemma UTC_constant rt {tza} (Hc : constantOffset rt tza) t :
  UTC rt t = t - tza.
Proof. unfold UTC. rewrite Hc. reflexivity. Qed.

Lemma LocalTime_UTC rt {tza} (Hc : constantOffset rt tza) t :
  LocalTime rt (UTC rt t) = t.
Proof. rewrite (LocalTime_constant rt Hc), (UTC_constant rt Hc). lia. Qed.

Lemma runtimeAt_constant hours : constantOffset (runtimeAt hours) (hours * msPerHour).
Proof. intros t isUTC. reflexivity. Qed.


Lemma strictEq_true a b : strictEq a b = true <-> exists x, a = Some x /\ b = Some x.
Proof.
  destruct a as [x|], b as [y|]; cbn; split; try discriminate.
  - intros H%Z.eqb_eq. subst. eauto.
  - intros (z & [= ->] & [= ->]). apply Z.eqb_refl.
  - intros (z & _ & [=]).
  - intros (z & [=] & _).
  - intros (z & [=] & _).
Qed.

Lemma strictEq_Some a x : strictEq a (Some x) = true <-> a = Some x.
Proof.
  rewrite strictEq_true. split.
  - intros (z & -> & [= ->]). reflexivity.
  - intros ->. eauto.
Qed.

Lemma newDate_Some rt y m dt :
  newDate rt (Some y) (Some m) (Some dt) = TimeClip (localMidnight rt y m dt).
Proof. reflexivity. Qed.

Lemma TimeClip_Some t tv : TimeClip t = Some tv -> tv = t /\ Z.abs t <= maxTime.
Proof.
  unfold TimeClip. destruct (Z.leb_spec (Z.abs t) maxTime); [|discriminate].
  intros [= ->]. auto.
Qed.

Lemma TimeClip_in_range t : Z.abs t <= maxTime -> TimeClip t = Some t.
Proof. intros H%Z.leb_le. unfold TimeClip. rewrite H. reflexivity. Qed.

(** In a zone of constant offset, a valid [new Date(y, m, dt)], for a
    month in 0..11 and a date of that month, reads back as local midnight
    of that date of the year [MakeFullYear y]. *)
Lemma newDate_fields rt {tza} (Hc : constantOffset rt tza) y m dt tv :
  0 <= m <= 11 -> 1 <= dt <= DaysInMonth (MakeFullYear y) m ->
  newDate rt (Some y) (Some m) (Some dt) = Some tv ->
  getFullYear rt (Some tv) = Some (MakeFullYear y)
  /\ getMonth rt (Some tv) = Some m
  /\ getDate rt (Some tv) = Some dt
  /\ getHours rt (Some tv) = Some 0
  /\ getMinutes rt (Some tv) = Some 0.
Proof.
  intros Hm Hd Hnew. rewrite newDate_Some in Hnew.
  apply TimeClip_Some in Hnew as [-> _].
  unfold getFullYear, getMonth, getDate, getHours, getMinutes, option_map, localMidnight.
  rewrite (LocalTime_UTC rt Hc).
  pose proof (fields_of_MakeDate (MakeFullYear y) m dt (MakeTime 0 0 0 0) Hm Hd
                ltac:(cbv; intuition discriminate)) as (Hy & HM & HD).
  rewrite Hy, HM, HD. repeat split.
  - f_equal. unfold HourFromTime, MakeDate, MakeTime, msPerDay, msPerHour. floor_lia.
  - f_equal. unfold MinFromTime, MakeDate, MakeTime, msPerDay, msPerMinute. floor_lia.
Qed.

(** The first of the month is where the date count starts, so later dates
    are later instants. *)
Lemma localMidnight_step rt {tza} (Hc : constantOffset rt tza) y m dt :
  localMidnight rt y m (dt + 1) = localMidnight rt y m dt + msPerDay.
Proof.
  unfold localMidnight. rewrite !(UTC_constant rt Hc).
  unfold MakeDate, MakeDay. lia.
Qed.


Lemma getMonth_range rt t m : getMonth rt (Some t) = Some m -> 0 <= m <= 11.
Proof.
  intros [= <-]. apply (MakeDay_of_fields (LocalTime rt t)).
Qed.

End DateFacts.

(** * The component: day axis and binning *)

Module ComponentFacts.
Import ES ESFacts DateFacts.

(** The loop pushes the dates [d], [d + 1], ... up to the limit. *)
Lemma pushDays_spec rt year month lastDay d days :
  pushDays rt year month lastDay d days
  = (days ++ match getDate rt lastDay with
             | Some n => map (fun k => newDate rt year month (Some k))
                             (seqZ d (n + 1 - d))
             | None => []
             end)%list.
Proof.
  funelim (pushDays rt year month lastDay d days).
  - match goal with IH : pushDays _ _ _ _ _ _ = (_ ++ _)%list |- _ => rewrite IH end.
    destruct (getDate rt lastDay) as [n|]; [|discriminate].
    assert (d <= n) by (apply Z.leb_le; assumption).
    rewrite (seqZ_cons d) by lia. cbn [map].
    rewrite <- app_assoc. cbn [app]. do 4 f_equal; lia.
  - destruct (getDate rt lastDay) as [n|].
    + assert (n < d) by (apply Z.leb_gt; assumption).
      rewrite seqZ_nil by lia. cbn. rewrite app_nil_r. reflexivity.
    + rewrite app_nil_r. reflexivity.
Qed.

Lemma getDaysInMonth_spec rt currentDate :
  getDaysInMonth rt currentDate
  = match getDate rt (newDate rt (getFullYear rt currentDate)
                        (plus (getMonth rt currentDate) (Some 1)) (Some 0)) with
    | Some n => map (fun k => newDate rt (getFullYear rt currentDate)
                                (getMonth rt currentDate) (Some k))
                    (seqZ 1 n)
    | None => []
    end.
Proof.
  unfold getDaysInMonth. cbv zeta. rewrite pushDays_spec. cbn [app].
  destruct (getDate rt _) as [n|]; [|reflexivity].
  do 2 f_equal. lia.
Qed.

(** An Invalid Date as reference date gives no day at all. *)
Lemma getDaysInMonth_invalid rt : getDaysInMonth rt NaN = [].
Proof. rewrite getDaysInMonth_spec. reflexivity. Qed.

(** The limit of the loop: when day 0 of the following month is a valid
    date, its date is the length of the month (of the year the constructor
    makes of the year it is given). *)
Lemma lastDay_getDate rt {tza} (Hc : constantOffset rt tza) y m tv :
  0 <= m <= 11 ->
  newDate rt (Some y) (plus (Some m) (Some 1)) (Some 0) = Some tv ->
  getDate rt (Some tv) = Some (DaysInMonth (MakeFullYear y) m).
Proof.
  intros Hm Hnew. cbn [plus] in Hnew. rewrite newDate_Some in Hnew.
  apply TimeClip_Some in Hnew as [-> _].
  unfold getDate, option_map, localMidnight. rewrite (LocalTime_UTC rt Hc).
  rewrite MakeDay_last by exact Hm.
  pose proof (DaysInMonth_bounds (MakeFullYear y) m) as Hb.
  pose proof (fields_of_MakeDate (MakeFullYear y) m (DaysInMonth (MakeFullYear y) m)
                (MakeTime 0 0 0 0) Hm ltac:(lia)
                ltac:(cbv; intuition discriminate)) as (_ & _ & HD).
  rewrite HD. reflexivity.
Qed.

Lemma lookup_map {A B} (f : A -> B) (l : list A) (i : nat) :
  map f l !! i = f <$> (l !! i).
Proof. exact (list_lookup_fmap f l i). Qed.

(** In every runtime, row [i] of the day axis is
    [new Date(year, month, i + 1)]. *)
Lemma axis_row rt currentDate i day :
  getDaysInMonth rt currentDate !! i = Some day ->
  exists t,
    currentDate = Some t
    /\ day = newDate rt (Some (YearFromTime (LocalTime rt t)))
                     (Some (MonthFromTime (LocalTime rt t))) (Some (1 + Z.of_nat i)).
Proof.
  rewrite getDaysInMonth_spec.
  destruct currentDate as [t|]; [|cbn; rewrite lookup_nil; discriminate].
  cbn [getFullYear getMonth option_map].
  destruct (getDate rt _) as [n|]; [|rewrite lookup_nil; discriminate].
  rewrite lookup_map. intros H.
  destruct (seqZ 1 n !! i) as [k|] eqn:Hk; [|discriminate].
  apply lookup_seqZ in Hk as [-> Hi].
  exists t. split; [reflexivity|].
  change (Some (newDate rt (Some (YearFromTime (LocalTime rt t)))
                  (Some (MonthFromTime (LocalTime rt t))) (Some (1 + Z.of_nat i)))
          = Some day) in H.
  congruence.
Qed.

(** In a zone of constant offset, row [i] of the day axis is
    [new Date(year, month, i + 1)], and the axis is as long as the month
    of the year the constructor works in. *)
Lemma axis_lookup rt {tza} (Hc : constantOffset rt tza) currentDate i day :
  getDaysInMonth rt currentDate !! i = Some day ->
  exists t,
    currentDate = Some t
    /\ let y := YearFromTime (LocalTime rt t) in
       let m := MonthFromTime (LocalTime rt t) in
       Z.of_nat i < DaysInMonth (MakeFullYear y) m
       /\ day = newDate rt (Some y) (Some m) (Some (1 + Z.of_nat i)).
Proof.
  rewrite getDaysInMonth_spec.
  destruct currentDate as [t|]; [|cbn; rewrite lookup_nil; discriminate].
  cbn [getFullYear getMonth option_map].
  set (y := YearFromTime (LocalTime rt t)). set (m := MonthFromTime (LocalTime rt t)).
  assert (0 <= m <= 11) as Hm by apply (MakeDay_of_fields (LocalTime rt t)).
  destruct (newDate rt (Some y) (plus (Some m) (Some 1)) (Some 0)) as [tv|] eqn:Hlast;
    [|cbn; rewrite lookup_nil; discriminate].
  rewrite (lastDay_getDate rt Hc y m tv Hm Hlast).
  rewrite lookup_map. intros H.
  destruct (seqZ 1 (DaysInMonth (MakeFullYear y) m) !! i) as [k|] eqn:Hk;
    [|discriminate].
  apply lookup_seqZ in Hk as [-> Hi].
  exists t. split; [reflexivity|]. cbv zeta. split; [exact Hi|].
  change (Some (newDate rt (Some y) (Some m) (Some (1 + Z.of_nat i))) = Some day) in H.
  subst y m. congruence.
Qed.

(** In a zone of constant offset, a valid day of the axis shows the date
    [i + 1] of the month of the reference date. *)
Lemma axis_getDate rt {tza} (Hc : constantOffset rt tza) currentDate i tv :
  getDaysInMonth rt currentDate !! i = Some (Some tv) ->
  getDate rt (Some tv) = Some (1 + Z.of_nat i)
  /\ getMonth rt (Some tv) = getMonth rt currentDate.
Proof.
  intros H. apply (axis_lookup rt Hc) in H as (t & -> & Hi & Hday). cbv zeta in *.
  assert (0 <= MonthFromTime (LocalTime rt t) <= 11) as Hm
    by apply (MakeDay_of_fields (LocalTime rt t)).
  symmetry in Hday.
  apply (newDate_fields rt Hc) in Hday as (_ & HM & HD & _); [|exact Hm|lia].
  split; [exact HD|exact HM].
Qed.

Lemma andb5 a b c d e :
  a && b && c && d && e = true
  <-> a = true /\ b = true /\ c = true /\ d = true /\ e = true.
Proof. destruct a, b, c, d, e; cbn; intuition congruence. Qed.

(** The callback of the filter, as a statement: the comparison is made on
    the runtime's own clock. *)
Lemma startsAt_iff rt date timeSlot event :
  startsAt rt date timeSlot event = true
  <-> startsOnClock (runtimeClock rt) rt date timeSlot event.
Proof.
  unfold startsAt, startsOnClock, runtimeClock. cbv zeta. rewrite andb5.
  rewrite !strictEq_Some, !strictEq_true.
  destruct (newDateOfString rt (dateTime (start event))) as [t|];
    destruct date as [w|]; cbn [getDate getMonth getFullYear getHours getMinutes
                                 option_map wallClock wcYear wcMonth wcDay wcHour
                                 wcMinute]; unfold LocalTime; split.
  - intros ((d & [= Hd1] & [= Hd2]) & (m & [= Hm1] & [= Hm2])
            & (y & [= Hy1] & [= Hy2]) & [= Hh] & [= Hmi]).
    exists t, w. repeat split; first [assumption | congruence].
  - intros (t' & w' & [= <-] & [= <-] & Hy & Hm & Hd & Hh & Hmi).
    repeat split;
      first [ eexists; split; [reflexivity | f_equal; congruence]
            | f_equal; assumption ].
  - intros ((d & _ & [=]) & _).
  - intros (t' & w' & _ & [=] & _).
  - intros ((d & [=] & _) & _).
  - intros (t' & w' & [=] & _).
  - intros ((d & [=] & _) & _).
  - intros (t' & w' & [=] & _).
Qed.

Lemma cell_member rt events date timeSlot event :
  In event (getEventsForTimeSlot rt events date timeSlot)
  <-> In event events /\ startsOnClock (runtimeClock rt) rt date timeSlot event.
Proof.
  unfold getEventsForTimeSlot. rewrite filter_In, startsAt_iff. reflexivity.
Qed.

(** Filtering keeps the order of the list it filters. *)
Lemma filter_sublist {A} (f : A -> bool) (l : list A) :
  List.filter f l `sublist_of` l.
Proof.
  induction l as [|a l IH]; cbn; [constructor|].
  destruct (f a); constructor; exact IH.
Qed.

Lemma cellAt_Some rt slots st i j slotEvents :
  cellAt rt slots st i j = Some slotEvents
  <-> exists day timeSlot,
        getDaysInMonth rt (currentDate st) !! i = Some day
        /\ slots !! j = Some timeSlot
        /\ slotEvents = getEventsForTimeSlot rt (events st) day timeSlot.
Proof.
  unfold cellAt, tableBody. rewrite lookup_map.
  destruct (getDaysInMonth rt (currentDate st) !! i) as [day|]; cbn.
  - rewrite lookup_map. destruct (slots !! j) as [timeSlot|]; cbn.
    + split.
      * intros [= <-]. eauto.
      * intros (day' & slot' & [= <-] & [= <-] & ->). reflexivity.
    + split; [discriminate|]. intros (? & ? & _ & [=] & _).
  - split; [discriminate|]. intros (? & ? & [=] & _).
Qed.

(** In a zone of constant offset, no two rows of the day axis show the
    same day of the month. *)
Lemma axis_distinct rt {tza} (Hc : constantOffset rt tza) currentDate :
  distinctDates rt (getDaysInMonth rt currentDate).
Proof.
  intros i i' day day' Hne Hi Hi'.
  destruct day as [tv|], day' as [tv'|]; try reflexivity.
  apply (axis_getDate rt Hc) in Hi as [-> _], Hi' as [-> _].
  cbn [strictEq]. apply Z.eqb_neq. lia.
Qed.

(** Two cells of the table that hold the same event are the same cell, as
    soon as no two slots start at the same time and no two rows show the
    same day of the month. *)
Lemma cell_unique_rows rt slots st event i j i' j' cell cell' :
  NoDup (map slotStart slots) ->
  distinctDates rt (getDaysInMonth rt (currentDate st)) ->
  cellAt rt slots st i j = Some cell -> In event cell ->
  cellAt rt slots st i' j' = Some cell' -> In event cell' ->
  i = i' /\ j = j'.
Proof.
  intros Hnd Hrows Hcell Hin Hcell' Hin'.
  apply cellAt_Some in Hcell as (day & slot & Hday & Hslot & ->).
  apply cellAt_Some in Hcell' as (day' & slot' & Hday' & Hslot' & ->).
  apply cell_member in Hin as (_ & t & w & Ht & -> & _ & _ & Hd & Hh & Hmi).
  apply cell_member in Hin' as (_ & t' & w' & Ht' & -> & _ & _ & Hd' & Hh' & Hmi').
  rewrite Ht in Ht'. injection Ht' as <-.
  split.
  - destruct (Nat.eq_dec i i') as [Heq | Hne]; [exact Heq|].
    pose proof (Hrows i i' (Some w) (Some w') Hne Hday Hday') as Hdiff.
    unfold runtimeClock in Hd, Hd'. cbn [wallClock wcDay] in Hd, Hd'.
    cbn [getDate option_map strictEq] in Hdiff. unfold LocalTime in Hdiff.
    apply Z.eqb_neq in Hdiff. congruence.
  - apply (NoDup_lookup (map slotStart slots) j j' (slotStart slot)); [exact Hnd| |].
    + rewrite lookup_map, Hslot. reflexivity.
    + rewrite lookup_map, Hslot'. cbn. unfold slotStart. do 2 f_equal; congruence.
Qed.

Lemma cell_unique rt {tza} (Hc : constantOffset rt tza) slots st event i j i' j'
    cell cell' :
  NoDup (map slotStart slots) ->
  cellAt rt slots st i j = Some cell -> In event cell ->
  cellAt rt slots st i' j' = Some cell' -> In event cell' ->
  i = i' /\ j = j'.
Proof.
  intros Hnd. apply cell_unique_rows; [exact Hnd|apply (axis_distinct rt Hc)].
Qed.

End ComponentFacts.

(** * Properties of the binning *)

Section Binning.
Import ES ESFacts DateFacts ComponentFacts.

Lemma slot_starts_distinct slots :
  configuredSlots slots -> NoDup (map slotStart slots).
Proof.
  intros [-> | ->]; apply (bool_decide_unpack _); vm_compute; reflexivity.
Qed.

(** An event whose local start is the start of no slot is in no cell. *)
Lemma no_slot_no_cell rt slots st event t :
  newDateOfString rt (dateTime (start event)) = Some t ->
  (forall timeSlot, In timeSlot slots ->
     slotStart timeSlot
     <> (wcHour (runtimeClock rt t), wcMinute (runtimeClock rt t))) ->
  forall i j cell, cellAt rt slots st i j = Some cell -> ~ In event cell.
Proof.
  intros Ht Hno i j cell Hc Hin.
  apply cellAt_Some in Hc as (day & timeSlot & _ & Hslot & ->).
  apply cell_member in Hin as (_ & t' & w & Ht' & _ & _ & _ & _ & Hh & Hmi).
  rewrite Ht in Ht'. injection Ht' as <-.
  apply (Hno timeSlot).
  - apply list_elem_of_In, list_elem_of_lookup. eauto.
  - unfold slotStart. congruence.
Qed.

Lemma one_minute_off_no_slot slots h mi :
  configuredSlots slots -> 0 <= mi <= 59 ->
  (exists timeSlot, In timeSlot slots /\ oneMinuteOff timeSlot h mi) ->
  forall timeSlot, In timeSlot slots -> slotStart timeSlot <> (h, mi).
Proof.
  intros Hs Hmi (near & Hnear & Hoff) timeSlot Hin Heq.
  unfold slotStart in Heq. injection Heq as <- <-. unfold oneMinuteOff in Hoff.
  destruct Hs as [-> | ->]; cbn in Hnear, Hin;
    repeat (destruct Hnear as [<- | Hnear]; [|]); try contradiction;
    repeat (destruct Hin as [<- | Hin]; [|]); try contradiction;
    cbn in Hoff, Hmi; lia.
Qed.

End Binning.

Section BinningClaims.
Import ES ESFacts DateFacts ComponentFacts.

(** C10 (as amended): in both revisions of [TIME_SLOTS] no two slots have
    the same (startHour, startMinute), although the end of "2限" is the
    start of "昼休み" (12:00) and the end of "昼休み" is the start of "3限"
    (13:00).  In a runtime whose zone has a constant offset from UTC, two
    different rows of the day axis never show the same date under [===].
    In every runtime, when no two rows of the day axis show the same date,
    an event that is in the cell (i, j) and in the cell (i', j') of the
    table of a month has i = i' and j = j'; so this holds in every runtime
    of constant offset. *)
Theorem C10_distinct_starts_at_most_one_cell :
  NoDup (map slotStart TimetableCalendar.TIME_SLOTS)
  /\ NoDup (map slotStart Part000.TIME_SLOTS)
  /\ (forall slots s2 lunch s3,
        configuredSlots slots ->
        slots !! 1%nat = Some s2 -> slots !! 2%nat = Some lunch ->
        slots !! 3%nat = Some s3 ->
        (endHour s2, endMinute s2) = slotStart lunch
        /\ (endHour lunch, endMinute lunch) = slotStart s3
        /\ slotStart s2 <> slotStart lunch /\ slotStart lunch <> slotStart s3)
  /\ (forall rt tza currentDate i i' day day',
        constantOffset rt tza ->
        i <> i' ->
        getDaysInMonth rt currentDate !! i = Some day ->
        getDaysInMonth rt currentDate !! i' = Some day' ->
        strictEq (getDate rt day) (getDate rt day') = false)
  /\ (forall rt slots st event i j i' j' cell cell',
        configuredSlots slots ->
        distinctDates rt (getDaysInMonth rt (currentDate st)) ->
        cellAt rt slots st i j = Some cell -> In event cell ->
        cellAt rt slots st i' j' = Some cell' -> In event cell' ->
        i = i' /\ j = j')
  /\ (forall rt tza slots st event i j i' j' cell cell',
        constantOffset rt tza ->
        configuredSlots slots ->
        cellAt rt slots st i j = Some cell -> In event cell ->
        cellAt rt slots st i' j' = Some cell' -> In event cell' ->
        i = i' /\ j = j').
Proof.
  split; [apply slot_starts_distinct; left; reflexivity|].
  split; [apply slot_starts_distinct; right; reflexivity|].
  split.
  { intros slots s2 lunch s3 [-> | ->] [= <-] [= <-] [= <-];
      cbn; repeat split; discriminate. }
  split; [|split].
  - intros rt tza currentDate i i' day day' Hc. apply (axis_distinct rt Hc).
  - intros rt slots st event i j i' j' cell cell' Hs.
    apply cell_unique_rows, slot_starts_distinct, Hs.
  - intros rt tza slots st event i j i' j' cell cell' Hc Hs.
    apply (cell_unique rt Hc), slot_starts_distinct, Hs.
Qed.

(** C10, counterexample: Pacific/Apia in December 2011, whose 30th was
    skipped.  The rows of the day axis show the dates 1 to 29, 31 and 31:
    [new Date(2011, 11, 30)] is the local midnight that did not take place
    and lands on the 31st.  The event that starts at 08:50 on the 31st is
    in the first-period cell of row 29 and in that of row 30. *)
Lemma C10_counterexample_skipped_day :
  map (getDate apia) (getDaysInMonth apia midDecember2011)
  = map Some (seqZ 1 29 ++ [31; 31])%list
  /\ getDaysInMonth apia midDecember2011 !! 29%nat
     = Some (Some (instantOn utcOffset 2011 12 30 10 0))
  /\ getDaysInMonth apia midDecember2011 !! 30%nat
     = Some (Some (instantOn utcOffset 2011 12 30 10 0))
  /\ ~ distinctDates apia (getDaysInMonth apia midDecember2011)
  /\ cellAt apia TimetableCalendar.TIME_SLOTS
        {| events := [eventApiaMorning]; error := None;
           currentDate := midDecember2011 |} 29 0
     = Some [eventApiaMorning]
  /\ cellAt apia TimetableCalendar.TIME_SLOTS
        {| events := [eventApiaMorning]; error := None;
           currentDate := midDecember2011 |} 30 0
     = Some [eventApiaMorning].
Proof.
  assert (getDaysInMonth apia midDecember2011 !! 29%nat
          = Some (Some (instantOn utcOffset 2011 12 30 10 0))) as H29
    by (rewrite getDaysInMonth_spec; vm_compute; reflexivity).
  assert (getDaysInMonth apia midDecember2011 !! 30%nat
          = Some (Some (instantOn utcOffset 2011 12 30 10 0))) as H30
    by (rewrite getDaysInMonth_spec; vm_compute; reflexivity).
  split; [rewrite getDaysInMonth_spec; vm_compute; reflexivity|].
  split; [exact H29|]. split; [exact H30|]. split.
  - intros Hrows.
    pose proof (Hrows 29%nat 30%nat _ _ ltac:(discriminate) H29 H30) as Hdiff.
    vm_compute in Hdiff. discriminate Hdiff.
  - unfold cellAt, tableBody. cbn [currentDate events].
    rewrite getDaysInMonth_spec. split; vm_compute; reflexivity.
Qed.

(** C1 (as amended): in every runtime, the events of the cell of a day and
    a slot are exactly the events of the list whose start instant, shown
    on the clock of the JavaScript runtime (not on the clock of the zone
    the event names), falls on the calendar day of that day at the slot's
    start hour and minute, in the order of the list.  When no two rows of
    the month's table show the same date, which is so in every runtime
    whose zone has a constant offset from UTC, an event of the list that
    starts, on that clock, at the start of slot j on the day of row i is
    in the cell (i, j) of the table and in no other.  In every runtime, an
    event that starts at the start of no slot, in particular one minute
    before or after the start of a slot, is in no cell.  The list is the
    [value] of the aggregator's answer, as [fetchEvents] stores it. *)
Theorem C1_binning_on_runtime_clock : forall rt st,
  (forall value st0,
      events (fetchEvents {| status := 200; json := ValueBody value |} st0) = value)
  /\ (forall date timeSlot,
      (forall event,
          In event (getEventsForTimeSlot rt (events st) date timeSlot)
          <-> In event (events st)
              /\ startsOnClock (runtimeClock rt) rt date timeSlot event)
      /\ getEventsForTimeSlot rt (events st) date timeSlot `sublist_of` events st)
  /\ (forall tza, constantOffset rt tza ->
        distinctDates rt (getDaysInMonth rt (currentDate st)))
  /\ (forall slots event i j day timeSlot,
        distinctDates rt (getDaysInMonth rt (currentDate st)) ->
        configuredSlots slots ->
        In event (events st) ->
        getDaysInMonth rt (currentDate st) !! i = Some day ->
        slots !! j = Some timeSlot ->
        startsOnClock (runtimeClock rt) rt day timeSlot event ->
        forall i' j' cell,
          cellAt rt slots st i' j' = Some cell ->
          (In event cell <-> i' = i /\ j' = j))
  /\ (forall slots event t,
        configuredSlots slots ->
        newDateOfString rt (dateTime (start event)) = Some t ->
        (forall timeSlot, In timeSlot slots ->
           slotStart timeSlot
           <> (wcHour (runtimeClock rt t), wcMinute (runtimeClock rt t)))
        \/ (exists timeSlot, In timeSlot slots
              /\ oneMinuteOff timeSlot (wcHour (runtimeClock rt t))
                                       (wcMinute (runtimeClock rt t))) ->
        forall i j cell, cellAt rt slots st i j = Some cell -> ~ In event cell).
Proof.
  intros rt st. split; [reflexivity|]. split; [|split; [|split]].
  - intros date timeSlot. split.
    + intros event. apply cell_member.
    + apply filter_sublist.
  - intros tza Hc. apply (axis_distinct rt Hc).
  - intros slots event i j day timeSlot Hrows Hs Hin Hday Hslot Hstarts i' j' cell Hc.
    assert (cellAt rt slots st i j
            = Some (getEventsForTimeSlot rt (events st) day timeSlot)) as Hij
      by (apply cellAt_Some; eauto).
    assert (In event (getEventsForTimeSlot rt (events st) day timeSlot)) as Hthere
      by (apply cell_member; auto).
    split.
    + intros Hin'.
      eapply cell_unique_rows; eauto using slot_starts_distinct.
    + intros [-> ->]. rewrite Hij in Hc. injection Hc as <-. exact Hthere.
  - intros slots event t Hs Ht Hoff.
    apply no_slot_no_cell with (t := t); [exact Ht|].
    destruct Hoff as [Hno | Hnear]; [exact Hno|].
    apply one_minute_off_no_slot; [exact Hs| |exact Hnear].
    cbn. unfold MinFromTime. floor_lia.
Qed.

(** Three events in a runtime nine hours ahead of UTC: one a minute
    late for the first period, then two at its start on 5 March 2024. *)
Example first_period_cell_keeps_order :
  cellsOf (tableBody (runtimeAt 9) TimetableCalendar.TIME_SLOTS
             {| events := [eventStarting "2024-03-04T23:51:00.000Z" "Asia/Tokyo";
                           eventStarting "2024-03-04T23:50:00.000Z" "UTC";
                           eventStarting "2024-03-04T23:50:00.000Z" "Asia/Tokyo"];
                error := None;
                currentDate := midMarch2024 |})
  = (replicate 4 (replicate 6 [])
     ++ [[[eventStarting "2024-03-04T23:50:00.000Z" "UTC";
           eventStarting "2024-03-04T23:50:00.000Z" "Asia/Tokyo"];
          []; []; []; []; []]]
     ++ replicate 26 (replicate 6 []))%list.
Proof.
  unfold cellsOf, tableBody. rewrite getDaysInMonth_spec. vm_compute. reflexivity.
Qed.

End BinningClaims.

(** C1, counterexample: in a runtime five hours behind UTC, the cell of
    5 March 2024 and the first period holds an event tagged Asia/Tokyo
    whose start is 13:50 on the clock of its [Z] designator and 22:50 on
    the clock of its label; and in a runtime on UTC the same cell does not
    hold the event that starts at 08:50 of that day in Asia/Tokyo.  And in
    Pacific/Apia, whose 30 December 2011 was skipped, the event that
    starts at 08:50 on the 31st is in two cells of the table of December
    2011, those of the first period in rows 29 and 30. *)
Lemma C1_counterexample_embedded_zone :
  getEventsForTimeSlot (runtimeAt (-5)) [eventNewYorkMorning]
    (march5 (runtimeAt (-5))) firstPeriod = [eventNewYorkMorning]
  /\ labelOffset (timeZone (start eventNewYorkMorning)) = Some tokyoOffset
  /\ ~ startsOnClock (wallClock tokyoOffset) (runtimeAt (-5)) (march5 (runtimeAt (-5)))
        firstPeriod eventNewYorkMorning
  /\ ~ startsOnClock (wallClock utcOffset) (runtimeAt (-5)) (march5 (runtimeAt (-5)))
        firstPeriod eventNewYorkMorning
  /\ startsOnClock (wallClock tokyoOffset) (runtimeAt 0) (march5 (runtimeAt 0))
        firstPeriod eventTokyoMorning
  /\ getEventsForTimeSlot (runtimeAt 0) [eventTokyoMorning]
        (march5 (runtimeAt 0)) firstPeriod = []
  /\ cellAt apia TimetableCalendar.TIME_SLOTS
        {| events := [eventApiaMorning]; error := None;
           currentDate := midDecember2011 |} 29 0
     = Some [eventApiaMorning]
  /\ cellAt apia TimetableCalendar.TIME_SLOTS
        {| events := [eventApiaMorning]; error := None;
           currentDate := midDecember2011 |} 30 0
     = Some [eventApiaMorning].
Proof.
  split; [vm_compute; reflexivity|].
  split; [vm_compute; reflexivity|].
  split; [|split; [|split; [|split]]].
  - intros (t & w & Ht & _ & _ & _ & _ & Hh & _).
    vm_compute in Ht. injection Ht as <-. vm_compute in Hh. discriminate.
  - intros (t & w & Ht & _ & _ & _ & _ & Hh & _).
    vm_compute in Ht. injection Ht as <-. vm_compute in Hh. discriminate.
  - exists 1709596200000, 1709596800000. vm_compute. repeat split; reflexivity.
  - vm_compute. reflexivity.
  - unfold cellAt, tableBody. cbn [currentDate events].
    rewrite ComponentFacts.getDaysInMonth_spec. split; vm_compute; reflexivity.
Qed.

(** * The day axis *)

Section DayAxis.
Import ES ESFacts DateFacts ComponentFacts.

(** Every day of a year between -271820 and 275759 is a valid date in a
    runtime whose zone has a constant offset of at most a day. *)
Lemma newDate_valid rt {tza} (Hc : constantOffset rt tza) y m dt :
  Z.abs tza <= msPerDay ->
  -271820 <= MakeFullYear y <= 275759 ->
  0 <= m <= 11 -> 1 <= dt <= DaysInMonth (MakeFullYear y) m ->
  newDate rt (Some y) (Some m) (Some dt) = Some (localMidnight rt y m dt).
Proof.
  intros Htz Hr Hm Hd.
  rewrite newDate_Some. apply TimeClip_in_range.
  unfold localMidnight. rewrite (UTC_constant rt Hc).
  rewrite MakeDay_within by exact Hm.
  set (yr := MakeFullYear y) in *.
  pose proof (DaysBeforeMonth_range yr m Hm) as [Hlo Hhi].
  pose proof (DayFromYear_mono (-271820) yr ltac:(lia)) as H1.
  pose proof (DayFromYear_mono (yr + 1) 275760 ltac:(lia)) as H2.
  rewrite DayFromYear_succ in H2.
  change (DayFromYear (-271820)) with (-99999744) in H1.
  change (DayFromYear 275760) with 99999744 in H2.
  unfold MakeDate, MakeTime, msPerDay, maxTime in *. lia.
Qed.

Lemma MakeFullYear_cases y :
  (~ (0 <= y <= 99) -> MakeFullYear y = y)
  /\ (0 <= y <= 99 -> MakeFullYear y = 1900 + y).
Proof.
  unfold MakeFullYear.
  destruct (Z.leb_spec 0 y); destruct (Z.leb_spec y 99); cbn; split; intros; lia.
Qed.





(** The reference date 15 February of the year 0, in a runtime on UTC:
    the year 0 is a leap year, the day axis has 28 rows, the days of
    February 1900, which is the year [new Date(0, 1, d)] works in. *)
Example day_axis_of_year_0 :
  getFullYear (runtimeAt 0) februaryOfYear0 = Some 0
  /\ getMonth (runtimeAt 0) februaryOfYear0 = Some 1
  /\ DaysInMonth 0 1 = 29
  /\ length (getDaysInMonth (runtimeAt 0) februaryOfYear0) = 28%nat
  /\ map (getFullYear (runtimeAt 0)) (getDaysInMonth (runtimeAt 0) februaryOfYear0)
     = replicate 28 (Some 1900).
Proof.
  rewrite getDaysInMonth_spec. vm_compute. repeat split; reflexivity.
Qed.

(** The lengths of the day axis for February 2023, February 2024, March
    2024, April 2024 and December 2024, in a runtime nine hours ahead of
    UTC and in one five hours behind. *)
Example day_axis_lengths :
  map (fun reference => length (getDaysInMonth (runtimeAt 9) (Some reference)))
      [instantOn utcOffset 2023 2 15 12 0; instantOn utcOffset 2024 2 15 12 0;
       instantOn utcOffset 2024 3 15 12 0; instantOn utcOffset 2024 4 15 12 0;
       instantOn utcOffset 2024 12 15 12 0]
  = [28; 29; 31; 30; 31]%nat
  /\ map (fun reference => length (getDaysInMonth (runtimeAt (-5)) (Some reference)))
         [instantOn utcOffset 2023 2 15 12 0; instantOn utcOffset 2024 2 15 12 0;
          instantOn utcOffset 2024 3 15 12 0; instantOn utcOffset 2024 4 15 12 0;
          instantOn utcOffset 2024 12 15 12 0]
     = [28; 29; 31; 30; 31]%nat.
Proof.
  cbn [map]. rewrite !getDaysInMonth_spec. split; vm_compute; reflexivity.
Qed.

End DayAxis.

(** * The handler *)

Section Handler.

Lemma mapThrowing_Normal {A B} (f : A -> Completion B) l l' :
  mapThrowing f l = Normal l' <-> Forall2 (fun a b => f a = Normal b) l l'.
Proof.
  revert l'. induction l as [|a l IH]; intros l'; cbn.
  - split.
    + intros [= <-]. constructor.
    + intros H. inversion H. reflexivity.
  - destruct (f a) as [b|e] eqn:Hfa; cbn.
    + destruct (mapThrowing f l) as [bs|e] eqn:Hl; cbn.
      * split.
        -- intros [= <-]. constructor; [exact Hfa|]. apply IH. reflexivity.
        -- intros H. inversion H as [|? b' ? bs' Hb Hbs]; subst.
           apply IH in Hbs. congruence.
      * split; [discriminate|].
        intros H. inversion H as [|? b' ? bs' Hb Hbs]; subst.
        apply IH in Hbs. discriminate.
    + split; [discriminate|].
      intros H. inversion H as [|? b' ? bs' Hb Hbs]; subst. congruence.
Qed.

Lemma mapThrowing_total {A B} (f : A -> Completion B) l :
  (forall a, In a l -> exists b, f a = Normal b) ->
  exists l', mapThrowing f l = Normal l'.
Proof.
  induction l as [|a l IH]; intros H; cbn; [eauto|].
  destruct (H a (or_introl eq_refl)) as [b ->].
  destruct IH as [l' ->]; [intros; apply H; right; assumption|].
  cbn. eauto.
Qed.

Lemma configured_Some url u :
  configured url = Some u <-> url = Some u /\ u <> EmptyString.
Proof.
  unfold configured. destruct url as [v|]; [destruct (truthy v) eqn:E|].
  - split.
    + intros [= <-]. split; [reflexivity|]. intros ->. discriminate E.
    + intros [[= <-] _]. reflexivity.
  - split; [discriminate|].
    intros [[= <-] Hne]. destruct v; [contradiction|discriminate E].
  - split; [discriminate|]. intros [[=] _].
Qed.

Lemma configured_None url : configured url = None <-> missingOrEmpty url.
Proof.
  unfold configured, missingOrEmpty. destruct url as [[|c v]|]; cbn;
    intuition congruence.
Qed.

(** With both locators configured, the handler requests both feeds and
    then answers from the completion of its try block. *)
Lemma handler_configured env net url1 url2 :
  configured (PUBLIC_CALENDAR_URL_1 env) = Some url1 ->
  configured (PUBLIC_CALENDAR_URL_2 env) = Some url2 ->
  handler env net
  = match (feeds <- Promise_all net (fromURL net 0%nat url1) (fromURL net 1%nat url2) ;;
           formatted1 <- formatEvents (fst feeds) calendar1 ;;
           formatted2 <- formatEvents (snd feeds) calendar2 ;;
           Normal {| status := 200;
                     json := ValueBody (formatted1 ++ formatted2)%list |})%completion
    with
    | Normal res => {| requested := [url1; url2]; logged := []; response := res |}
    | Throw error => failedRun url1 url2 error
    end.
Proof. intros H1 H2. unfold handler. rewrite H1, H2. reflexivity. Qed.

(** A successful answer is the two formatted feeds, one after the other. *)
Lemma handler_value env net value :
  json (response (handler env net)) = ValueBody value ->
  exists url1 url2 feedA feedB eventsA eventsB,
    configured (PUBLIC_CALENDAR_URL_1 env) = Some url1
    /\ configured (PUBLIC_CALENDAR_URL_2 env) = Some url2
    /\ fromURL net 0%nat url1 = Fulfilled feedA
    /\ fromURL net 1%nat url2 = Fulfilled feedB
    /\ formatEvents feedA calendar1 = Normal eventsA
    /\ formatEvents feedB calendar2 = Normal eventsB
    /\ value = (eventsA ++ eventsB)%list.
Proof.
  destruct (configured (PUBLIC_CALENDAR_URL_1 env)) as [url1|] eqn:H1;
    [|unfold handler; rewrite H1; discriminate].
  destruct (configured (PUBLIC_CALENDAR_URL_2 env)) as [url2|] eqn:H2;
    [|unfold handler; rewrite H1, H2; discriminate].
  rewrite (handler_configured env net url1 url2 H1 H2). unfold failedRun.
  destruct (fromURL net 0%nat url1) as [feedA|r1] eqn:HA;
    destruct (fromURL net 1%nat url2) as [feedB|r2] eqn:HB;
    cbn [Promise_all bind fst snd response json];
    try discriminate.
  destruct (formatEvents feedA calendar1) as [eventsA|e] eqn:FA;
    cbn [bind response json]; [|discriminate].
  destruct (formatEvents feedB calendar2) as [eventsB|e] eqn:FB;
    cbn [bind response json]; [|discriminate].
  intros [= <-]. exists url1, url2, feedA, feedB, eventsA, eventsB. auto 10.
Qed.

Lemma formatEvent_Normal source raw ev :
  formatEvent source raw = Normal ev <->
  exists s e,
    ICal.start raw = Some s /\ ICal.end_ raw = Some e
    /\ ev = {| id_ := ICal.uid raw;
               subject := ICal.summary raw;
               start := {| dateTime := isoString s; timeZone := "Asia/Tokyo" |};
               end_ := {| dateTime := isoString e; timeZone := "Asia/Tokyo" |};
               location :=
                 match ICal.location raw with
                 | Some l => if truthy l then Some {| displayName := l |} else None
                 | None => None
                 end;
               description := ICal.description raw;
               source := source |}.
Proof.
  unfold formatEvent, toISOString.
  destruct (ICal.start raw) as [s|]; cbn; [destruct (ICal.end_ raw) as [e|]; cbn|].
  - split.
    + intros [= <-]. eauto.
    + intros (s' & e' & [= <-] & [= <-] & ->). reflexivity.
  - split; [discriminate|]. intros (? & ? & _ & [=] & _).
  - split; [discriminate|]. intros (? & ? & [=] & _).
Qed.

End Handler.

Section HandlerClaims.
Import ES ESFacts ISOFacts.

(** C4: if one of the two feed locators is not set or is the empty
    string, the handler answers 400 with the message of a missing
    configuration (which is not the message of a failed fetch), has
    requested no URL and has formatted nothing. *)
Theorem C4_configuration_error_before_any_fetch : forall env net,
  missingOrEmpty (PUBLIC_CALENDAR_URL_1 env)
  \/ missingOrEmpty (PUBLIC_CALENDAR_URL_2 env) ->
  handler env net
  = {| requested := [];
       logged := [];
       response := {| status := 400;
                      json := ErrorBody configurationMessage None |} |}
  /\ configurationMessage <> fetchMessage.
Proof.
  intros env net H. split; [|discriminate].
  unfold handler.
  destruct H as [H | H]; apply configured_None in H; rewrite H;
    [|destruct (configured (PUBLIC_CALENDAR_URL_1 env))]; reflexivity.
Qed.

Lemma C4_witness :
  (missingOrEmpty (PUBLIC_CALENDAR_URL_1 halfConfigured)
   \/ missingOrEmpty (PUBLIC_CALENDAR_URL_2 halfConfigured))
  /\ requested (handler halfConfigured (delivering [("uid-1", meetingEntry)] []))
     = [].
Proof.
  assert (missingOrEmpty (PUBLIC_CALENDAR_URL_1 halfConfigured)
          \/ missingOrEmpty (PUBLIC_CALENDAR_URL_2 halfConfigured)) as H
    by (right; right; reflexivity).
  split; [exact H|].
  rewrite (proj1 (C4_configuration_error_before_any_fetch halfConfigured
                    (delivering [("uid-1", meetingEntry)] []) H)).
  reflexivity.
Defined.

(** C5: with both locators configured, if the first or the second fetch
    (download and parsing by [fromURL]) is rejected, the run of the
    handler is the failed run of one rejection reason: both URLs were
    requested, the reason is logged, the answer is 500 with the message of
    a failed fetch and, as details, the message of the reason when it is
    an [Error] (the fixed text for an unknown error otherwise); the answer
    has no [value].  The run is the same on every network that fails
    alike, whatever a fulfilled request delivers there. *)
Theorem C5_fetch_error_all_or_nothing : forall env net url1 url2,
  configured (PUBLIC_CALENDAR_URL_1 env) = Some url1 ->
  configured (PUBLIC_CALENDAR_URL_2 env) = Some url2 ->
  (exists r, fromURL net 0%nat url1 = Rejected r)
  \/ (exists r, fromURL net 1%nat url2 = Rejected r) ->
  (exists cause,
      (fromURL net 0%nat url1 = Rejected cause
       \/ fromURL net 1%nat url2 = Rejected cause)
      /\ handler env net = failedRun url1 url2 cause
      /\ (forall name message,
            cause = ErrorObject name message ->
            json (response (handler env net))
            = ErrorBody fetchMessage (Some message)))
  /\ (forall value, json (response (handler env net)) <> ValueBody value)
  /\ (forall net', sameFailures net net' -> handler env net' = handler env net).
Proof.
  intros env net url1 url2 H1 H2 Hrej.
  assert (exists cause,
             (fromURL net 0%nat url1 = Rejected cause
              \/ fromURL net 1%nat url2 = Rejected cause)
             /\ Promise_all net (fromURL net 0%nat url1) (fromURL net 1%nat url2)
                = Throw cause) as (cause & Hcause & Hall).
  { destruct (fromURL net 0%nat url1) as [fa|ra];
      destruct (fromURL net 1%nat url2) as [fb|rb]; cbn.
    - destruct Hrej as [[r [=]] | [r [=]]].
    - eauto.
    - eauto.
    - destruct (firstFailsFirst net); eauto. }
  assert (handler env net = failedRun url1 url2 cause) as Hrun
    by (rewrite (handler_configured env net url1 url2 H1 H2), Hall; reflexivity).
  split; [|split].
  - exists cause. split; [exact Hcause|]. split; [exact Hrun|].
    intros name message ->. rewrite Hrun. reflexivity.
  - intros value. rewrite Hrun. discriminate.
  - intros net' [Hfirst Hsame]. rewrite Hrun.
    rewrite (handler_configured env net' url1 url2 H1 H2).
    pose proof (Hsame 0%nat url1) as S1. pose proof (Hsame 1%nat url2) as S2.
    destruct (fromURL net 0%nat url1) as [fa|ra];
      destruct (fromURL net' 0%nat url1) as [fa'|ra']; try contradiction;
      destruct (fromURL net 1%nat url2) as [fb|rb];
      destruct (fromURL net' 1%nat url2) as [fb'|rb']; try contradiction;
      cbn in Hall; try discriminate; subst;
      cbn [Promise_all bind]; rewrite <- ?Hfirst; congruence.
Qed.

Lemma C5_witness :
  (configured (PUBLIC_CALENDAR_URL_1 sampleEnv)
   = Some "https://calendar.example/lounge6.ics"
   /\ configured (PUBLIC_CALENDAR_URL_2 sampleEnv)
      = Some "https://calendar.example/lounge5.ics"
   /\ ((exists r, fromURL (failingFirst unreachable [("uid-1", meetingEntry)]) 0%nat
                    "https://calendar.example/lounge6.ics" = Rejected r)
       \/ (exists r, fromURL (failingFirst unreachable [("uid-1", meetingEntry)]) 1%nat
                       "https://calendar.example/lounge5.ics" = Rejected r)))
  /\ forall value,
       json (response (handler sampleEnv
                         (failingFirst unreachable [("uid-1", meetingEntry)])))
       <> ValueBody value.
Proof.
  split.
  - split; [reflexivity|]. split; [reflexivity|]. left. exists unreachable. reflexivity.
  - exact (proj1 (proj2 (C5_fetch_error_all_or_nothing sampleEnv
                   (failingFirst unreachable [("uid-1", meetingEntry)])
                   "https://calendar.example/lounge6.ics"
                   "https://calendar.example/lounge5.ics"
                   eq_refl eq_refl
                   (or_introl (ex_intro _ unreachable eq_refl))))).
Defined.

Lemma wellFormed_formatEvents events source :
  wellFormed events ->
  exists formatted,
    formatEvents events source = Normal formatted
    /\ Forall2 (fun raw ev => formatEvent source raw = Normal ev)
               (timedEntries events) formatted.
Proof.
  intros Hwf.
  destruct (mapThrowing_total (formatEvent source) (timedEntries events))
    as [formatted Hf].
  - intros raw Hin. destruct (Hwf raw Hin) as ((s & Hs & _) & (e & He & _)).
    eexists. apply formatEvent_Normal. eauto.
  - exists formatted. split; [exact Hf|]. apply mapThrowing_Normal. exact Hf.
Qed.

Lemma formatted_source tag raws formatted :
  Forall2 (fun raw ev => formatEvent tag raw = Normal ev) raws formatted ->
  Forall (fun ev => source ev = tag) formatted.
Proof.
  induction 1 as [|raw ev raws formatted Hev _ IH]; constructor; [|exact IH].
  apply formatEvent_Normal in Hev as (s & e & _ & _ & ->). reflexivity.
Qed.

(** C3: with both locators configured, both feeds fetched and parsed, and
    valid instants in every timed entry, the handler answers 200 with the
    formatted timed entries of feed A, in feed order, followed by those of
    feed B, in feed order: each timed entry gives one event, entries of
    another type give none, the events of A are tagged calendar1, those of
    B calendar2, and the length is the number of timed entries of both
    feeds.  Nothing is sorted and nothing is dropped as a duplicate. *)
Theorem C3_aggregate_is_concatenation : forall env net url1 url2 feedA feedB,
  configured (PUBLIC_CALENDAR_URL_1 env) = Some url1 ->
  configured (PUBLIC_CALENDAR_URL_2 env) = Some url2 ->
  fromURL net 0%nat url1 = Fulfilled feedA ->
  fromURL net 1%nat url2 = Fulfilled feedB ->
  wellFormed feedA -> wellFormed feedB ->
  exists eventsA eventsB,
    handler env net
    = {| requested := [url1; url2];
         logged := [];
         response := {| status := 200;
                        json := ValueBody (eventsA ++ eventsB)%list |} |}
    /\ Forall2 (fun raw ev => formatEvent calendar1 raw = Normal ev)
               (timedEntries feedA) eventsA
    /\ Forall2 (fun raw ev => formatEvent calendar2 raw = Normal ev)
               (timedEntries feedB) eventsB
    /\ Forall (fun ev => source ev = calendar1) eventsA
    /\ Forall (fun ev => source ev = calendar2) eventsB
    /\ length (eventsA ++ eventsB)%list
       = (length (timedEntries feedA) + length (timedEntries feedB))%nat
    /\ (forall feed raw,
          In raw (timedEntries feed)
          <-> In raw (Object_values feed) /\ ICal.type raw = "VEVENT").
Proof.
  intros env net url1 url2 feedA feedB H1 H2 HA HB WA WB.
  destruct (wellFormed_formatEvents feedA calendar1 WA) as (eventsA & FA & F2A).
  destruct (wellFormed_formatEvents feedB calendar2 WB) as (eventsB & FB & F2B).
  exists eventsA, eventsB.
  split; [|split; [exact F2A|split; [exact F2B|split; [|split; [|split]]]]].
  - rewrite (handler_configured env net url1 url2 H1 H2), HA, HB.
    cbn [Promise_all bind fst snd]. rewrite FA, FB. reflexivity.
  - exact (formatted_source _ _ _ F2A).
  - exact (formatted_source _ _ _ F2B).
  - rewrite length_app. apply Forall2_length in F2A, F2B. congruence.
  - intros feed raw. unfold timedEntries. rewrite filter_In.
    unfold isVEVENT. rewrite String.eqb_eq. reflexivity.
Qed.

Lemma sample_wellFormed :
  wellFormed sampleFeedA /\ wellFormed sampleFeedB.
Proof.
  split; intros raw Hin; cbn in Hin;
    repeat (destruct Hin as [<- | Hin]); try contradiction;
    (split; eexists; (split; [reflexivity|]));
    vm_compute; intros Hgt; discriminate Hgt.
Defined.

Lemma C3_witness :
  (configured (PUBLIC_CALENDAR_URL_1 sampleEnv)
   = Some "https://calendar.example/lounge6.ics"
   /\ configured (PUBLIC_CALENDAR_URL_2 sampleEnv)
      = Some "https://calendar.example/lounge5.ics"
   /\ fromURL (delivering sampleFeedA sampleFeedB) 0%nat
        "https://calendar.example/lounge6.ics" = Fulfilled sampleFeedA
   /\ fromURL (delivering sampleFeedA sampleFeedB) 1%nat
        "https://calendar.example/lounge5.ics" = Fulfilled sampleFeedB
   /\ wellFormed sampleFeedA /\ wellFormed sampleFeedB)
  /\ exists eventsA eventsB,
       handler sampleEnv (delivering sampleFeedA sampleFeedB)
       = {| requested := ["https://calendar.example/lounge6.ics";
                          "https://calendar.example/lounge5.ics"];
            logged := [];
            response := {| status := 200;
                           json := ValueBody (eventsA ++ eventsB)%list |} |}
       /\ length (eventsA ++ eventsB)%list = 3%nat.
Proof.
  split.
  - repeat (split; [reflexivity|]). exact sample_wellFormed.
  - destruct (C3_aggregate_is_concatenation sampleEnv
                (delivering sampleFeedA sampleFeedB)
                "https://calendar.example/lounge6.ics"
                "https://calendar.example/lounge5.ics"
                sampleFeedA sampleFeedB eq_refl eq_refl eq_refl eq_refl
                (proj1 sample_wellFormed) (proj2 sample_wellFormed))
      as (eventsA & eventsB & Hrun & _ & _ & _ & _ & Hlen & _).
    exists eventsA, eventsB. split; [exact Hrun|exact Hlen].
Defined.

(** The answer to the sample feeds: feed order, feed A before feed B,
    the later entry first and the entry of both feeds twice. *)
Example aggregate_keeps_feed_order :
  match json (response (handler sampleEnv (delivering sampleFeedA sampleFeedB))) with
  | ValueBody value => map (fun ev => (subject ev, id_ ev, source ev)) value
  | ErrorBody _ _ => []
  end
  = [("Evening", "uid-3", calendar1); ("Meeting", "uid-1", calendar1);
     ("Meeting", "uid-1", calendar2)].
Proof. vm_compute. reflexivity. Qed.

Lemma Forall2_In_r {A B} (P : A -> B -> Prop) l l' b :
  Forall2 P l l' -> In b l' -> exists a, In a l /\ P a b.
Proof.
  induction 1 as [|a b' l l' Hab _ IH]; cbn; [contradiction|].
  intros [<- | Hin]; [eauto|].
  destruct (IH Hin) as (a' & Ha' & HP). eauto.
Qed.

Lemma isDate_parse_isoString rt d t :
  isDate d -> d = Some t -> newDateOfString rt (isoString t) = d.
Proof.
  intros Hd ->. cbn in Hd. unfold newDateOfString.
  apply Date_parse_isoString. exact Hd.
Qed.

(** C7: a timed entry whose two instants are valid dates is formatted
    into an event, and every event [formatEvent] returns has the unique id
    of the entry as id, its summary as subject, in [start] and [end] the
    ISO string of the entry's instants (read back by [new Date], in any
    runtime, as the same instants) with the label 'Asia/Tokyo', a
    [location] exactly when the entry has a non-empty location, which is
    then its [displayName], the description of the entry as it is, absent
    when the entry has none, and the given source tag.  No absent field
    becomes an empty string. *)
Theorem C7_normalization_mapping : forall tag raw,
  isDate (ICal.start raw) -> isDate (ICal.end_ raw) ->
  (forall s e, ICal.start raw = Some s -> ICal.end_ raw = Some e ->
     exists ev, formatEvent tag raw = Normal ev)
  /\ forall ev, formatEvent tag raw = Normal ev ->
       id_ ev = ICal.uid raw
       /\ subject ev = ICal.summary raw
       /\ timeZone (start ev) = "Asia/Tokyo"
       /\ timeZone (end_ ev) = "Asia/Tokyo"
       /\ (forall rt,
             newDateOfString rt (dateTime (start ev)) = ICal.start raw
             /\ newDateOfString rt (dateTime (end_ ev)) = ICal.end_ raw)
       /\ (forall l,
             location ev = Some l
             <-> ICal.location raw = Some (displayName l) /\ displayName l <> EmptyString)
       /\ (ICal.location raw = None -> location ev = None)
       /\ location ev <> Some {| displayName := EmptyString |}
       /\ description ev = ICal.description raw
       /\ (ICal.description raw = None -> description ev <> Some EmptyString)
       /\ source ev = tag.
Proof.
  intros tag raw Hs He. split.
  - intros s e Hstart Hend. eexists. apply formatEvent_Normal. eauto.
  - intros ev Hev. apply formatEvent_Normal in Hev as (s & e & Hstart & Hend & ->).
    cbn [id_ subject start end_ location description source dateTime timeZone].
    repeat (split; [reflexivity|]).
    split; [|split; [|split; [|split; [|split; [|split]]]]].
    + intros rt. split; apply isDate_parse_isoString; assumption.
    + intros [l]. cbn [displayName].
      destruct (ICal.location raw) as [v|]; [destruct (truthy v) eqn:E|].
      * split.
        -- intros [= <-]. split; [reflexivity|]. intros ->. discriminate E.
        -- intros [[= <-] _]. reflexivity.
      * split; [discriminate|].
        intros [[= <-] Hne]. destruct v; [contradiction|discriminate E].
      * split; [discriminate|]. intros [[=] _].
    + intros ->. reflexivity.
    + destruct (ICal.location raw) as [[|c v]|]; cbn; discriminate.
    + reflexivity.
    + intros ->. discriminate.
    + reflexivity.
Qed.

Lemma C7_witness :
  (isDate (ICal.start meetingEntry) /\ isDate (ICal.end_ meetingEntry))
  /\ exists ev, formatEvent calendar1 meetingEntry = Normal ev.
Proof.
  assert (isDate (ICal.start meetingEntry)) as Hs
    by (vm_compute; intros Hgt; discriminate Hgt).
  assert (isDate (ICal.end_ meetingEntry)) as He
    by (vm_compute; intros Hgt; discriminate Hgt).
  split; [split; assumption|].
  exact (proj1 (C7_normalization_mapping calendar1 meetingEntry Hs He)
           _ _ eq_refl eq_refl).
Defined.

Lemma Forall2_impl_In {A B} (P Q : A -> B -> Prop) l l' :
  Forall2 P l l' ->
  (forall a b, In a l -> P a b -> Q a b) ->
  Forall2 Q l l'.
Proof.
  induction 1 as [|a b l l' Hab _ IH]; intros H; constructor.
  - apply H; [left; reflexivity|exact Hab].
  - apply IH. intros a' b' Hin. apply H. right. exact Hin.
Qed.

(** What [formatEvents] returns carries the instants of the timed entries
    of the feed, entry by entry. *)
Lemma formatEvents_carries feed tag formatted :
  (forall raw, In raw (timedEntries feed) ->
     isDate (ICal.start raw) /\ isDate (ICal.end_ raw)) ->
  formatEvents feed tag = Normal formatted ->
  Forall2 (carries tag) (timedEntries feed) formatted.
Proof.
  intros Hdates Hfmt. apply mapThrowing_Normal in Hfmt.
  fold (timedEntries feed) in Hfmt.
  apply (Forall2_impl_In _ _ _ _ Hfmt). intros raw ev Hin Hnorm.
  destruct (Hdates raw Hin) as [Ds De].
  split; [exact Hnorm|].
  apply formatEvent_Normal in Hnorm as (s & e & Hs & He & ->).
  split; [reflexivity|].
  exists s, e. split; [exact Hs|]. split; [exact He|].
  intros rt. cbn [start end_ dateTime].
  rewrite <- Hs, <- He. split; apply isDate_parse_isoString; assumption.
Qed.

(** C8 (as amended): the aggregator does not compare the two instants of
    an entry.  A successful answer of the handler is made of the two
    feeds that its two requests delivered: entry by entry, in the order
    of the feeds, each event is the event formatted from a timed entry of
    feed A (tagged calendar1), then of feed B (tagged calendar2), and it
    carries, in [start] and [end], the two instants of that very entry as
    they are; so the start of an event precedes its end exactly when that
    is so for the entry it was formatted from. *)
Theorem C8_instants_passed_through : forall env net value,
  deliversDates net ->
  json (response (handler env net)) = ValueBody value ->
  exists url1 url2 feedA feedB eventsA eventsB,
    requested (handler env net) = [url1; url2]
    /\ fromURL net 0%nat url1 = Fulfilled feedA
    /\ fromURL net 1%nat url2 = Fulfilled feedB
    /\ value = (eventsA ++ eventsB)%list
    /\ Forall2 (carries calendar1) (timedEntries feedA) eventsA
    /\ Forall2 (carries calendar2) (timedEntries feedB) eventsB
    /\ (forall ev, In ev value ->
          exists tag raw s e,
            carries tag raw ev
            /\ (tag = calendar1 /\ In raw (timedEntries feedA)
                \/ tag = calendar2 /\ In raw (timedEntries feedB))
            /\ ICal.start raw = Some s /\ ICal.end_ raw = Some e
            /\ forall rt s' e',
                 newDateOfString rt (dateTime (start ev)) = Some s' ->
                 newDateOfString rt (dateTime (end_ ev)) = Some e' ->
                 s' = s /\ e' = e /\ (s' < e' <-> s < e)).
Proof.
  intros env net value Hdates Hvalue.
  apply handler_value in Hvalue
    as (url1 & url2 & feedA & feedB & eventsA & eventsB
        & H1 & H2 & HA & HB & FA & FB & ->).
  assert (Forall2 (carries calendar1) (timedEntries feedA) eventsA) as CA
    by (apply formatEvents_carries; [intros raw; apply (Hdates _ _ _ _ HA)|exact FA]).
  assert (Forall2 (carries calendar2) (timedEntries feedB) eventsB) as CB
    by (apply formatEvents_carries; [intros raw; apply (Hdates _ _ _ _ HB)|exact FB]).
  exists url1, url2, feedA, feedB, eventsA, eventsB.
  split.
  { rewrite (handler_configured env net url1 url2 H1 H2), HA, HB.
    cbn [Promise_all bind fst snd]. rewrite FA, FB. reflexivity. }
  do 3 (split; [assumption || reflexivity|]).
  split; [exact CA|]. split; [exact CB|].
  assert (forall tag feed formatted ev,
             Forall2 (carries tag) (timedEntries feed) formatted ->
             In ev formatted ->
             exists raw s e,
               carries tag raw ev /\ In raw (timedEntries feed)
               /\ ICal.start raw = Some s /\ ICal.end_ raw = Some e
               /\ forall rt s' e',
                    newDateOfString rt (dateTime (start ev)) = Some s' ->
                    newDateOfString rt (dateTime (end_ ev)) = Some e' ->
                    s' = s /\ e' = e /\ (s' < e' <-> s < e)) as Hone.
  { intros tag feed formatted ev Hall Hin.
    destruct (Forall2_In_r _ _ _ _ Hall Hin) as (raw & Hraw & Hcarries).
    pose proof Hcarries as (_ & _ & s & e & Hs & He & Hread).
    exists raw, s, e. split; [exact Hcarries|]. split; [exact Hraw|].
    split; [exact Hs|]. split; [exact He|].
    intros rt s' e' Hs' He'. destruct (Hread rt) as [Rs Re].
    rewrite Rs in Hs'. rewrite Re in He'.
    injection Hs' as <-. injection He' as <-. tauto. }
  intros ev Hin. apply in_app_or in Hin as [Hin | Hin].
  - destruct (Hone _ _ _ _ CA Hin) as (raw & s & e & Hc & Hraw & Hs & He & Hread).
    exists calendar1, raw, s, e. auto 10.
  - destruct (Hone _ _ _ _ CB Hin) as (raw & s & e & Hc & Hraw & Hs & He & Hread).
    exists calendar2, raw, s, e. auto 10.
Qed.

Lemma sample_deliversDates : deliversDates (delivering sampleFeedA sampleFeedB).
Proof.
  intros k url feed raw Hfeed Hin.
  destruct k as [|k]; cbn in Hfeed; injection Hfeed as <-; cbn in Hin;
    repeat (destruct Hin as [<- | Hin]); try contradiction;
    split; vm_compute; intros Hgt; discriminate Hgt.
Defined.

Lemma C8_witness :
  deliversDates (delivering sampleFeedA sampleFeedB)
  /\ json (response (handler sampleEnv (delivering sampleFeedA sampleFeedB)))
     = ValueBody [eventEvening; eventMeeting calendar1; eventMeeting calendar2]
  /\ exists eventsA eventsB,
       [eventEvening; eventMeeting calendar1; eventMeeting calendar2]
       = (eventsA ++ eventsB)%list
       /\ Forall2 (carries calendar1) (timedEntries sampleFeedA) eventsA
       /\ Forall2 (carries calendar2) (timedEntries sampleFeedB) eventsB.
Proof.
  assert (json (response (handler sampleEnv (delivering sampleFeedA sampleFeedB)))
          = ValueBody [eventEvening; eventMeeting calendar1; eventMeeting calendar2])
    as Hvalue by (vm_compute; reflexivity).
  split; [exact sample_deliversDates|]. split; [exact Hvalue|].
  destruct (C8_instants_passed_through sampleEnv (delivering sampleFeedA sampleFeedB)
              _ sample_deliversDates Hvalue)
    as (url1 & url2 & feedA & feedB & eventsA & eventsB
        & _ & HA & HB & Hsplit & CA & CB & _).
  cbn in HA, HB. injection HA as <-. injection HB as <-.
  exists eventsA, eventsB. auto.
Defined.

(** C8, counterexample: feed A holds one timed entry, from 10:20 to 08:50
    of the same day.  The handler answers 200 with one event, whose start
    instant is an hour and a half after its end instant. *)
Lemma C8_counterexample_end_before_start :
  exists ev s e,
    json (response (handler sampleEnv (delivering [("uid-2", backwardsEntry)] [])))
    = ValueBody [ev]
    /\ status (response (handler sampleEnv (delivering [("uid-2", backwardsEntry)] [])))
       = 200
    /\ newDateOfString (runtimeAt 9) (dateTime (start ev)) = Some s
    /\ newDateOfString (runtimeAt 9) (dateTime (end_ ev)) = Some e
    /\ e < s.
Proof.
  eexists. eexists. eexists.
  split; [vm_compute; reflexivity|].
  split; [vm_compute; reflexivity|].
  split; [vm_compute; reflexivity|].
  split; [vm_compute; reflexivity|].
  vm_compute. reflexivity.
Qed.

End HandlerClaims.

(** * From the feeds to the table *)

Section EndToEnd.
Import ES ESFacts DateFacts ComponentFacts ISOFacts.

(** A runtime whose offset is [tza] from [lo] to [hi] is the runtime
    that has the offset [tza] there and its own offsets elsewhere. *)
Lemma offsetDuring_runtime rt tza lo hi :
  offsetDuring rt tza lo hi ->
  rt = {| LocalTZA := fun t isUTC =>
            if (lo <=? t) && (t <=? hi) then tza else LocalTZA rt t isUTC;
          legacyParse := legacyParse rt |}.
Proof.
  destruct rt as [offset legacy]. unfold offsetDuring. cbn [LocalTZA legacyParse].
  intros Hoff. f_equal.
  apply functional_extensionality. intros t.
  apply functional_extensionality. intros isUTC.
  destruct (Z.leb_spec lo t); destruct (Z.leb_spec t hi); cbn [andb];
    try reflexivity.
  apply Hoff. lia.
Qed.

(** C2 (as amended): feed A has one timed entry, "Meeting", from 08:50 to
    10:20 on 5 March 2024 in Asia/Tokyo, feed B has none.  The handler
    answers 200 with one event, tagged calendar1.  In a runtime whose
    local zone is nine hours ahead of UTC throughout 2024 (as Asia/Tokyo
    is), the table of a reference date in March 2024 has 31 rows, for the
    dates 1 to 31, and that event is in the row of day 5 in the first
    column, the slot "1限" from 08:50 to 10:20; every other cell is
    empty. *)
Theorem C2_meeting_in_first_period_of_day_5 :
  forall rt env net url1 url2 feedA feedB raw reference,
  offsetDuring rt tokyoOffset startOf2024 startOf2025 ->
  configured (PUBLIC_CALENDAR_URL_1 env) = Some url1 ->
  configured (PUBLIC_CALENDAR_URL_2 env) = Some url2 ->
  fromURL net 0%nat url1 = Fulfilled feedA ->
  fromURL net 1%nat url2 = Fulfilled feedB ->
  timedEntries feedA = [raw] ->
  timedEntries feedB = [] ->
  ICal.summary raw = "Meeting" ->
  ICal.start raw = Some (instantOn tokyoOffset 2024 3 5 8 50) ->
  ICal.end_ raw = Some (instantOn tokyoOffset 2024 3 5 10 20) ->
  getFullYear rt reference = Some 2024 ->
  getMonth rt reference = Some 2 ->
  exists event,
    response (handler env net) = {| status := 200; json := ValueBody [event] |}
    /\ source event = calendar1
    /\ subject event = "Meeting"
    /\ dateTime (start event) = "2024-03-04T23:50:00.000Z"
    /\ dateTime (end_ event) = "2024-03-05T01:20:00.000Z"
    /\ TimetableCalendar.TIME_SLOTS !! 0%nat = Some firstPeriod
    /\ Part000.TIME_SLOTS !! 0%nat = Some firstPeriod
    /\ datesOf rt (tableBody rt TimetableCalendar.TIME_SLOTS
                     (fetchEvents (response (handler env net))
                                  (initialState reference)))
       = map Some (seqZ 1 31)
    /\ cellsOf (tableBody rt TimetableCalendar.TIME_SLOTS
                  (fetchEvents (response (handler env net))
                               (initialState reference)))
       = onlyCell 31 6 4 0 event
    /\ cellsOf (tableBody rt Part000.TIME_SLOTS
                  (fetchEvents (response (handler env net))
                               (initialState reference)))
       = onlyCell 31 7 4 0 event.
Proof.
  intros rt env net url1 url2 feedA feedB raw reference
         Htz H1 H2 HA HB HtA HtB Hsum Hs He Hy Hm.
  revert Hy Hm.
  rewrite (offsetDuring_runtime rt tokyoOffset startOf2024 startOf2025 Htz).
  generalize (legacyParse rt) (LocalTZA rt). clear Htz. clear rt.
  intros legacy elsewhere Hy Hm.
  assert (response (handler env net)
          = {| status := 200;
               json := ValueBody
                 [ {| id_ := ICal.uid raw;
                      subject := "Meeting";
                      start := {| dateTime := "2024-03-04T23:50:00.000Z";
                                  timeZone := "Asia/Tokyo" |};
                      end_ := {| dateTime := "2024-03-05T01:20:00.000Z";
                                 timeZone := "Asia/Tokyo" |};
                      location :=
                        match ICal.location raw with
                        | Some l => if truthy l then Some {| displayName := l |}
                                    else None
                        | None => None
                        end;
                      description := ICal.description raw;
                      source := calendar1 |} ] |}) as Hres.
  { rewrite (handler_configured env net url1 url2 H1 H2), HA, HB.
    cbn [Promise_all bind fst snd]. unfold formatEvents.
    fold (timedEntries feedA). fold (timedEntries feedB). rewrite HtA, HtB.
    cbn [mapThrowing bind]. unfold formatEvent. rewrite Hs, He, Hsum.
    cbn [toISOString bind response app].
    replace (isoString (instantOn tokyoOffset 2024 3 5 8 50))
      with "2024-03-04T23:50:00.000Z" by (vm_compute; reflexivity).
    replace (isoString (instantOn tokyoOffset 2024 3 5 10 20))
      with "2024-03-05T01:20:00.000Z" by (vm_compute; reflexivity).
    reflexivity. }
  eexists. split; [exact Hres|].
  do 6 (split; [reflexivity|]).
  rewrite Hres. unfold tableBody, datesOf, cellsOf.
  cbn [fetchEvents status json initialState events currentDate error
       Z.leb Z.compare Pos.compare Pos.compare_cont andb].
  rewrite getDaysInMonth_spec, Hy, Hm.
  split; [|split]; vm_compute; reflexivity.
Qed.

Lemma C2_witness :
  (offsetDuring (runtimeAt 9) tokyoOffset startOf2024 startOf2025
   /\ configured (PUBLIC_CALENDAR_URL_1 sampleEnv)
      = Some "https://calendar.example/lounge6.ics"
   /\ configured (PUBLIC_CALENDAR_URL_2 sampleEnv)
      = Some "https://calendar.example/lounge5.ics"
   /\ fromURL (delivering meetingFeed emptyFeed) 0%nat
        "https://calendar.example/lounge6.ics" = Fulfilled meetingFeed
   /\ fromURL (delivering meetingFeed emptyFeed) 1%nat
        "https://calendar.example/lounge5.ics" = Fulfilled emptyFeed
   /\ timedEntries meetingFeed = [meetingEntry]
   /\ timedEntries emptyFeed = []
   /\ ICal.summary meetingEntry = "Meeting"
   /\ ICal.start meetingEntry = Some (instantOn tokyoOffset 2024 3 5 8 50)
   /\ ICal.end_ meetingEntry = Some (instantOn tokyoOffset 2024 3 5 10 20)
   /\ getFullYear (runtimeAt 9) midMarch2024 = Some 2024
   /\ getMonth (runtimeAt 9) midMarch2024 = Some 2)
  /\ exists event,
       response (handler sampleEnv (delivering meetingFeed emptyFeed))
       = {| status := 200; json := ValueBody [event] |}
       /\ cellsOf (tableBody (runtimeAt 9) TimetableCalendar.TIME_SLOTS
                     (fetchEvents
                        (response (handler sampleEnv (delivering meetingFeed emptyFeed)))
                        (initialState midMarch2024)))
          = onlyCell 31 6 4 0 event.
Proof.
  split.
  - split; [exact (fun _ _ _ => eq_refl)|].
    repeat (split; [reflexivity|]). reflexivity.
  - destruct (C2_meeting_in_first_period_of_day_5 (runtimeAt 9) sampleEnv
                (delivering meetingFeed emptyFeed)
                "https://calendar.example/lounge6.ics"
                "https://calendar.example/lounge5.ics"
                meetingFeed emptyFeed meetingEntry midMarch2024
                (fun _ _ _ => eq_refl)
                eq_refl eq_refl eq_refl eq_refl eq_refl eq_refl eq_refl
                eq_refl eq_refl eq_refl eq_refl)
      as (event & Hres & _ & _ & _ & _ & _ & _ & _ & Hcells & _).
    exists event. split; [exact Hres|exact Hcells].
Defined.

(** C2, counterexample: the same feeds and the same reference month in a
    runtime on UTC.  The handler answers with the one event, tagged
    calendar1; the table has 31 rows and the event is in none of its
    cells: on the clock of that runtime it starts at 23:50 on 4 March. *)
Lemma C2_counterexample_runtime_on_utc :
  exists event,
    response (handler sampleEnv (delivering meetingFeed emptyFeed))
    = {| status := 200; json := ValueBody [event] |}
    /\ source event = calendar1
    /\ subject event = "Meeting"
    /\ getFullYear (runtimeAt 0) midMarch2024 = Some 2024
    /\ getMonth (runtimeAt 0) midMarch2024 = Some 2
    /\ datesOf (runtimeAt 0)
         (tableBody (runtimeAt 0) TimetableCalendar.TIME_SLOTS
            (fetchEvents (response (handler sampleEnv (delivering meetingFeed emptyFeed)))
                         (initialState midMarch2024)))
       = map Some (seqZ 1 31)
    /\ cellsOf (tableBody (runtimeAt 0) TimetableCalendar.TIME_SLOTS
                  (fetchEvents (response (handler sampleEnv (delivering meetingFeed emptyFeed)))
                               (initialState midMarch2024)))
       = replicate 31 (replicate 6 [])
    /\ cellsOf (tableBody (runtimeAt 0) TimetableCalendar.TIME_SLOTS
                  (fetchEvents (response (handler sampleEnv (delivering meetingFeed emptyFeed)))
                               (initialState midMarch2024)))
       <> onlyCell 31 6 4 0 event.
Proof.
  eexists. split; [vm_compute; reflexivity|].
  do 4 (split; [vm_compute; reflexivity|]).
  unfold tableBody, datesOf, cellsOf. rewrite getDaysInMonth_spec.
  split; [vm_compute; reflexivity|].
  split; [vm_compute; reflexivity|].
  vm_compute. discriminate.
Qed.

Lemma filter_map_commute {A B} (f : B -> bool) (g : A -> B) l :
  List.filter f (map g l) = map g (List.filter (fun a => f (g a)) l).
Proof.
  induction l as [|a l IH]; cbn; [reflexivity|].
  destruct (f (g a)); cbn; rewrite IH; reflexivity.
Qed.

Lemma filter_agree {A} (f g : A -> bool) l :
  (forall a, In a l -> f a = g a) -> List.filter f l = List.filter g l.
Proof.
  induction l as [|a l IH]; intros H; cbn; [reflexivity|].
  rewrite (H a (or_introl eq_refl)), IH; [reflexivity|].
  intros b Hb. apply H. right. exact Hb.
Qed.

Lemma digits_append k n rest tail :
  digits k n rest ++ tail = digits k n (rest ++ tail).
Proof.
  induction k as [|k IH]; cbn [digits String.append]; [reflexivity|].
  rewrite IH. reflexivity.
Qed.

(** The string [toISOString] writes ends in the UTC designator. *)
Lemma isoString_designator t : exists body, isoString t = body ++ "Z".
Proof.
  exists (yearString (YearFromTime t)
    (String "-" (digits 2 (MonthFromTime t + 1)
    (String "-" (digits 2 (DateFromTime t)
    (String "T" (digits 2 (HourFromTime t)
    (String ":" (digits 2 (MinFromTime t)
    (String ":" (digits 2 (SecFromTime t)
    (String "." (digits 3 (msFromTime t) EmptyString))))))))))))).
  unfold isoString, yearString.
  destruct ((0 <=? YearFromTime t) && (YearFromTime t <=? 9999));
    [|destruct (YearFromTime t <? 0)];
    repeat (first [rewrite digits_append | progress cbn [String.append]]);
    reflexivity.
Qed.

(** An event whose start, on the runtime's clock, is not the start of
    the slot fails the test of the filter, whatever the day. *)
Lemma startsAt_false_by_time rt date timeSlot event t :
  newDateOfString rt (dateTime (start event)) = Some t ->
  slotStart timeSlot
  <> (wcHour (runtimeClock rt t), wcMinute (runtimeClock rt t)) ->
  startsAt rt date timeSlot event = false.
Proof.
  intros Ht Hne. destruct (startsAt rt date timeSlot event) eqn:E; [|reflexivity].
  apply startsAt_iff in E as (t' & w & Ht' & _ & _ & _ & _ & Hh & Hmi).
  rewrite Ht in Ht'. injection Ht' as <-.
  exfalso. apply Hne. unfold slotStart. congruence.
Qed.

(** The offset in force at an instant is all that the test of the
    filter takes from the runtime, for events whose [dateTime] is in the
    [toISOString] form. *)
Lemma binning_by_offset rt rt' events date timeSlot :
  (forall t, LocalTZA rt t true = LocalTZA rt' t true) ->
  (forall event, In event events ->
     exists t, parseISO (dateTime (start event)) = Some t) ->
  getEventsForTimeSlot rt events date timeSlot
  = getEventsForTimeSlot rt' events date timeSlot.
Proof.
  intros Htz Hiso. unfold getEventsForTimeSlot.
  apply filter_agree. intros event Hin. destruct (Hiso event Hin) as [t Ht].
  unfold startsAt, newDateOfString, Date_parse. rewrite Ht.
  unfold getDate, getMonth, getFullYear, getHours, getMinutes, LocalTime.
  destruct (TimeClip t) as [tv|], date as [w|]; cbn [option_map];
    rewrite ?Htz; reflexivity.
Qed.

(** C9: the zone label of an event plays no part in the binning:
    relabelling the events relabels the cells and changes nothing else.
    For every timed entry with two valid instants the aggregator makes an
    event whose [start.dateTime] is the [toISOString] form of the start
    instant, which ends in the UTC designator, with the label Asia/Tokyo;
    and the test of the filter holds exactly when the instant, on the
    clock of the JavaScript runtime, falls on the day and at the slot's
    start.  So the event the handler makes of the entry that starts at
    08:50 on 5 March 2024 in Asia/Tokyo is in the cell of that day and the
    first period in a runtime nine hours ahead of UTC and in no cell at
    all, of any day and any configured slot, in a runtime on UTC; and the
    event the handler makes of an entry that starts at 22:50 in
    Asia/Tokyo, the start of no slot, is in the cell of the first period
    in a runtime five hours behind UTC.  Two runtimes whose zones have the
    same offset at every instant bin alike the events whose [dateTime] is
    in the [toISOString] form. *)
Theorem C9_binning_follows_runtime_zone :
  (forall rt events date timeSlot label,
      getEventsForTimeSlot rt (map (relabel label) events) date timeSlot
      = map (relabel label) (getEventsForTimeSlot rt events date timeSlot))
  /\ (forall tag raw s e,
        ICal.start raw = Some s -> ICal.end_ raw = Some e ->
        exists ev body,
          formatEvent tag raw = Normal ev
          /\ toISOString (ICal.start raw) = Normal (dateTime (start ev))
          /\ dateTime (start ev) = isoString s
          /\ dateTime (start ev) = body ++ "Z"
          /\ timeZone (start ev) = "Asia/Tokyo")
  /\ (forall tag raw ev,
        formatEvent tag raw = Normal ev ->
        exists s body,
          ICal.start raw = Some s
          /\ toISOString (ICal.start raw) = Normal (dateTime (start ev))
          /\ dateTime (start ev) = body ++ "Z")
  /\ (forall rt events date timeSlot event,
        In event (getEventsForTimeSlot rt events date timeSlot)
        <-> In event events
            /\ startsOnClock (runtimeClock rt) rt date timeSlot event)
  /\ (exists ev,
        response (handler sampleEnv (delivering meetingFeed emptyFeed))
        = {| status := 200; json := ValueBody [ev] |}
        /\ formatEvent calendar1 meetingEntry = Normal ev
        /\ dateTime (start ev) = "2024-03-04T23:50:00.000Z"
        /\ labelOffset (timeZone (start ev)) = Some tokyoOffset
        /\ startsOnClock (wallClock tokyoOffset) (runtimeAt 0) (march5 (runtimeAt 0))
             firstPeriod ev
        /\ getEventsForTimeSlot (runtimeAt 9) [ev] (march5 (runtimeAt 9)) firstPeriod
           = [ev]
        /\ (forall slots date timeSlot,
              configuredSlots slots -> In timeSlot slots ->
              getEventsForTimeSlot (runtimeAt 0) [ev] date timeSlot = []))
  /\ (exists ev,
        response (handler sampleEnv (delivering lateFeed emptyFeed))
        = {| status := 200; json := ValueBody [ev] |}
        /\ formatEvent calendar1 lateEntry = Normal ev
        /\ dateTime (start ev) = "2024-03-05T13:50:00.000Z"
        /\ labelOffset (timeZone (start ev)) = Some tokyoOffset
        /\ (forall rt slots date timeSlot,
              configuredSlots slots -> In timeSlot slots ->
              ~ startsOnClock (wallClock tokyoOffset) rt date timeSlot ev)
        /\ getEventsForTimeSlot (runtimeAt (-5)) [ev] (march5 (runtimeAt (-5)))
             firstPeriod
           = [ev])
  /\ (forall rt rt' events date timeSlot,
        (forall t, LocalTZA rt t true = LocalTZA rt' t true) ->
        (forall event, In event events ->
           exists t, parseISO (dateTime (start event)) = Some t) ->
        getEventsForTimeSlot rt events date timeSlot
        = getEventsForTimeSlot rt' events date timeSlot).
Proof.
  split; [|split; [|split; [|split; [|split; [|split]]]]].
  - intros rt events date timeSlot label. unfold getEventsForTimeSlot.
    rewrite filter_map_commute. reflexivity.
  - intros tag raw s e Hs He.
    destruct (isoString_designator s) as [body Hbody].
    eexists. exists body. unfold formatEvent. rewrite Hs, He.
    cbn [toISOString bind start dateTime timeZone].
    split; [reflexivity|]. split; [reflexivity|]. split; [reflexivity|].
    split; [exact Hbody|reflexivity].
  - intros tag raw ev Hev.
    apply formatEvent_Normal in Hev as (s & e & Hs & _ & ->).
    destruct (isoString_designator s) as [body Hbody].
    exists s, body. split; [exact Hs|]. rewrite Hs. split; [reflexivity|].
    exact Hbody.
  - intros rt events date timeSlot event. apply cell_member.
  - eexists. split; [vm_compute; reflexivity|].
    split; [vm_compute; reflexivity|].
    split; [reflexivity|]. split; [reflexivity|]. split; [|split].
    + exists 1709596200000, 1709596800000. vm_compute. repeat split; reflexivity.
    + vm_compute. reflexivity.
    + intros slots date timeSlot Hs Hin. unfold getEventsForTimeSlot. cbn [List.filter].
      rewrite (startsAt_false_by_time _ _ _ _ 1709596200000); [reflexivity|reflexivity|].
      destruct Hs as [-> | ->]; cbn in Hin;
        repeat (destruct Hin as [<- | Hin]); try contradiction;
        vm_compute; discriminate.
  - eexists. split; [vm_compute; reflexivity|].
    split; [vm_compute; reflexivity|].
    split; [reflexivity|]. split; [reflexivity|]. split.
    + intros rt slots date timeSlot Hs Hin (t & w & Ht & _ & _ & _ & _ & Hh & Hmi).
      unfold newDateOfString, Date_parse in Ht. cbn [start dateTime] in Ht.
      replace (parseISO "2024-03-05T13:50:00.000Z")
        with (Some 1709646600000) in Ht by (vm_compute; reflexivity).
      vm_compute in Ht. injection Ht as <-.
      vm_compute in Hh. vm_compute in Hmi.
      destruct Hs as [-> | ->]; cbn in Hin;
        repeat (destruct Hin as [<- | Hin]); try contradiction;
        cbn in Hh; discriminate.
    + vm_compute. reflexivity.
  - intros rt rt' events date timeSlot. apply binning_by_offset.
Qed.

End EndToEnd.

(** * Month navigation *)

Module NavFacts.
Import ES ESFacts DateFacts.

Lemma MakeDay_carry y mo dt :
  MakeDay y mo dt = MakeDay (y + mo / 12) (mo mod 12) dt.
Proof.
  unfold MakeDay. rewrite Z.mod_mod by lia.
  rewrite (Z.div_small (mo mod 12) 12) by (apply Z.mod_pos_bound; lia).
  rewrite Z.add_0_r. reflexivity.
Qed.

(** A date past the end of a month is a date of the month after. *)
Lemma MakeDay_overflow y mn dt :
  0 <= mn <= 10 ->
  MakeDay y mn dt = MakeDay y (mn + 1) (dt - DaysInMonth y mn).
Proof.
  intros H. rewrite !MakeDay_within, DaysBeforeMonth_succ by lia. lia.
Qed.

Lemma successorMonth_carry y m :
  0 <= m <= 11 ->
  successorMonth y m = (y + (m + 1) / 12, (m + 1) mod 12).
Proof.
  intros H. unfold successorMonth. destruct (Z.eqb_spec m 11) as [-> | Hne].
  - reflexivity.
  - rewrite Z.div_small, Z.mod_small, Z.add_0_r by lia. reflexivity.
Qed.

Lemma predecessorMonth_carry y m :
  0 <= m <= 11 ->
  predecessorMonth y m = (y + (m - 1) / 12, (m - 1) mod 12).
Proof.
  intros H. unfold predecessorMonth. destruct (Z.eqb_spec m 0) as [-> | Hne].
  - reflexivity.
  - rewrite Z.div_small, Z.mod_small, Z.add_0_r by lia. reflexivity.
Qed.

(** Instants of the years -271820 to 275759, and of the first days of
    the year after, are valid time values in a runtime whose zone has a
    constant offset of at most a day. *)
Lemma instant_in_range rt {tza} (Hc : constantOffset rt tza) yr day tod :
  Z.abs tza <= msPerDay ->
  -271820 <= yr <= 275759 ->
  DayFromYear yr <= day <= DayFromYear (yr + 1) + 31 ->
  0 <= tod < msPerDay ->
  TimeClip (UTC rt (MakeDate day tod)) = Some (UTC rt (MakeDate day tod)).
Proof.
  intros Htz Hr Hday Htod. apply TimeClip_in_range.
  pose proof (DayFromYear_mono (-271820) yr ltac:(lia)) as H1.
  pose proof (DayFromYear_mono (yr + 1) 275760 ltac:(lia)) as H2.
  change (DayFromYear (-271820)) with (-99999744) in H1.
  change (DayFromYear 275760) with 99999744 in H2.
  rewrite (UTC_constant rt Hc). unfold MakeDate, msPerDay, maxTime in *. lia.
Qed.

Lemma TimeWithinDay_range t : 0 <= TimeWithinDay t < msPerDay.
Proof. unfold TimeWithinDay, msPerDay. floor_lia. Qed.

(** What [setMonth] returns, in a zone of constant offset, for a target
    month [mo] (any integer): the instant whose local reading is the old
    day number and time of day in month [mo mod 12] of year [y + mo / 12]. *)
Lemma setMonth_local rt {tza} (Hc : constantOffset rt tza) t mo :
  let y := YearFromTime (LocalTime rt t) in
  let d := DateFromTime (LocalTime rt t) in
  Z.abs tza <= msPerDay ->
  -271820 <= y + mo / 12 <= 275759 ->
  newDateOfNumber (setMonth rt (Some t) (Some mo))
  = Some (UTC rt (MakeDate (MakeDay (y + mo / 12) (mo mod 12) d)
                           (TimeWithinDay (LocalTime rt t)))).
Proof.
  intros y d Htz Hr. cbn [setMonth]. fold y d. cbv zeta.
  rewrite (MakeDay_carry y mo d).
  set (yt := y + mo / 12) in *. set (mt := mo mod 12).
  assert (0 <= mt <= 11) as Hmt by (unfold mt; pose proof (Z.mod_pos_bound mo 12); lia).
  assert (1 <= d <= 31) as Hd.
  { pose proof (MakeDay_of_fields (LocalTime rt t)) as (_ & Hd & _).
    pose proof (DaysInMonth_bounds (YearFromTime (LocalTime rt t))
                  (MonthFromTime (LocalTime rt t))).
    unfold d. lia. }
  pose proof (DaysBeforeMonth_range yt mt Hmt) as [Hlo Hhi].
  pose proof (DaysInMonth_bounds yt mt) as Hb.
  assert (TimeClip (UTC rt (MakeDate (MakeDay yt mt d) (TimeWithinDay (LocalTime rt t))))
          = Some (UTC rt (MakeDate (MakeDay yt mt d) (TimeWithinDay (LocalTime rt t)))))
    as Hclip.
  { apply (instant_in_range rt Hc yt); auto using TimeWithinDay_range.
    rewrite MakeDay_within, DayFromYear_succ by exact Hmt. lia. }
  rewrite Hclip. cbn [newDateOfNumber]. rewrite Hclip. reflexivity.
Qed.

Lemma HourFromTime_MakeDate day tod :
  0 <= tod < msPerDay ->
  HourFromTime (MakeDate day tod) = HourFromTime tod
  /\ MinFromTime (MakeDate day tod) = MinFromTime tod.
Proof.
  unfold HourFromTime, MinFromTime, MakeDate, msPerDay, msPerHour, msPerMinute.
  intros H. split; floor_lia.
Qed.

(** The reading of the date [setMonth] makes, when the old day number
    fits the target month, and when it does not. *)
Lemma shifted_reading rt {tza} (Hc : constantOffset rt tza) yt mt d tod :
  0 <= mt <= 11 -> 1 <= d <= 31 -> 0 <= tod < msPerDay ->
  let u := UTC rt (MakeDate (MakeDay yt mt d) tod) in
  timeOfDay rt (Some u) = Some tod
  /\ (d <= DaysInMonth yt mt -> showsDate rt yt mt d (Some u))
  /\ (DaysInMonth yt mt < d ->
      mt <= 10 /\ showsDate rt yt (mt + 1) (d - DaysInMonth yt mt) (Some u)).
Proof.
  intros Hmt Hd Htod u.
  assert (LocalTime rt u = MakeDate (MakeDay yt mt d) tod) as HL
    by apply (LocalTime_UTC rt Hc).
  unfold showsDate, timeOfDay, getFullYear, getMonth, getDate, option_map.
  rewrite HL. split; [|split].
  - rewrite TimeWithinDay_MakeDate by exact Htod. reflexivity.
  - intros Hfit.
    destruct (fields_of_MakeDate yt mt d tod Hmt ltac:(lia) Htod) as (-> & -> & ->).
    auto.
  - intros Hover.
    assert (mt <= 10) as Hmt'.
    { destruct (Z.eq_dec mt 11) as [-> | ?]; [|lia].
      unfold DaysInMonth in Hover. cbn in Hover. lia. }
    split; [exact Hmt'|].
    rewrite MakeDay_overflow by lia.
    pose proof (DaysInMonth_bounds yt mt). pose proof (DaysInMonth_bounds yt (mt + 1)).
    destruct (fields_of_MakeDate yt (mt + 1) (d - DaysInMonth yt mt) tod
                ltac:(lia) ltac:(lia) Htod) as (-> & -> & ->).
    auto.
Qed.

(** The value of [nextMonth] and of [previousMonth], before any reading. *)
Lemma nextMonth_value rt {tza} (Hc : constantOffset rt tza) t y m :
  getFullYear rt (Some t) = Some y -> getMonth rt (Some t) = Some m ->
  Z.abs tza <= msPerDay ->
  -271820 <= fst (successorMonth y m) <= 275759 ->
  0 <= m <= 11
  /\ nextMonth rt (Some t)
     = Some (UTC rt (MakeDate (MakeDay (fst (successorMonth y m))
                                       (snd (successorMonth y m))
                                       (DateFromTime (LocalTime rt t)))
                              (TimeWithinDay (LocalTime rt t)))).
Proof.
  intros [= Hy] [= Hm] Htz Hr.
  assert (0 <= m <= 11) as Hmr
    by (subst m; apply (MakeDay_of_fields (LocalTime rt t))).
  split; [exact Hmr|].
  rewrite (successorMonth_carry y m Hmr) in *. cbn [fst snd] in *.
  unfold nextMonth. cbn [getMonth option_map]. rewrite Hm. cbn [plus].
  pose proof (setMonth_local rt Hc t (m + 1)) as H. cbv zeta in H.
  rewrite Hy in H. exact (H Htz Hr).
Qed.

Lemma previousMonth_value rt {tza} (Hc : constantOffset rt tza) t y m :
  getFullYear rt (Some t) = Some y -> getMonth rt (Some t) = Some m ->
  Z.abs tza <= msPerDay ->
  -271820 <= fst (predecessorMonth y m) <= 275759 ->
  0 <= m <= 11
  /\ previousMonth rt (Some t)
     = Some (UTC rt (MakeDate (MakeDay (fst (predecessorMonth y m))
                                       (snd (predecessorMonth y m))
                                       (DateFromTime (LocalTime rt t)))
                              (TimeWithinDay (LocalTime rt t)))).
Proof.
  intros [= Hy] [= Hm] Htz Hr.
  assert (0 <= m <= 11) as Hmr
    by (subst m; apply (MakeDay_of_fields (LocalTime rt t))).
  split; [exact Hmr|].
  rewrite (predecessorMonth_carry y m Hmr) in *. cbn [fst snd] in *.
  unfold previousMonth. cbn [getMonth option_map]. rewrite Hm. cbn [minus].
  pose proof (setMonth_local rt Hc t (m - 1)) as H. cbv zeta in H.
  rewrite Hy in H. exact (H Htz Hr).
Qed.

Lemma successorMonth_range y m :
  0 <= m <= 11 ->
  0 <= snd (successorMonth y m) <= 11
  /\ y <= fst (successorMonth y m) <= y + 1
  /\ predecessorMonth (fst (successorMonth y m)) (snd (successorMonth y m)) = (y, m).
Proof.
  intros H. unfold successorMonth, predecessorMonth.
  destruct (Z.eqb_spec m 11) as [-> | ?]; cbn [fst snd].
  - repeat split; try lia. cbn. f_equal. lia.
  - destruct (Z.eqb_spec (m + 1) 0); [lia|]. repeat split; try lia. f_equal. lia.
Qed.

Lemma predecessorMonth_range y m :
  0 <= m <= 11 ->
  0 <= snd (predecessorMonth y m) <= 11
  /\ y - 1 <= fst (predecessorMonth y m) <= y
  /\ successorMonth (fst (predecessorMonth y m)) (snd (predecessorMonth y m)) = (y, m).
Proof.
  intros H. unfold successorMonth, predecessorMonth.
  destruct (Z.eqb_spec m 0) as [-> | ?]; cbn [fst snd].
  - repeat split; try lia. cbn. f_equal. lia.
  - destruct (Z.eqb_spec (m - 1) 11); [lia|]. repeat split; try lia. f_equal. lia.
Qed.

(** In a zone of constant offset, the civil fields and the time of day
    of an instant make it again. *)
Lemma back_home rt {tza} (Hc : constantOffset rt tza) t y m :
  getFullYear rt (Some t) = Some y -> getMonth rt (Some t) = Some m ->
  Some (UTC rt (MakeDate (MakeDay y m (DateFromTime (LocalTime rt t)))
                         (TimeWithinDay (LocalTime rt t)))) = Some t.
Proof.
  intros Hy Hm. injection Hy as <-. injection Hm as <-.
  destruct (MakeDay_of_fields (LocalTime rt t)) as (_ & _ & ->).
  rewrite MakeDate_Day, (UTC_constant rt Hc), (LocalTime_constant rt Hc).
  f_equal. lia.
Qed.

Lemma date_range rt t : 1 <= DateFromTime (LocalTime rt t) <= 31.
Proof.
  pose proof (MakeDay_of_fields (LocalTime rt t)) as (_ & Hd & _).
  pose proof (DaysInMonth_bounds (YearFromTime (LocalTime rt t))
                (MonthFromTime (LocalTime rt t))).
  lia.
Qed.

End NavFacts.

Section Navigation.
Import ES ESFacts DateFacts NavFacts.

(** X1: in a runtime whose zone has a constant offset from UTC, of at
    most a day, a click on 翌月 or 前月 from a date whose day of the month
    exists in the target month (always so up to the 28th) gives the same
    day of the month and the same time of day in the month after,
    respectively before, December and January carrying into the year; the
    heading then shows that year and month. *)
Theorem X1_month_buttons_keep_the_day : forall rt tza t y m d,
  constantOffset rt tza ->
  showsDate rt y m d (Some t) ->
  Z.abs tza <= msPerDay ->
  -271819 <= y <= 275758 ->
  (d <= DaysInMonth (fst (successorMonth y m)) (snd (successorMonth y m)) ->
   exists u,
     nextMonth rt (Some t) = Some u
     /\ showsDate rt (fst (successorMonth y m)) (snd (successorMonth y m)) d (Some u)
     /\ timeOfDay rt (Some u) = timeOfDay rt (Some t)
     /\ heading rt (Some u)
        = (Some (fst (successorMonth y m)), Some (snd (successorMonth y m) + 1)))
  /\ (d <= DaysInMonth (fst (predecessorMonth y m)) (snd (predecessorMonth y m)) ->
      exists u,
        previousMonth rt (Some t) = Some u
        /\ showsDate rt (fst (predecessorMonth y m)) (snd (predecessorMonth y m)) d
             (Some u)
        /\ timeOfDay rt (Some u) = timeOfDay rt (Some t)
        /\ heading rt (Some u)
           = (Some (fst (predecessorMonth y m)),
              Some (snd (predecessorMonth y m) + 1))).
Proof.
  intros rt tza t y m d Hc (Hy & Hm & Hd) Htz Hr.
  assert (0 <= m <= 11) as Hmr by (eapply getMonth_range; exact Hm).
  destruct (successorMonth_range y m Hmr) as (Hs1 & Hs2 & _).
  destruct (predecessorMonth_range y m Hmr) as (Hp1 & Hp2 & _).
  injection Hd as Hd. pose proof (date_range rt t) as Hdr. rewrite Hd in Hdr.
  split; intros Hfit.
  - destruct (nextMonth_value rt Hc t y m Hy Hm Htz ltac:(lia)) as [_ Hv].
    rewrite Hd in Hv. eexists. split; [exact Hv|].
    destruct (shifted_reading rt Hc (fst (successorMonth y m)) (snd (successorMonth y m))
                d (TimeWithinDay (LocalTime rt t)) Hs1 Hdr (TimeWithinDay_range _))
      as (Htod & Hshow & _).
    specialize (Hshow Hfit). split; [exact Hshow|]. split; [exact Htod|].
    destruct Hshow as (Hy' & Hm' & _). unfold heading. rewrite Hy', Hm'. reflexivity.
  - destruct (previousMonth_value rt Hc t y m Hy Hm Htz ltac:(lia)) as [_ Hv].
    rewrite Hd in Hv. eexists. split; [exact Hv|].
    destruct (shifted_reading rt Hc (fst (predecessorMonth y m))
                (snd (predecessorMonth y m))
                d (TimeWithinDay (LocalTime rt t)) Hp1 Hdr (TimeWithinDay_range _))
      as (Htod & Hshow & _).
    specialize (Hshow Hfit). split; [exact Hshow|]. split; [exact Htod|].
    destruct Hshow as (Hy' & Hm' & _). unfold heading. rewrite Hy', Hm'. reflexivity.
Qed.

Lemma X1_witness :
  (constantOffset (runtimeAt 9) (9 * msPerHour)
   /\ showsDate (runtimeAt 9) 2024 11 15 (Some (instantOn utcOffset 2024 12 15 10 0))
   /\ Z.abs (9 * msPerHour) <= msPerDay
   /\ -271819 <= 2024 <= 275758)
  /\ (exists u, nextMonth (runtimeAt 9) (Some (instantOn utcOffset 2024 12 15 10 0))
                = Some u
                /\ showsDate (runtimeAt 9) 2025 0 15 (Some u))
  /\ (exists u, previousMonth (runtimeAt 9) (Some (instantOn utcOffset 2024 12 15 10 0))
                = Some u
                /\ showsDate (runtimeAt 9) 2024 10 15 (Some u)).
Proof.
  assert (showsDate (runtimeAt 9) 2024 11 15 (Some (instantOn utcOffset 2024 12 15 10 0)))
    as Hshow by (repeat split; reflexivity).
  assert (Z.abs (9 * msPerHour) <= msPerDay) as Htz
    by (vm_compute; intros Hgt; discriminate Hgt).
  assert (-271819 <= 2024 <= 275758) as Hr
    by (split; vm_compute; intros Hgt; discriminate Hgt).
  split; [split; [exact (runtimeAt_constant 9)|auto]|].
  destruct (X1_month_buttons_keep_the_day (runtimeAt 9) (9 * msPerHour)
              (instantOn utcOffset 2024 12 15 10 0) 2024 11 15
              (runtimeAt_constant 9) Hshow Htz Hr)
    as [Hnext Hprev].
  split.
  - destruct Hnext as (u & Hu & Hs & _);
      [vm_compute; intros Hgt; discriminate Hgt|].
    exists u. split; [exact Hu|exact Hs].
  - destruct Hprev as (u & Hu & Hs & _);
      [vm_compute; intros Hgt; discriminate Hgt|].
    exists u. split; [exact Hu|exact Hs].
Defined.

(** X2: in a runtime whose zone has a constant offset from UTC, of at
    most a day, a click on 翌月 from a day of the month that the next month
    does not have (the 29th to the 31st) does not show the next month but
    the one after it, on the day left over; a click on 前月 from a day that
    the month before does not have stays in the month shown, whose heading
    does not change. *)
Theorem X2_month_buttons_overflow : forall rt tza t y m d,
  constantOffset rt tza ->
  showsDate rt y m d (Some t) ->
  Z.abs tza <= msPerDay ->
  -271819 <= y <= 275758 ->
  (DaysInMonth (fst (successorMonth y m)) (snd (successorMonth y m)) < d ->
   exists u,
     nextMonth rt (Some t) = Some u
     /\ showsDate rt y (m + 2) (d - DaysInMonth y (m + 1)) (Some u)
     /\ heading rt (Some u) = (Some y, Some (m + 3)))
  /\ (DaysInMonth (fst (predecessorMonth y m)) (snd (predecessorMonth y m)) < d ->
      exists u,
        previousMonth rt (Some t) = Some u
        /\ showsDate rt y m (d - DaysInMonth y (m - 1)) (Some u)
        /\ heading rt (Some u) = heading rt (Some t)).
Proof.
  intros rt tza t y m d Hc (Hy & Hm & Hd) Htz Hr.
  assert (0 <= m <= 11) as Hmr by (eapply getMonth_range; exact Hm).
  destruct (successorMonth_range y m Hmr) as (Hs1 & Hs2 & _).
  destruct (predecessorMonth_range y m Hmr) as (Hp1 & Hp2 & _).
  injection Hd as Hd. pose proof (date_range rt t) as Hdr. rewrite Hd in Hdr.
  split; intros Hover.
  - destruct (nextMonth_value rt Hc t y m Hy Hm Htz ltac:(lia)) as [_ Hv].
    rewrite Hd in Hv. eexists. split; [exact Hv|].
    destruct (shifted_reading rt Hc (fst (successorMonth y m)) (snd (successorMonth y m))
                d (TimeWithinDay (LocalTime rt t)) Hs1 Hdr (TimeWithinDay_range _))
      as (_ & _ & Hshow).
    destruct (Hshow Hover) as (Hle & Hshown). clear Hshow.
    assert (successorMonth y m = (y, m + 1)) as Hsucc.
    { unfold successorMonth in *. destruct (Z.eqb_spec m 11); [|reflexivity].
      cbn [fst snd] in Hover. cbn in Hover. lia. }
    rewrite Hsucc in Hshown |- *. cbn [fst snd] in Hshown |- *.
    replace (m + 2) with (m + 1 + 1) by lia. split; [exact Hshown|].
    destruct Hshown as (Hy' & Hm' & _). unfold heading. rewrite Hy', Hm'.
    cbn [plus]. do 2 f_equal. lia.
  - destruct (previousMonth_value rt Hc t y m Hy Hm Htz ltac:(lia)) as [_ Hv].
    rewrite Hd in Hv. eexists. split; [exact Hv|].
    destruct (shifted_reading rt Hc (fst (predecessorMonth y m))
                (snd (predecessorMonth y m))
                d (TimeWithinDay (LocalTime rt t)) Hp1 Hdr (TimeWithinDay_range _))
      as (_ & _ & Hshow).
    destruct (Hshow Hover) as (Hle & Hshown). clear Hshow.
    assert (predecessorMonth y m = (y, m - 1)) as Hpred.
    { unfold predecessorMonth in *. destruct (Z.eqb_spec m 0); [|reflexivity].
      cbn [fst snd] in Hover. cbn in Hover. lia. }
    rewrite Hpred in Hshown |- *. cbn [fst snd] in Hshown |- *.
    replace (m - 1 + 1) with m in Hshown by lia. split; [exact Hshown|].
    destruct Hshown as (Hy' & Hm' & _). unfold heading. rewrite Hy', Hm', Hy, Hm.
    reflexivity.
Qed.

Lemma X2_witness :
  (constantOffset (runtimeAt 9) (9 * msPerHour)
   /\ showsDate (runtimeAt 9) 2024 0 31 (Some endOfJanuary2024)
   /\ Z.abs (9 * msPerHour) <= msPerDay
   /\ -271819 <= 2024 <= 275758)
  /\ exists u, nextMonth (runtimeAt 9) (Some endOfJanuary2024) = Some u
               /\ showsDate (runtimeAt 9) 2024 2 2 (Some u)
               /\ heading (runtimeAt 9) (Some u) = (Some 2024, Some 3).
Proof.
  assert (showsDate (runtimeAt 9) 2024 0 31 (Some endOfJanuary2024))
    as Hshow by (repeat split; reflexivity).
  assert (Z.abs (9 * msPerHour) <= msPerDay) as Htz
    by (vm_compute; intros Hgt; discriminate Hgt).
  assert (-271819 <= 2024 <= 275758) as Hr
    by (split; vm_compute; intros Hgt; discriminate Hgt).
  split; [split; [exact (runtimeAt_constant 9)|auto]|].
  destruct (X2_month_buttons_overflow (runtimeAt 9) (9 * msPerHour) endOfJanuary2024
              2024 0 31 (runtimeAt_constant 9) Hshow Htz Hr) as [Hnext _].
  destruct Hnext as (u & Hu & Hs & Hh); [vm_compute; reflexivity|].
  exists u. split; [exact Hu|]. split; [exact Hs|exact Hh].
Defined.

(** X3: in a runtime whose zone has a constant offset from UTC, of at
    most a day, 翌月 and then 前月, or 前月 and then 翌月, bring back the
    very instant the component started from, provided the day of the month
    exists in the month in between. *)
Theorem X3_month_buttons_undo_each_other : forall rt tza t y m d,
  constantOffset rt tza ->
  showsDate rt y m d (Some t) ->
  Z.abs tza <= msPerDay ->
  -271819 <= y <= 275758 ->
  (d <= DaysInMonth (fst (successorMonth y m)) (snd (successorMonth y m)) ->
   previousMonth rt (nextMonth rt (Some t)) = Some t)
  /\ (d <= DaysInMonth (fst (predecessorMonth y m)) (snd (predecessorMonth y m)) ->
      nextMonth rt (previousMonth rt (Some t)) = Some t).
Proof.
  intros rt tza t y m d Hc (Hy & Hm & Hd) Htz Hr.
  assert (0 <= m <= 11) as Hmr by (eapply getMonth_range; exact Hm).
  destruct (successorMonth_range y m Hmr) as (Hs1 & Hs2 & Hs3).
  destruct (predecessorMonth_range y m Hmr) as (Hp1 & Hp2 & Hp3).
  pose proof (date_range rt t) as Hdr.
  pose proof (back_home rt Hc t y m Hy Hm) as Hback.
  injection Hd as Hd.
  split; intros Hfit.
  - destruct (nextMonth_value rt Hc t y m Hy Hm Htz ltac:(lia)) as [_ Hv].
    rewrite Hv. clear Hv.
    destruct (shifted_reading rt Hc (fst (successorMonth y m)) (snd (successorMonth y m))
                (DateFromTime (LocalTime rt t)) (TimeWithinDay (LocalTime rt t))
                Hs1 Hdr (TimeWithinDay_range _))
      as (Htod & Hshow & _).
    destruct (Hshow ltac:(lia)) as (Hy' & Hm' & Hd'). clear Hshow.
    generalize dependent
      (UTC rt (MakeDate (MakeDay (fst (successorMonth y m)) (snd (successorMonth y m))
                                 (DateFromTime (LocalTime rt t)))
                        (TimeWithinDay (LocalTime rt t)))).
    intros u Htod Hy' Hm' Hd'.
    destruct (previousMonth_value rt Hc u _ _ Hy' Hm' Htz) as [_ Hp];
      [rewrite Hs3; cbn [fst]; lia|].
    rewrite Hp, Hs3. cbn [fst snd].
    injection Hd' as Hd'. injection Htod as Htod. rewrite Hd', Htod. exact Hback.
  - destruct (previousMonth_value rt Hc t y m Hy Hm Htz ltac:(lia)) as [_ Hv].
    rewrite Hv. clear Hv.
    destruct (shifted_reading rt Hc (fst (predecessorMonth y m))
                (snd (predecessorMonth y m))
                (DateFromTime (LocalTime rt t)) (TimeWithinDay (LocalTime rt t))
                Hp1 Hdr (TimeWithinDay_range _))
      as (Htod & Hshow & _).
    destruct (Hshow ltac:(lia)) as (Hy' & Hm' & Hd'). clear Hshow.
    generalize dependent
      (UTC rt (MakeDate (MakeDay (fst (predecessorMonth y m))
                                 (snd (predecessorMonth y m))
                                 (DateFromTime (LocalTime rt t)))
                        (TimeWithinDay (LocalTime rt t)))).
    intros u Htod Hy' Hm' Hd'.
    destruct (nextMonth_value rt Hc u _ _ Hy' Hm' Htz) as [_ Hn];
      [rewrite Hp3; cbn [fst]; lia|].
    rewrite Hn, Hp3. cbn [fst snd].
    injection Hd' as Hd'. injection Htod as Htod. rewrite Hd', Htod. exact Hback.
Qed.

Lemma X3_witness :
  (constantOffset (runtimeAt 9) (9 * msPerHour)
   /\ showsDate (runtimeAt 9) 2024 11 15 (Some (instantOn utcOffset 2024 12 15 10 0))
   /\ Z.abs (9 * msPerHour) <= msPerDay
   /\ -271819 <= 2024 <= 275758)
  /\ previousMonth (runtimeAt 9)
       (nextMonth (runtimeAt 9) (Some (instantOn utcOffset 2024 12 15 10 0)))
     = Some (instantOn utcOffset 2024 12 15 10 0).
Proof.
  assert (showsDate (runtimeAt 9) 2024 11 15 (Some (instantOn utcOffset 2024 12 15 10 0)))
    as Hshow by (repeat split; reflexivity).
  assert (Z.abs (9 * msPerHour) <= msPerDay) as Htz
    by (vm_compute; intros Hgt; discriminate Hgt).
  assert (-271819 <= 2024 <= 275758) as Hr
    by (split; vm_compute; intros Hgt; discriminate Hgt).
  split; [split; [exact (runtimeAt_constant 9)|auto]|].
  apply (proj1 (X3_month_buttons_undo_each_other (runtimeAt 9) (9 * msPerHour)
                  (instantOn utcOffset 2024 12 15 10 0) 2024 11 15
                  (runtimeAt_constant 9) Hshow Htz Hr)).
  vm_compute. intros Hgt. discriminate Hgt.
Defined.

End Navigation.

(** * The rows of the table: weekday and today *)

Section Rows.
Import ES ESFacts DateFacts ComponentFacts NavFacts.

Lemma WeekDay_range t : 0 <= WeekDay t <= 6.
Proof. unfold WeekDay. floor_lia. Qed.

Lemma WeekDay_next_day t :
  WeekDay (t + msPerDay) = (WeekDay t + 1) mod 7.
Proof. unfold WeekDay, Day, msPerDay. floor_lia. Qed.

Lemma weekdayLabel_valid rt tv :
  exists label,
    weekdayLabel rt (Some tv) = Some label
    /\ weekdayLabels !! Z.to_nat (WeekDay (LocalTime rt tv)) = Some label.
Proof.
  unfold weekdayLabel. cbn [getDay option_map].
  pose proof (WeekDay_range (LocalTime rt tv)) as Hr.
  destruct (Z.leb_spec 0 (WeekDay (LocalTime rt tv))); [|lia].
  destruct (lookup_lt_is_Some_2 weekdayLabels (Z.to_nat (WeekDay (LocalTime rt tv))))
    as [label Hlabel]; [cbn; lia|].
  exists label. auto.
Qed.

(** In every runtime, a valid row of the day axis is the instant the
    constructor makes of the local midnight of its date. *)
Lemma axis_row_value rt currentDate i tv :
  getDaysInMonth rt currentDate !! i = Some (Some tv) ->
  exists y m, getFullYear rt currentDate = Some y
              /\ getMonth rt currentDate = Some m
              /\ tv = localMidnight rt y m (1 + Z.of_nat i).
Proof.
  intros H. apply axis_row in H as (t & -> & Hday).
  rewrite newDate_Some in Hday. symmetry in Hday.
  apply TimeClip_Some in Hday as [-> _].
  eexists. eexists. split; [reflexivity|]. split; reflexivity.
Qed.

(** X4: in every runtime, every valid row of the day axis has one of
    the seven weekday labels (the lookup never gives [undefined]), and an
    Invalid Date has none.  In a runtime whose zone has a constant offset
    from UTC, the weekday advances by one from a row to the next, 土 being
    followed by 日. *)
Theorem X4_weekday_labels_follow_the_rows : forall rt currentDate i tv,
  getDaysInMonth rt currentDate !! i = Some (Some tv) ->
  (exists k label,
      getDay rt (Some tv) = Some k /\ 0 <= k <= 6
      /\ weekdayLabel rt (Some tv) = Some label
      /\ weekdayLabels !! Z.to_nat k = Some label)
  /\ weekdayLabel rt NaN = None
  /\ (forall tza tv',
        constantOffset rt tza ->
        getDaysInMonth rt currentDate !! S i = Some (Some tv') ->
        forall k, getDay rt (Some tv) = Some k ->
        getDay rt (Some tv') = Some ((k + 1) mod 7)
        /\ weekdayLabel rt (Some tv') = weekdayLabels !! Z.to_nat ((k + 1) mod 7)).
Proof.
  intros rt currentDate i tv Hrow. split; [|split; [reflexivity|]].
  - destruct (weekdayLabel_valid rt tv) as (label & Hl & Hk).
    exists (WeekDay (LocalTime rt tv)), label.
    split; [reflexivity|]. split; [apply WeekDay_range|]. auto.
  - intros tza tv' Hc Hnext k [= Hk].
    apply axis_row_value in Hrow as (y & m & Hy & Hm & ->).
    apply axis_row_value in Hnext as (y' & m' & Hy' & Hm' & ->).
    rewrite Hy in Hy'. rewrite Hm in Hm'. injection Hy' as <-. injection Hm' as <-.
    replace (1 + Z.of_nat (S i)) with (1 + Z.of_nat i + 1) by lia.
    rewrite (localMidnight_step rt Hc).
    assert (WeekDay (LocalTime rt (localMidnight rt y m (1 + Z.of_nat i) + msPerDay))
            = (k + 1) mod 7) as Hw.
    { rewrite <- Hk. rewrite !(LocalTime_constant rt Hc).
      replace (localMidnight rt y m (1 + Z.of_nat i) + msPerDay + tza)
        with (localMidnight rt y m (1 + Z.of_nat i) + tza + msPerDay) by lia.
      apply WeekDay_next_day. }
    split.
    + cbn [getDay option_map]. rewrite Hw. reflexivity.
    + unfold weekdayLabel. cbn [getDay option_map]. rewrite Hw.
      destruct (Z.leb_spec 0 ((k + 1) mod 7)); [reflexivity|].
      pose proof (Z.mod_pos_bound (k + 1) 7). lia.
Qed.

Lemma X4_witness :
  getDaysInMonth (runtimeAt 9) midMarch2024 !! 4%nat
  = Some (Some (localMidnight (runtimeAt 9) 2024 2 5))
  /\ weekdayLabel (runtimeAt 9) (Some (localMidnight (runtimeAt 9) 2024 2 5))
     = Some "火"
  /\ exists k label,
       getDay (runtimeAt 9) (Some (localMidnight (runtimeAt 9) 2024 2 5)) = Some k
       /\ 0 <= k <= 6
       /\ weekdayLabel (runtimeAt 9) (Some (localMidnight (runtimeAt 9) 2024 2 5))
          = Some label
       /\ weekdayLabels !! Z.to_nat k = Some label.
Proof.
  assert (getDaysInMonth (runtimeAt 9) midMarch2024 !! 4%nat
          = Some (Some (localMidnight (runtimeAt 9) 2024 2 5))) as Hrow
    by (vm_compute; reflexivity).
  split; [exact Hrow|]. split; [vm_compute; reflexivity|].
  exact (proj1 (X4_weekday_labels_follow_the_rows (runtimeAt 9) midMarch2024 4
                  (localMidnight (runtimeAt 9) 2024 2 5) Hrow)).
Defined.

Lemma axis_fields rt {tza} (Hc : constantOffset rt tza) currentDate i tv :
  getDaysInMonth rt currentDate !! i = Some (Some tv) ->
  exists y m,
    getFullYear rt currentDate = Some y
    /\ getMonth rt currentDate = Some m
    /\ getFullYear rt (Some tv) = Some (MakeFullYear y)
    /\ getMonth rt (Some tv) = Some m
    /\ getDate rt (Some tv) = Some (1 + Z.of_nat i).
Proof.
  intros H. apply (axis_lookup rt Hc) in H as (t & -> & Hi & Hday). cbv zeta in *.
  assert (0 <= MonthFromTime (LocalTime rt t) <= 11) as Hm
    by apply (MakeDay_of_fields (LocalTime rt t)).
  symmetry in Hday.
  apply (newDate_fields rt Hc) in Hday as (HY & HM & HD & _); [|exact Hm|lia].
  eexists. eexists. split; [reflexivity|]. split; [reflexivity|]. auto.
Qed.

(** Under the conditions of validity, every day of the month is a row. *)
Lemma axis_valid_row rt {tza} (Hc : constantOffset rt tza) t y m i :
  getFullYear rt (Some t) = Some y -> getMonth rt (Some t) = Some m ->
  Z.abs tza <= msPerDay ->
  -271820 <= MakeFullYear y <= 275759 ->
  Z.of_nat i < DaysInMonth (MakeFullYear y) m ->
  getDaysInMonth rt (Some t) !! i
  = Some (Some (localMidnight rt y m (1 + Z.of_nat i))).
Proof.
  intros Hy Hm Htz Hr Hi.
  assert (0 <= m <= 11) as Hmr by (eapply getMonth_range; exact Hm).
  pose proof (DaysInMonth_bounds (MakeFullYear y) m) as Hb.
  assert (newDate rt (Some y) (plus (Some m) (Some 1)) (Some 0)
          = Some (localMidnight rt y m (DaysInMonth (MakeFullYear y) m))) as Hlast.
  { rewrite <- (newDate_valid rt Hc y m (DaysInMonth (MakeFullYear y) m)); auto; [|lia].
    cbn [plus]. rewrite !newDate_Some. f_equal.
    unfold localMidnight. rewrite MakeDay_last by exact Hmr. reflexivity. }
  rewrite getDaysInMonth_spec, Hy, Hm, Hlast.
  rewrite (lastDay_getDate rt Hc y m _ Hmr Hlast), lookup_map.
  rewrite lookup_seqZ_lt by exact Hi. cbn [fmap option_fmap option_map].
  rewrite (newDate_valid rt Hc); auto. lia.
Qed.

Lemma todayMarks_lookup rt clock currentDate i :
  todayMarks rt clock currentDate !! i = Some true <->
  exists day,
    getDaysInMonth rt currentDate !! i = Some day
    /\ isToday rt (clock i 0%nat) (clock i 1%nat) (clock i 2%nat) day = true.
Proof.
  unfold todayMarks. rewrite list_lookup_imap.
  destruct (getDaysInMonth rt currentDate !! i) as [day|]; cbn; split.
  - intros [= H]. eauto.
  - intros (day' & [= <-] & H). congruence.
  - discriminate.
  - intros (day' & [=] & _).
Qed.

Lemma isToday_true rt now1 now2 now3 day :
  isToday rt now1 now2 now3 day = true <->
  exists d m y,
    getDate rt day = Some d /\ getDate rt now1 = Some d
    /\ getMonth rt day = Some m /\ getMonth rt now2 = Some m
    /\ getFullYear rt day = Some y /\ getFullYear rt now3 = Some y.
Proof.
  unfold isToday. rewrite !andb_true_iff, !strictEq_true. split.
  - intros [[(d & ? & ?) (m & ? & ?)] (y & ? & ?)]. exists d, m, y. auto 10.
  - intros (d & m & y & ? & ? & ? & ? & ? & ?). eauto 10.
Qed.

(** X5: in a runtime whose zone has a constant offset from UTC, when
    every [new Date()] of a render shows the same local date, the later
    revision marks at most one row as today; a marked row is the row of
    today's day of the month, and the axis is then the month of today in
    the year the [Date] constructor works in.  Conversely, under the
    conditions of validity of the axis (offset of at most a day, year in
    range), a reference date in today's month and year has the row of
    today marked; and for a reference year outside 0..99 a row is marked
    exactly when the test of the scrolling effect (same month and year as
    today) holds. *)
Theorem X5_today_marks_one_row : forall rt tza clock currentDate y' m' d',
  constantOffset rt tza ->
  (forall i k, showsDate rt y' m' d' (clock i k)) ->
  (forall i,
      todayMarks rt clock currentDate !! i = Some true ->
      Z.of_nat i + 1 = d'
      /\ getMonth rt currentDate = Some m'
      /\ exists y, getFullYear rt currentDate = Some y /\ MakeFullYear y = y')
  /\ (forall i j,
        todayMarks rt clock currentDate !! i = Some true ->
        todayMarks rt clock currentDate !! j = Some true ->
        i = j)
  /\ (forall y,
        getFullYear rt currentDate = Some y ->
        Z.abs tza <= msPerDay ->
        -271820 <= MakeFullYear y <= 275759 ->
        (MakeFullYear y = y' /\ getMonth rt currentDate = Some m' ->
         todayMarks rt clock currentDate !! Z.to_nat (d' - 1) = Some true)
        /\ (~ (0 <= y <= 99) ->
            (showsCurrentMonth rt (clock 0%nat 0%nat) currentDate = true
             <-> exists i, todayMarks rt clock currentDate !! i = Some true))).
Proof.
  intros rt tza clock currentDate y' m' d' Hc Hclock.
  assert (forall i,
             todayMarks rt clock currentDate !! i = Some true ->
             Z.of_nat i + 1 = d'
             /\ getMonth rt currentDate = Some m'
             /\ exists y, getFullYear rt currentDate = Some y /\ MakeFullYear y = y')
    as Hmarked.
  { intros i Hi. apply todayMarks_lookup in Hi as (day & Hday & Htoday).
    apply isToday_true in Htoday as (d & m & y & Hd & Hd1 & Hm & Hm2 & Hy & Hy3).
    destruct (Hclock i 0%nat) as (_ & _ & Hc1).
    destruct (Hclock i 1%nat) as (_ & Hc2 & _).
    destruct (Hclock i 2%nat) as (Hc3 & _ & _).
    assert (d = d') by congruence. assert (m = m') by congruence.
    assert (y = y') by congruence. subst d m y.
    destruct day as [tv|]; [|discriminate].
    apply (axis_fields rt Hc) in Hday as (y & m & Hcy & Hcm & Hry & Hrm & Hrd).
    split; [|split].
    - rewrite Hrd in Hd. injection Hd as Hd. lia.
    - congruence.
    - exists y. split; [exact Hcy|]. congruence. }
  split; [exact Hmarked|]. split.
  - intros i j Hi Hj. apply Hmarked in Hi as (Hi & _), Hj as (Hj & _). lia.
  - intros y Hcy Htz Hr.
    destruct currentDate as [t|]; [|discriminate].
    assert (1 <= d' <= DaysInMonth y' m') as Hd'.
    { destruct (Hclock 0%nat 0%nat) as (Hy0 & Hm0 & Hd0).
      destruct (clock 0%nat 0%nat) as [c|]; [|discriminate].
      injection Hy0 as <-. injection Hm0 as <-. injection Hd0 as <-.
      apply (MakeDay_of_fields (LocalTime rt c)). }
    assert (MakeFullYear y = y' /\ getMonth rt (Some t) = Some m' ->
            todayMarks rt clock (Some t) !! Z.to_nat (d' - 1) = Some true) as Hrow.
    { intros [Hyear Hmonth]. apply todayMarks_lookup.
      eexists. split.
      - apply (axis_valid_row rt Hc t y m'); auto. rewrite Hyear. lia.
      - replace (1 + Z.of_nat (Z.to_nat (d' - 1))) with d' by lia.
        assert (newDate rt (Some y) (Some m') (Some d')
                = Some (localMidnight rt y m' d')) as Hv.
        { apply (newDate_valid rt Hc); auto.
          - eapply getMonth_range; exact Hmonth.
          - rewrite Hyear. exact Hd'. }
        apply (newDate_fields rt Hc) in Hv as (HY & HM & HD & _);
          [|eapply getMonth_range; exact Hmonth|rewrite Hyear; exact Hd'].
        apply isToday_true. exists d', m', y'.
        destruct (Hclock (Z.to_nat (d' - 1)) 0%nat) as (_ & _ & Hc1).
        destruct (Hclock (Z.to_nat (d' - 1)) 1%nat) as (_ & Hc2 & _).
        destruct (Hclock (Z.to_nat (d' - 1)) 2%nat) as (Hc3 & _ & _).
        rewrite Hyear in HY. auto 10. }
    split; [exact Hrow|].
    intros Hny. destruct (MakeFullYear_cases y) as [Hfull _].
    specialize (Hfull Hny).
    destruct (Hclock 0%nat 0%nat) as (Hy0 & Hm0 & _).
    unfold showsCurrentMonth. rewrite andb_true_iff, !strictEq_true. split.
    + intros [(m & Hm1 & Hm2) (yy & Hy1 & Hy2)].
      exists (Z.to_nat (d' - 1)). apply Hrow. split; congruence.
    + intros (i & Hi). apply Hmarked in Hi as (_ & Hm & y0 & Hy & Hfull').
      assert (y0 = y) by congruence. subst y0.
      split; [exists m'|exists y']; split; congruence.
Qed.

Lemma X5_witness :
  constantOffset (runtimeAt 9) (9 * msPerHour)
  /\ (forall i k : nat, showsDate (runtimeAt 9) 2024 2 15 ((fun _ _ => midMarch2024) i k))
  /\ todayMarks (runtimeAt 9) (fun _ _ => midMarch2024) midMarch2024 !! 14%nat
     = Some true
  /\ forall i j,
       todayMarks (runtimeAt 9) (fun _ _ => midMarch2024) midMarch2024 !! i = Some true ->
       todayMarks (runtimeAt 9) (fun _ _ => midMarch2024) midMarch2024 !! j = Some true ->
       i = j.
Proof.
  assert (forall i k : nat,
             showsDate (runtimeAt 9) 2024 2 15 ((fun _ _ => midMarch2024) i k)) as Hclock
    by (intros i k; repeat split; reflexivity).
  split; [exact (runtimeAt_constant 9)|].
  split; [exact Hclock|]. split; [vm_compute; reflexivity|].
  exact (proj1 (proj2 (X5_today_marks_one_row (runtimeAt 9) (9 * msPerHour)
                         (fun _ _ => midMarch2024) midMarch2024 2024 2 15
                         (runtimeAt_constant 9) Hclock))).
Defined.

End Rows.

(** * The outcomes of the handler *)

Section HandlerOutcomes.

Lemma formatEvent_Throw source raw cause :
  formatEvent source raw = Throw cause
  <-> (ICal.start raw = NaN \/ ICal.end_ raw = NaN) /\ cause = invalidTime.
Proof.
  unfold formatEvent, toISOString, invalidTime, NaN.
  destruct (ICal.start raw) as [s|]; cbn; [destruct (ICal.end_ raw) as [e|]; cbn|].
  - split; [discriminate|]. intros [[H|H] _]; discriminate.
  - split; [intros [= <-]; auto|]. intros [_ ->]. reflexivity.
  - split; [intros [= <-]; auto|]. intros [_ ->]. reflexivity.
Qed.

(** The exception of a [map] is the exception of one of the calls. *)
Lemma mapThrowing_Throw {A B} (f : A -> Completion B) l cause :
  mapThrowing f l = Throw cause -> exists a, In a l /\ f a = Throw cause.
Proof.
  induction l as [|a l IH]; cbn; [discriminate|].
  destruct (f a) as [b|e] eqn:Hfa; cbn.
  - destruct (mapThrowing f l) as [bs|e]; cbn; [discriminate|].
    intros [= <-]. destruct IH as (a' & Hin & Ha'); [reflexivity|]. eauto.
  - intros [= <-]. eauto.
Qed.

Lemma mapThrowing_Normal_In {A B} (f : A -> Completion B) l l' a :
  mapThrowing f l = Normal l' -> In a l -> exists b, f a = Normal b.
Proof.
  revert l'. induction l as [|a' l IH]; intros l'; cbn; [contradiction|].
  destruct (f a') as [b|e] eqn:Hfa; cbn; [|discriminate].
  destruct (mapThrowing f l) as [bs|e]; cbn; [|discriminate].
  intros _ [<- | Hin]; [eauto|]. eapply IH; [reflexivity|exact Hin].
Qed.

Lemma mapThrowing_length {A B} (f : A -> Completion B) l l' :
  mapThrowing f l = Normal l' -> length l' = length l.
Proof.
  intros H. apply mapThrowing_Normal in H. symmetry.
  exact (Forall2_length _ _ _ H).
Qed.

(** [formatEvents] throws exactly when a timed entry holds an Invalid
    Date, and then it is the [RangeError] of [toISOString]. *)
Lemma formatEvents_Throw feed source cause :
  formatEvents feed source = Throw cause
  <-> (exists raw, In raw (timedEntries feed)
                   /\ (ICal.start raw = NaN \/ ICal.end_ raw = NaN))
      /\ cause = invalidTime.
Proof.
  unfold formatEvents. fold (timedEntries feed). split.
  - intros H. apply mapThrowing_Throw in H as (raw & Hin & Hraw).
    apply formatEvent_Throw in Hraw as [Hbad ->]. eauto.
  - intros [(raw & Hin & Hbad) ->].
    destruct (mapThrowing (formatEvent source) (timedEntries feed)) as [l'|e] eqn:Hmap.
    + destruct (mapThrowing_Normal_In _ _ _ raw Hmap Hin) as [b Hb].
      assert (formatEvent source raw = Throw invalidTime) as Ht
        by (apply formatEvent_Throw; auto).
      congruence.
    + apply mapThrowing_Throw in Hmap as (raw' & _ & Hraw').
      apply formatEvent_Throw in Hraw' as [_ ->]. reflexivity.
Qed.

Lemma formatEvents_length feed source formatted :
  formatEvents feed source = Normal formatted ->
  length formatted = length (timedEntries feed).
Proof. apply mapThrowing_length. Qed.

(** The three shapes of a response of the handler. *)
Lemma handler_response_cases env net :
  response (handler env net)
  = {| status := 400; json := ErrorBody configurationMessage None |}
  \/ (exists value,
         response (handler env net) = {| status := 200; json := ValueBody value |})
  \/ (exists cause,
         response (handler env net)
         = {| status := 500; json := ErrorBody fetchMessage (Some (detailsOf cause)) |}).
Proof.
  unfold handler. cbv zeta.
  destruct (configured (PUBLIC_CALENDAR_URL_1 env)) as [url1|]; [|left; reflexivity].
  destruct (configured (PUBLIC_CALENDAR_URL_2 env)) as [url2|]; [|left; reflexivity].
  right.
  destruct (Promise_all net (fromURL net 0%nat url1) (fromURL net 1%nat url2))
    as [feeds|e]; cbn [bind]; [|right; eexists; reflexivity].
  destruct (formatEvents (fst feeds) calendar1) as [l1|e]; cbn [bind];
    [|right; eexists; reflexivity].
  destruct (formatEvents (snd feeds) calendar2) as [l2|e]; cbn [bind];
    [|right; eexists; reflexivity].
  left. eexists. reflexivity.
Qed.

(** X6: every run of the handler is of one of three kinds.  Either a
    locator is unset or empty, and the run is the 400 answer with no
    request and no log.  Or both locators are set and non-empty, both are
    requested, in the order calendar 1, calendar 2, and then either both
    feeds arrived and the answer is 200 with as many events as the feeds
    have timed entries, nothing logged; or the run is the failed run of one
    cause, which is the reason of a rejected request or the [RangeError]
    of [toISOString].  The handler never requests one feed only, and logs
    exactly when it answers 500. *)
Theorem X6_handler_outcomes : forall env net,
  (handler env net
   = {| requested := []; logged := [];
        response := {| status := 400; json := ErrorBody configurationMessage None |} |}
   /\ (missingOrEmpty (PUBLIC_CALENDAR_URL_1 env)
       \/ missingOrEmpty (PUBLIC_CALENDAR_URL_2 env)))
  \/ exists url1 url2,
       (PUBLIC_CALENDAR_URL_1 env = Some url1 /\ url1 <> EmptyString)
       /\ (PUBLIC_CALENDAR_URL_2 env = Some url2 /\ url2 <> EmptyString)
       /\ ((exists feedA feedB value,
              fromURL net 0%nat url1 = Fulfilled feedA
              /\ fromURL net 1%nat url2 = Fulfilled feedB
              /\ handler env net
                 = {| requested := [url1; url2]; logged := [];
                      response := {| status := 200; json := ValueBody value |} |}
              /\ length value
                 = (length (timedEntries feedA) + length (timedEntries feedB))%nat)
           \/ (exists cause,
                 handler env net = failedRun url1 url2 cause
                 /\ (fromURL net 0%nat url1 = Rejected cause
                     \/ fromURL net 1%nat url2 = Rejected cause
                     \/ cause = invalidTime))).
Proof.
  intros env net.
  destruct (configured (PUBLIC_CALENDAR_URL_1 env)) as [url1|] eqn:H1.
  2:{ left. split; [unfold handler; rewrite H1; reflexivity|].
      left. apply configured_None. exact H1. }
  destruct (configured (PUBLIC_CALENDAR_URL_2 env)) as [url2|] eqn:H2.
  2:{ left. split; [unfold handler; rewrite H1, H2; reflexivity|].
      right. apply configured_None. exact H2. }
  right. exists url1, url2.
  split; [apply configured_Some; exact H1|].
  split; [apply configured_Some; exact H2|].
  rewrite (handler_configured env net url1 url2 H1 H2).
  destruct (fromURL net 0%nat url1) as [feedA|r1] eqn:HA;
    destruct (fromURL net 1%nat url2) as [feedB|r2] eqn:HB;
    cbn [Promise_all bind fst snd].
  - destruct (formatEvents feedA calendar1) as [l1|e] eqn:F1; cbn [bind].
    + destruct (formatEvents feedB calendar2) as [l2|e] eqn:F2; cbn [bind].
      * left. exists feedA, feedB, (l1 ++ l2)%list.
        split; [reflexivity|]. split; [reflexivity|]. split; [reflexivity|].
        rewrite length_app.
        rewrite (formatEvents_length _ _ _ F1), (formatEvents_length _ _ _ F2).
        reflexivity.
      * right. exists e. split; [reflexivity|].
        apply formatEvents_Throw in F2 as [_ ->]. auto.
    + right. exists e. split; [reflexivity|].
      apply formatEvents_Throw in F1 as [_ ->]. auto.
  - right. exists r2. auto.
  - right. exists r1. auto.
  - right. exists (if firstFailsFirst net then r1 else r2). split; [reflexivity|].
    destruct (firstFailsFirst net); auto.
Qed.

(** X7: for feeds whose timed entries hold [Date] objects in [start]
    and [end], as the interface [ICalEvent] says: with both locators
    configured and both feeds fetched, the handler answers 500 exactly
    when some timed entry of either feed has an Invalid Date as start or
    end; the failed run is then that of the
    [RangeError] of [toISOString], whose message is the [details] of the
    answer, and no event of either feed is delivered.  Otherwise the answer
    is 200. *)
Theorem X7_invalid_date_fails_the_answer : forall env net url1 url2 feedA feedB,
  configured (PUBLIC_CALENDAR_URL_1 env) = Some url1 ->
  configured (PUBLIC_CALENDAR_URL_2 env) = Some url2 ->
  fromURL net 0%nat url1 = Fulfilled feedA ->
  fromURL net 1%nat url2 = Fulfilled feedB ->
  (someInvalidInstant feedA feedB
   <-> handler env net = failedRun url1 url2 invalidTime)
  /\ (someInvalidInstant feedA feedB
      -> json (response (handler env net))
         = ErrorBody fetchMessage (Some "Invalid time value"))
  /\ (~ someInvalidInstant feedA feedB
      <-> status (response (handler env net)) = 200).
Proof.
  intros env net url1 url2 feedA feedB H1 H2 HA HB.
  rewrite (handler_configured env net url1 url2 H1 H2), HA, HB.
  cbn [Promise_all bind fst snd].
  assert (someInvalidInstant feedA feedB
          <-> formatEvents feedA calendar1 = Throw invalidTime
              \/ formatEvents feedB calendar2 = Throw invalidTime) as Hinv.
  { unfold someInvalidInstant. rewrite !formatEvents_Throw. split.
    - intros (raw & Hin & Hbad). apply in_app_or in Hin as [Hin | Hin]; eauto 10.
    - intros [[(raw & Hin & Hbad) _] | [(raw & Hin & Hbad) _]];
        exists raw; (split; [apply in_or_app; auto|exact Hbad]). }
  destruct (formatEvents feedA calendar1) as [l1|e1] eqn:F1; cbn [bind].
  - destruct (formatEvents feedB calendar2) as [l2|e2] eqn:F2; cbn [bind].
    + assert (~ someInvalidInstant feedA feedB) as Hno
        by (rewrite Hinv; intros [?|?]; discriminate).
      split; [split; [contradiction|discriminate]|].
      split; [contradiction|]. cbn. tauto.
    + apply formatEvents_Throw in F2 as [Hbad ->].
      assert (someInvalidInstant feedA feedB) as Hyes by (apply Hinv; auto).
      split; [split; reflexivity || (intros _; exact Hyes)|].
      split; [reflexivity|]. cbn. split; [contradiction|discriminate].
  - apply formatEvents_Throw in F1 as [Hbad ->].
    assert (someInvalidInstant feedA feedB) as Hyes by (apply Hinv; auto).
    split; [split; reflexivity || (intros _; exact Hyes)|].
    split; [reflexivity|]. cbn. split; [contradiction|discriminate].
Qed.

Lemma X7_witness :
  someInvalidInstant sampleFeedA [("uid-9", brokenEntry)]
  /\ handler sampleEnv (delivering sampleFeedA [("uid-9", brokenEntry)])
     = failedRun "https://calendar.example/lounge6.ics"
                 "https://calendar.example/lounge5.ics" invalidTime.
Proof.
  assert (someInvalidInstant sampleFeedA [("uid-9", brokenEntry)]) as Hbad.
  { exists brokenEntry. split; [cbn; auto 10|left; reflexivity]. }
  split; [exact Hbad|].
  exact (proj1 (proj1 (X7_invalid_date_fails_the_answer sampleEnv
                         (delivering sampleFeedA [("uid-9", brokenEntry)])
                         "https://calendar.example/lounge6.ics"
                         "https://calendar.example/lounge5.ics"
                         sampleFeedA [("uid-9", brokenEntry)]
                         eq_refl eq_refl eq_refl eq_refl)) Hbad).
Defined.

End HandlerOutcomes.

(** * The component and the responses of the handler *)

Section Client.

Lemma truthy_stored_message body :
  truthy match body with
         | ErrorBody e _ => if truthy e then e else fetchMessage
         | ValueBody _ => fetchMessage
         end = true.
Proof.
  destruct body as [e details|value]; [|reflexivity].
  destruct (truthy e) eqn:He; [exact He|reflexivity].
Qed.

(** A call of [fetchEvents] leaves a set error set; only a response that
    is not ok replaces its message. *)
Lemma fetchEvents_keeps_error res st message :
  error st = Some message -> truthy message = true ->
  exists message',
    error (fetchEvents res st) = Some message' /\ truthy message' = true
    /\ (ok res = true -> message' = message).
Proof.
  intros He Ht. unfold fetchEvents, ok.
  destruct ((200 <=? status res) && (status res <=? 299)); cbn [error].
  - exists message. auto.
  - eexists. split; [reflexivity|]. split; [apply truthy_stored_message|discriminate].
Qed.

Lemma fetchEvents_currentDate res st :
  currentDate (fetchEvents res st) = currentDate st.
Proof.
  unfold fetchEvents. destruct ((200 <=? status res) && (status res <=? 299));
    reflexivity.
Qed.

(** X8: what the component makes of any answer of the handler.  The
    reference date is left as it is.  On a 200 answer the events become the
    [value] of the answer and the error is left as it was, so that a
    component without error shows the table of these events.  On any other
    answer the events are left as they were and the view is the error view
    of one of two fixed messages, the one for a missing configuration or
    the one for a failed fetch: the [details] of the answer (the message of
    the exception) are never shown. *)
Theorem X8_client_shows_value_or_fixed_message : forall rt slots env net st,
  currentDate (fetchEvents (response (handler env net)) st) = currentDate st
  /\ ((exists value,
         response (handler env net) = {| status := 200; json := ValueBody value |}
         /\ events (fetchEvents (response (handler env net)) st) = value
         /\ error (fetchEvents (response (handler env net)) st) = error st
         /\ (error st = None ->
             render rt slots false (fetchEvents (response (handler env net)) st)
             = TableView (heading rt (currentDate st))
                 (tableBody rt slots
                    {| events := value; error := None;
                       currentDate := currentDate st |})))
      \/ (exists message details,
            json (response (handler env net)) = ErrorBody message details
            /\ (message = configurationMessage \/ message = fetchMessage)
            /\ events (fetchEvents (response (handler env net)) st) = events st
            /\ error (fetchEvents (response (handler env net)) st) = Some message
            /\ render rt slots false (fetchEvents (response (handler env net)) st)
               = ErrorView message)).
Proof.
  intros rt slots env net st. split; [apply fetchEvents_currentDate|].
  destruct (handler_response_cases env net) as [H | [[value H] | [cause H]]];
    rewrite H.
  - right. exists configurationMessage, None. repeat split; auto.
  - left. exists value. split; [reflexivity|]. split; [reflexivity|].
    split; [reflexivity|]. intros He. unfold render, fetchEvents.
    cbn [status json andb Z.leb Z.compare Pos.compare Pos.compare_cont CompOpp
         error events currentDate]. cbv iota. rewrite He. reflexivity.
  - right. exists fetchMessage, (Some (detailsOf cause)). repeat split; auto.
Qed.

(** X9: an error, once set, is never cleared.  Whatever the responses
    of the later fetches are, and in whatever number, the component still
    returns the error view, never the table; and as long as these
    responses are ok it is the view of the same message, although the
    events of these responses are stored. *)
Theorem X9_error_is_never_cleared : forall rt slots responses st message,
  error st = Some message -> truthy message = true ->
  exists message',
    error (afterResponses responses st) = Some message'
    /\ render rt slots false (afterResponses responses st) = ErrorView message'
    /\ (forallb ok responses = true -> message' = message)
    /\ currentDate (afterResponses responses st) = currentDate st.
Proof.
  intros rt slots responses. unfold afterResponses.
  induction responses as [|res responses IH]; intros st message He Ht; cbn [fold_left].
  - exists message. split; [exact He|]. split; [|auto].
    unfold render. rewrite He, Ht. reflexivity.
  - destruct (fetchEvents_keeps_error res st message He Ht) as (m1 & He1 & Ht1 & Hok1).
    destruct (IH (fetchEvents res st) m1 He1 Ht1) as (m2 & He2 & Hv2 & Hok2 & Hd2).
    exists m2. split; [exact He2|]. split; [exact Hv2|]. split.
    + cbn [forallb]. intros [Hres Hrest]%andb_true_iff.
      rewrite (Hok2 Hrest). apply Hok1, Hres.
    + rewrite Hd2. apply fetchEvents_currentDate.
Qed.

Lemma X9_witness :
  exists message',
    error (afterResponses
             [response (handler sampleEnv (delivering sampleFeedA sampleFeedB))]
             (failedState fetchMessage midMarch2024)) = Some message'
    /\ render (runtimeAt 9) TimetableCalendar.TIME_SLOTS false
         (afterResponses
            [response (handler sampleEnv (delivering sampleFeedA sampleFeedB))]
            (failedState fetchMessage midMarch2024)) = ErrorView message'
    /\ (forallb ok [response (handler sampleEnv (delivering sampleFeedA sampleFeedB))]
        = true -> message' = fetchMessage)
    /\ currentDate
         (afterResponses
            [response (handler sampleEnv (delivering sampleFeedA sampleFeedB))]
            (failedState fetchMessage midMarch2024))
       = currentDate (failedState fetchMessage midMarch2024).
Proof.
  apply (X9_error_is_never_cleared (runtimeAt 9) TimetableCalendar.TIME_SLOTS
           [response (handler sampleEnv (delivering sampleFeedA sampleFeedB))]
           (failedState fetchMessage midMarch2024) fetchMessage);
    reflexivity.
Defined.

End Client.

(** * The table as a whole *)

Section Display.
Import ES ESFacts DateFacts ComponentFacts.

(** A test that at most one position of a list passes holds of at most
    one element of the list. *)
Lemma filter_at_most_one {X} (f : X -> bool) (l : list X) :
  (forall i j x y, l !! i = Some x -> l !! j = Some y ->
                   f x = true -> f y = true -> i = j) ->
  (length (List.filter f l) <= 1)%nat.
Proof.
  induction l as [|x l IH]; intros H; cbn [List.filter]; [cbn; lia|].
  destruct (f x) eqn:Hx.
  - assert (List.filter f l = []) as ->; [|cbn; lia].
    rewrite (filter_agree f (fun _ => false)); [apply List.filter_false|].
    intros y Hy. apply list_elem_of_In, list_elem_of_lookup in Hy as [j Hj].
    destruct (f y) eqn:Hfy; [|reflexivity].
    specialize (H 0%nat (S j) x y eq_refl Hj Hx Hfy). discriminate.
  - apply IH. intros i j a b Hi Hj Ha Hb.
    specialize (H (S i) (S j) a b Hi Hj Ha Hb). lia.
Qed.

(** Tests of which every element passes at most one split a list into
    disjoint parts. *)
Lemma filters_step {A} (ps : list (A -> bool)) (a : A) (l : list A) :
  (length (List.filter (fun p => p a) ps) <= 1)%nat ->
  Permutation
    (concat (map (fun p => List.filter p (a :: l)) ps))
    ((if existsb (fun p => p a) ps then [a] else [])
     ++ concat (map (fun p => List.filter p l) ps)).
Proof.
  induction ps as [|p ps IH]; intros H; [reflexivity|].
  cbn [map concat existsb List.filter] in *.
  destruct (p a) eqn:Hp; cbn [orb length] in *.
  - assert (length (List.filter (fun p => p a) ps) <= 1)%nat as H' by lia.
    assert (existsb (fun p => p a) ps = false) as Hnone.
    { destruct (existsb (fun p => p a) ps) eqn:E; [|reflexivity].
      apply existsb_exists in E as (q & Hq & Hqa).
      assert (In q (List.filter (fun p => p a) ps)) as Hin
        by (apply filter_In; auto).
      destruct (List.filter (fun p => p a) ps); [contradiction|cbn in H; lia]. }
    specialize (IH H'). rewrite Hnone in IH. cbn [app] in *.
    constructor. apply Permutation_app_head. exact IH.
  - specialize (IH H).
    etransitivity; [apply Permutation_app_head; exact IH|].
    apply Permutation_app_swap_app.
Qed.

Lemma filters_partition {A} (ps : list (A -> bool)) (l : list A) :
  (forall a, In a l -> (length (List.filter (fun p => p a) ps) <= 1)%nat) ->
  Permutation
    (concat (map (fun p => List.filter p l) ps))
    (List.filter (fun a => existsb (fun p => p a) ps) l).
Proof.
  induction l as [|a l IH]; intros H.
  - cbn [List.filter]. clear H.
    induction ps as [|p ps IHps]; [reflexivity|exact IHps].
  - etransitivity; [apply filters_step, H; left; reflexivity|].
    cbn [List.filter].
    assert (Permutation (concat (map (fun p => List.filter p l) ps))
                        (List.filter (fun a => existsb (fun p => p a) ps) l)) as IH'
      by (apply IH; intros; apply H; right; assumption).
    destruct (existsb (fun p => p a) ps); cbn [app];
      [constructor; exact IH'|exact IH'].
Qed.

(** The tests of the cells of the table, row by row. *)
Lemma displayed_tableBody rt slots st :
  displayed (tableBody rt slots st)
  = concat (map (fun p => List.filter p (events st))
                (concat (map (fun day => map (startsAt rt day) slots)
                             (getDaysInMonth rt (currentDate st))))).
Proof.
  unfold displayed, cellsOf, tableBody, getEventsForTimeSlot.
  induction (getDaysInMonth rt (currentDate st)) as [|day days IH];
    [reflexivity|].
  cbn [map concat snd]. rewrite concat_app, map_app, concat_app, IH.
  f_equal. rewrite !map_map. reflexivity.
Qed.

Lemma startsAt_halves rt date timeSlot event :
  startsAt rt date timeSlot event
  = onDayOf rt date event && atStartOf rt timeSlot event.
Proof.
  unfold startsAt, onDayOf, atStartOf. cbv zeta. rewrite !andb_assoc. reflexivity.
Qed.

Lemma tests_passed_row rt day slots event :
  length (List.filter (fun p => p event) (map (startsAt rt day) slots))
  = if onDayOf rt day event
    then length (List.filter (fun slot => atStartOf rt slot event) slots)
    else 0%nat.
Proof.
  induction slots as [|slot slots IHs]; [destruct (onDayOf rt day event); reflexivity|].
  cbn [map List.filter]. rewrite startsAt_halves.
  destruct (onDayOf rt day event) eqn:Hday; cbn [andb].
  - destruct (atStartOf rt slot event); cbn [length]; rewrite IHs; reflexivity.
  - exact IHs.
Qed.

Lemma tests_passed rt (days : list Date) slots event :
  length (List.filter (fun p => p event)
            (concat (map (fun day => map (startsAt rt day) slots) days)))
  = (length (List.filter (fun day => onDayOf rt day event) days)
     * length (List.filter (fun slot => atStartOf rt slot event) slots))%nat.
Proof.
  induction days as [|day days IH]; [reflexivity|].
  cbn [map concat List.filter].
  rewrite List.filter_app, length_app, IH, tests_passed_row.
  destruct (onDayOf rt day event); cbn [length]; lia.
Qed.

(** When no two days of a list show the same day of the month, an
    event starts on at most one of them. *)
Lemma one_day_at_most rt days event :
  distinctDates rt days ->
  (length (List.filter (fun day => onDayOf rt day event) days) <= 1)%nat.
Proof.
  intros Hrows. apply filter_at_most_one. intros i j x y Hi Hj Hx Hy.
  unfold onDayOf in Hx, Hy. cbv zeta in Hx, Hy.
  apply andb_true_iff in Hx as [[Hx _]%andb_true_iff _].
  apply andb_true_iff in Hy as [[Hy _]%andb_true_iff _].
  apply strictEq_true in Hx as (d & Hd & Hxd), Hy as (d' & Hd' & Hyd).
  assert (d' = d) by congruence. subst d'.
  destruct (Nat.eq_dec i j) as [Heq | Hne]; [exact Heq|].
  pose proof (Hrows i j x y Hne Hi Hj) as Hdiff.
  rewrite Hxd, Hyd in Hdiff. cbn [strictEq] in Hdiff.
  rewrite Z.eqb_refl in Hdiff. discriminate Hdiff.
Qed.

Lemma one_slot_at_most rt slots event :
  NoDup (map slotStart slots) ->
  (length (List.filter (fun slot => atStartOf rt slot event) slots) <= 1)%nat.
Proof.
  intros Hnd. apply filter_at_most_one. intros i j x y Hi Hj Hx Hy.
  unfold atStartOf in Hx, Hy. cbv zeta in Hx, Hy.
  apply andb_true_iff in Hx as [Hxh Hxm], Hy as [Hyh Hym].
  apply strictEq_Some in Hxh, Hxm, Hyh, Hym.
  apply (NoDup_lookup (map slotStart slots) i j (slotStart x)); [exact Hnd| |].
  - rewrite lookup_map, Hi. reflexivity.
  - rewrite lookup_map, Hj. cbn. unfold slotStart. do 2 f_equal; congruence.
Qed.

Lemma existsb_map {X Y} (g : X -> Y) (f : Y -> bool) (l : list X) :
  existsb f (map g l) = existsb (fun x => f (g x)) l.
Proof.
  induction l as [|x l IH]; [reflexivity|]. cbn [map existsb]. rewrite IH. reflexivity.
Qed.

Lemma inSomeCell_flat rt (days : list Date) slots event :
  existsb (fun p => p event) (concat (map (fun day => map (startsAt rt day) slots) days))
  = inSomeCell rt days slots event.
Proof.
  unfold inSomeCell. induction days as [|day days IH]; [reflexivity|].
  cbn [map concat existsb]. rewrite existsb_app, IH, existsb_map. reflexivity.
Qed.

(** X10: in a runtime whose zone has a constant offset from UTC, no
    event is shown twice.  For both revisions of [TIME_SLOTS], the event
    cards of the whole table of a month are, up to their order, the events
    of the list that pass the test of some cell, each as often as it is in
    the list; so the table never shows more cards than there are events,
    and shows no card twice when the list has no event twice. *)
Theorem X10_no_event_shown_twice : forall rt tza slots st,
  constantOffset rt tza ->
  configuredSlots slots ->
  Permutation
    (displayed (tableBody rt slots st))
    (List.filter (inSomeCell rt (getDaysInMonth rt (currentDate st)) slots)
       (events st))
  /\ (length (displayed (tableBody rt slots st)) <= length (events st))%nat
  /\ (NoDup (events st) -> NoDup (displayed (tableBody rt slots st))).
Proof.
  intros rt tza slots st Hc Hs.
  assert (distinctDates rt (getDaysInMonth rt (currentDate st))) as Hrows
    by apply (axis_distinct rt Hc).
  assert (Permutation
            (displayed (tableBody rt slots st))
            (List.filter (inSomeCell rt (getDaysInMonth rt (currentDate st)) slots)
               (events st))) as Hperm.
  { rewrite displayed_tableBody.
    etransitivity.
    - apply filters_partition. intros event _. rewrite tests_passed.
      pose proof (one_day_at_most rt _ event Hrows) as Hd.
      pose proof (one_slot_at_most rt slots event (slot_starts_distinct slots Hs)) as Ht.
      nia.
    - erewrite filter_agree; [reflexivity|].
      intros event _. apply inSomeCell_flat. }
  split; [exact Hperm|]. split.
  - rewrite (Permutation_length Hperm). apply List.filter_length_le.
  - intros Hnd. rewrite Hperm.
    exact (sublist_NoDup _ _ Hnd (filter_sublist _ _)).
Qed.

Lemma X10_witness :
  constantOffset (runtimeAt 9) (9 * msPerHour)
  /\ configuredSlots TimetableCalendar.TIME_SLOTS
  /\ (length (displayed (tableBody (runtimeAt 9) TimetableCalendar.TIME_SLOTS
                          {| events := [eventTokyoMorning; eventNewYorkMorning;
                                        eventTokyoMorning];
                             error := None;
                             currentDate := midMarch2024 |})) <= 3)%nat.
Proof.
  split; [exact (runtimeAt_constant 9)|].
  split; [left; reflexivity|].
  exact (proj1 (proj2 (X10_no_event_shown_twice (runtimeAt 9) (9 * msPerHour)
                         TimetableCalendar.TIME_SLOTS
                         {| events := [eventTokyoMorning; eventNewYorkMorning;
                                       eventTokyoMorning];
                            error := None;
                            currentDate := midMarch2024 |}
                         (runtimeAt_constant 9) (or_introl eq_refl)))).
Defined.

Lemma displayed_In rt slots st event :
  In event (displayed (tableBody rt slots st)) ->
  exists day timeSlot,
    In day (getDaysInMonth rt (currentDate st)) /\ In timeSlot slots
    /\ In event (events st) /\ startsAt rt day timeSlot event = true.
Proof.
  rewrite displayed_tableBody. intros H.
  apply in_concat in H as (cell & Hcell & Hin).
  apply in_map_iff in Hcell as (p & <- & Hp).
  apply filter_In in Hin as [Hin Hpass].
  apply in_concat in Hp as (row & Hrow & Hp).
  apply in_map_iff in Hrow as (day & <- & Hday).
  apply in_map_iff in Hp as (timeSlot & <- & Hslot).
  eauto 10.
Qed.

(** X11: the later revision of the component changes no cell of the
    earlier one: for every state its table is the table of the earlier
    revision with one more cell at the end of each row, the cell of the
    period that starts at 18:00, and its event cards are those of the
    earlier revision and the events of that period. *)
Theorem X11_later_revision_adds_one_column : forall rt st,
  tableBody rt Part000.TIME_SLOTS st
  = map (withSixthPeriod rt st) (tableBody rt TimetableCalendar.TIME_SLOTS st)
  /\ (forall i j cell,
        cellAt rt TimetableCalendar.TIME_SLOTS st i j = Some cell ->
        cellAt rt Part000.TIME_SLOTS st i j = Some cell)
  /\ (forall event,
        In event (displayed (tableBody rt Part000.TIME_SLOTS st))
        <-> In event (displayed (tableBody rt TimetableCalendar.TIME_SLOTS st))
            \/ exists day,
                 In day (getDaysInMonth rt (currentDate st))
                 /\ In event (getEventsForTimeSlot rt (events st) day sixthPeriod)).
Proof.
  intros rt st. split; [|split].
  - unfold tableBody. rewrite map_map. reflexivity.
  - intros i j cell H.
    apply cellAt_Some in H as (day & timeSlot & Hday & Hslot & ->).
    apply cellAt_Some. exists day, timeSlot. split; [exact Hday|].
    split; [|reflexivity].
    change Part000.TIME_SLOTS with (TimetableCalendar.TIME_SLOTS ++ [sixthPeriod])%list.
    apply lookup_app_l_Some. exact Hslot.
  - intros event. rewrite !displayed_tableBody.
    change Part000.TIME_SLOTS with (TimetableCalendar.TIME_SLOTS ++ [sixthPeriod])%list.
    split.
    + intros H. apply in_concat in H as (cell & Hcell & Hin).
      apply in_map_iff in Hcell as (p & <- & Hp).
      apply in_concat in Hp as (row & Hrow & Hp).
      apply in_map_iff in Hrow as (day & <- & Hday).
      rewrite map_app in Hp. apply in_app_or in Hp as [Hp | [<- | []]].
      * left. apply in_concat. eexists. split; [|exact Hin].
        apply in_map_iff. eexists. split; [reflexivity|].
        apply in_concat. eexists. split; [|exact Hp].
        apply in_map_iff. eauto.
      * right. exists day. split; [exact Hday|exact Hin].
    + intros [H | (day & Hday & Hin)].
      * apply in_concat in H as (cell & Hcell & Hin).
        apply in_map_iff in Hcell as (p & <- & Hp).
        apply in_concat in Hp as (row & Hrow & Hp).
        apply in_map_iff in Hrow as (day & <- & Hday).
        apply in_concat. eexists. split; [|exact Hin].
        apply in_map_iff. eexists. split; [reflexivity|].
        apply in_concat. eexists. split; [apply in_map_iff; eauto|].
        rewrite map_app. apply in_or_app. left. exact Hp.
      * apply in_concat. eexists. split; [|exact Hin].
        apply in_map_iff. eexists. split; [reflexivity|].
        apply in_concat. eexists. split; [apply in_map_iff; eauto|].
        rewrite map_app. apply in_or_app. right. left. reflexivity.
Qed.

(** X12: what the component does with Invalid Dates.  The cells of a row
    whose day is an Invalid Date are empty; an event whose start string no
    [Date] can be made of is in no cell of any table; and with an Invalid
    Date as reference date the table has no row, the heading shows NaN for
    year and month, and 前月 and 翌月 lead to an Invalid Date again. *)
Theorem X12_invalid_dates : forall rt slots st,
  (forall timeSlot, getEventsForTimeSlot rt (events st) NaN timeSlot = [])
  /\ (forall event,
        newDateOfString rt (dateTime (start event)) = NaN ->
        ~ In event (displayed (tableBody rt slots st)))
  /\ (currentDate st = NaN ->
      tableBody rt slots st = []
      /\ heading rt (currentDate st) = (NaN, NaN)
      /\ currentDate (clickNext rt st) = NaN
      /\ currentDate (clickPrevious rt st) = NaN).
Proof.
  intros rt slots st. split; [|split].
  - intros timeSlot. unfold getEventsForTimeSlot.
    rewrite (filter_agree _ (fun _ => false)); [apply List.filter_false|].
    intros event _. rewrite startsAt_halves. unfold onDayOf. cbv zeta.
    destruct (getDate rt (newDateOfString rt (dateTime (start event))));
      reflexivity.
  - intros event Hnan Hin.
    apply displayed_In in Hin as (day & timeSlot & _ & _ & _ & Hpass).
    rewrite startsAt_halves in Hpass. unfold onDayOf in Hpass. cbv zeta in Hpass.
    rewrite Hnan in Hpass. discriminate Hpass.
  - intros Hcur. unfold tableBody, clickNext, clickPrevious. rewrite Hcur.
    rewrite getDaysInMonth_invalid. repeat split.
Qed.

End Display.

(** * The month buttons and the table *)

Section TurningTheTable.
Import ES ESFacts DateFacts ComponentFacts NavFacts.

(** In a zone of constant offset, the rows of the table of a reference
    date of a year outside 0..99 are the days of its month. *)
Lemma axis_shows rt {tza} (Hc : constantOffset rt tza) slots st u y m :
  currentDate st = Some u ->
  getFullYear rt (Some u) = Some y -> getMonth rt (Some u) = Some m ->
  Z.abs tza <= msPerDay ->
  -271820 <= y <= 275759 -> ~ (0 <= y <= 99) ->
  shownDays rt (tableBody rt slots st) = daysOfMonth y m.
Proof.
  intros Hcur Hy Hm Htz Hr Hny.
  assert (0 <= m <= 11) as Hmr by (eapply getMonth_range; exact Hm).
  destruct (MakeFullYear_cases y) as [Hfull _]. specialize (Hfull Hny).
  pose proof (DaysInMonth_bounds y m) as Hb.
  assert (newDate rt (Some y) (plus (Some m) (Some 1)) (Some 0)
          = Some (localMidnight rt y m (DaysInMonth y m))) as Hlast.
  { rewrite <- (newDate_valid rt Hc y m (DaysInMonth y m)); auto;
      [|rewrite Hfull; exact Hr|rewrite Hfull; lia].
    cbn [plus]. rewrite !newDate_Some. f_equal.
    unfold localMidnight. rewrite MakeDay_last by exact Hmr.
    rewrite Hfull. reflexivity. }
  unfold shownDays, daysOfMonth, tableBody. rewrite Hcur, map_map. cbn [fst].
  rewrite getDaysInMonth_spec, Hy, Hm, Hlast.
  rewrite (lastDay_getDate rt Hc y m _ Hmr Hlast), Hfull, map_map.
  apply map_ext_in. intros k Hk.
  apply list_elem_of_In, elem_of_seqZ in Hk.
  assert (newDate rt (Some y) (Some m) (Some k) = Some (localMidnight rt y m k)) as Hv
    by (apply (newDate_valid rt Hc); auto; rewrite Hfull; [exact Hr|lia]).
  apply (newDate_fields rt Hc) in Hv as (HY & HM & HD & _);
    [|exact Hmr|rewrite Hfull; lia].
  rewrite Hfull in HY.
  rewrite (newDate_valid rt Hc y m k); auto; [|rewrite Hfull; exact Hr|rewrite Hfull; lia].
  rewrite HY, HM, HD. reflexivity.
Qed.

(** X13: in a runtime whose zone has a constant offset from UTC, of at
    most a day, the month buttons turn the table by one month.  Clicked on a
    date whose day of the month exists in the target month, 翌月 and 前月
    give the table whose rows are the days 1 to the last of the month
    after, respectively before, in ascending order; the events are left as
    they are.  Clicked on a day that the target month does not have, 翌月
    gives the table of the month after the next, and 前月 the table of the
    same month again.  (Years 0..99, which the [Date] constructor reads as
    1900..1999, are left aside.) *)
Theorem X13_month_buttons_turn_the_table : forall rt tza slots st t y m d,
  constantOffset rt tza ->
  currentDate st = Some t ->
  showsDate rt y m d (Some t) ->
  Z.abs tza <= msPerDay ->
  -271819 <= y <= 275758 ->
  (~ (0 <= fst (successorMonth y m) <= 99) ->
   (d <= DaysInMonth (fst (successorMonth y m)) (snd (successorMonth y m)) ->
    shownDays rt (tableBody rt slots (clickNext rt st))
    = daysOfMonth (fst (successorMonth y m)) (snd (successorMonth y m)))
   /\ (DaysInMonth (fst (successorMonth y m)) (snd (successorMonth y m)) < d ->
       shownDays rt (tableBody rt slots (clickNext rt st)) = daysOfMonth y (m + 2)))
  /\ (~ (0 <= fst (predecessorMonth y m) <= 99) ->
      (d <= DaysInMonth (fst (predecessorMonth y m)) (snd (predecessorMonth y m)) ->
       shownDays rt (tableBody rt slots (clickPrevious rt st))
       = daysOfMonth (fst (predecessorMonth y m)) (snd (predecessorMonth y m)))
      /\ (DaysInMonth (fst (predecessorMonth y m)) (snd (predecessorMonth y m)) < d ->
          shownDays rt (tableBody rt slots (clickPrevious rt st)) = daysOfMonth y m))
  /\ events (clickNext rt st) = events st
  /\ events (clickPrevious rt st) = events st.
Proof.
  intros rt tza slots st t y m d Hc Hcur (Hy & Hm & Hd) Htz Hr.
  assert (0 <= m <= 11) as Hmr by (eapply getMonth_range; exact Hm).
  destruct (successorMonth_range y m Hmr) as (Hs1 & Hs2 & _).
  destruct (predecessorMonth_range y m Hmr) as (Hp1 & Hp2 & _).
  injection Hd as Hd. pose proof (date_range rt t) as Hdr. rewrite Hd in Hdr.
  split; [|split; [|split; reflexivity]].
  - intros Hny.
    destruct (nextMonth_value rt Hc t y m Hy Hm Htz ltac:(lia)) as [_ Hv].
    rewrite Hd in Hv.
    destruct (shifted_reading rt Hc (fst (successorMonth y m)) (snd (successorMonth y m))
                d (TimeWithinDay (LocalTime rt t)) Hs1 Hdr (TimeWithinDay_range _))
      as (_ & Hfits & Hovers).
    assert (currentDate (clickNext rt st)
            = Some (UTC rt (MakeDate (MakeDay (fst (successorMonth y m))
                                              (snd (successorMonth y m)) d)
                                     (TimeWithinDay (LocalTime rt t))))) as Hcur'
      by (unfold clickNext; cbn [currentDate]; rewrite Hcur; exact Hv).
    split.
    + intros Hfit. destruct (Hfits Hfit) as (Hy' & Hm' & _).
      apply (axis_shows rt Hc slots (clickNext rt st) _ _ _ Hcur' Hy' Hm' Htz);
        [lia|exact Hny].
    + intros Hover. destruct (Hovers Hover) as (Hle & Hy' & Hm' & _).
      assert (successorMonth y m = (y, m + 1)) as Hsucc.
      { unfold successorMonth in *. destruct (Z.eqb_spec m 11); [|reflexivity].
        cbn [fst snd] in Hover. cbn in Hover. lia. }
      rewrite Hsucc in Hy', Hm', Hcur', Hny. cbn [fst snd] in Hy', Hm', Hcur', Hny.
      replace (m + 2) with (m + 1 + 1) by lia.
      apply (axis_shows rt Hc slots (clickNext rt st) _ _ _ Hcur' Hy' Hm' Htz);
        [lia|exact Hny].
  - intros Hny.
    destruct (previousMonth_value rt Hc t y m Hy Hm Htz ltac:(lia)) as [_ Hv].
    rewrite Hd in Hv.
    destruct (shifted_reading rt Hc (fst (predecessorMonth y m))
                (snd (predecessorMonth y m))
                d (TimeWithinDay (LocalTime rt t)) Hp1 Hdr (TimeWithinDay_range _))
      as (_ & Hfits & Hovers).
    assert (currentDate (clickPrevious rt st)
            = Some (UTC rt (MakeDate (MakeDay (fst (predecessorMonth y m))
                                              (snd (predecessorMonth y m)) d)
                                     (TimeWithinDay (LocalTime rt t))))) as Hcur'
      by (unfold clickPrevious; cbn [currentDate]; rewrite Hcur; exact Hv).
    split.
    + intros Hfit. destruct (Hfits Hfit) as (Hy' & Hm' & _).
      apply (axis_shows rt Hc slots (clickPrevious rt st) _ _ _ Hcur' Hy' Hm' Htz);
        [lia|exact Hny].
    + intros Hover. destruct (Hovers Hover) as (Hle & Hy' & Hm' & _).
      assert (predecessorMonth y m = (y, m - 1)) as Hpred.
      { unfold predecessorMonth in *. destruct (Z.eqb_spec m 0); [|reflexivity].
        cbn [fst snd] in Hover. cbn in Hover. lia. }
      rewrite Hpred in Hy', Hm', Hcur', Hny. cbn [fst snd] in Hy', Hm', Hcur', Hny.
      replace (m - 1 + 1) with m in Hm' by lia.
      apply (axis_shows rt Hc slots (clickPrevious rt st) _ _ _ Hcur' Hy' Hm' Htz);
        [lia|exact Hny].
Qed.

Lemma X13_witness :
  (constantOffset (runtimeAt 9) (9 * msPerHour)
   /\ currentDate (initialState (Some endOfJanuary2024)) = Some endOfJanuary2024
   /\ showsDate (runtimeAt 9) 2024 0 31 (Some endOfJanuary2024)
   /\ Z.abs (9 * msPerHour) <= msPerDay
   /\ -271819 <= 2024 <= 275758)
  /\ shownDays (runtimeAt 9)
       (tableBody (runtimeAt 9) TimetableCalendar.TIME_SLOTS
          (clickNext (runtimeAt 9) (initialState (Some endOfJanuary2024))))
     = daysOfMonth 2024 2
  /\ shownDays (runtimeAt 9)
       (tableBody (runtimeAt 9) TimetableCalendar.TIME_SLOTS
          (clickPrevious (runtimeAt 9) (initialState (Some endOfJanuary2024))))
     = daysOfMonth 2023 11.
Proof.
  assert (showsDate (runtimeAt 9) 2024 0 31 (Some endOfJanuary2024)) as Hshow
    by (repeat split; reflexivity).
  assert (Z.abs (9 * msPerHour) <= msPerDay) as Htz
    by (vm_compute; intros Hgt; discriminate Hgt).
  assert (-271819 <= 2024 <= 275758) as Hr
    by (split; vm_compute; intros Hgt; discriminate Hgt).
  split; [split; [exact (runtimeAt_constant 9)|auto]|].
  destruct (X13_month_buttons_turn_the_table (runtimeAt 9) (9 * msPerHour)
              TimetableCalendar.TIME_SLOTS
              (initialState (Some endOfJanuary2024)) endOfJanuary2024 2024 0 31
              (runtimeAt_constant 9) eq_refl Hshow Htz Hr) as (Hnext & Hprev & _).
  split.
  - apply Hnext; [vm_compute; intros [_ Hgt]; apply Hgt; reflexivity
                 |vm_compute; reflexivity].
  - apply Hprev; [vm_compute; intros [_ Hgt]; apply Hgt; reflexivity
                 |vm_compute; intros Hgt; discriminate Hgt].
Defined.

End TurningTheTable.
